(** * Package-manager MCP server: the registry proxy and its version resolver

    A shallow embedding of [src/mcp_server.py].  The three POST operations
    ([get_package_info], [get_dependencies], [get_compatible_versions]) are
    functions of the request and of the answer the registry gives; the
    [try ... except Exception] around each body is an explicit handler of an
    error monad; the Python lists that the resolver builds, aliases and sorts
    in place live in a store of list objects. *)

From Stdlib Require Import List String Ascii ZArith NArith QArith Bool Lia.
From Stdlib Require Import Sorted Permutation.
From stdpp Require Import base list strings gmap.

Open Scope list_scope.
Open Scope string_scope.

(** ** Python strings

    A [str] is modelled by a Rocq [string] whose characters are the code
    points below 256. *)

Module PyStr.

(** [str.isspace] on one character (also the class [\s] of [re]). *)
Definition isspace (c : ascii) : bool :=
  let n := N_of_ascii c in
  ((9 <=? n) && (n <=? 13) || (28 <=? n) && (n <=? 32)
   || (n =? 133) || (n =? 160))%N.

Fixpoint lstrip (s : string) : string :=
  match s with
  | String c r => if isspace c then lstrip r else s
  | EmptyString => EmptyString
  end.

Fixpoint rstrip (s : string) : string :=
  match s with
  | String c r =>
      match rstrip r with
      | EmptyString => if isspace c then EmptyString else String c EmptyString
      | r' => String c r'
      end
  | EmptyString => EmptyString
  end.

(** [s.strip()] *)
Definition strip (s : string) : string := rstrip (lstrip s).

(** [s.startswith(p)] *)
Fixpoint startswith (s p : string) {struct p} : bool :=
  match p with
  | EmptyString => true
  | String a p' =>
      match s with
      | String b s' => Ascii.eqb a b && startswith s' p'
      | EmptyString => false
      end
  end.

(** [s[n:]] *)
Fixpoint drop (n : nat) (s : string) : string :=
  match n, s with
  | S n', String _ r => drop n' r
  | _, _ => s
  end.

(** [s.split(c)] for a separator of one character: never empty. *)
Fixpoint split (c : ascii) (s : string) : list string :=
  match s with
  | EmptyString => [EmptyString]
  | String a r =>
      if Ascii.eqb a c then EmptyString :: split c r
      else match split c r with
           | w :: ws => String a w :: ws
           | [] => [String a EmptyString]
           end
  end.

(** [sep.join(parts)] *)
Fixpoint join (sep : string) (parts : list string) : string :=
  match parts with
  | [] => EmptyString
  | [w] => w
  | w :: ws => w ++ sep ++ join sep ws
  end.

Definition lower_char (c : ascii) : ascii :=
  let n := N_of_ascii c in
  if ((65 <=? n) && (n <=? 90)
      || (192 <=? n) && (n <=? 222) && negb (n =? 215))%N
  then ascii_of_N (n + 32) else c.

(** [s.lower()] *)
Fixpoint lower (s : string) : string :=
  match s with
  | String c r => String (lower_char c) (lower r)
  | EmptyString => EmptyString
  end.

(** truth value of a string *)
Definition nonempty (s : string) : bool :=
  match s with EmptyString => false | _ => true end.

(** the characters of a string, as one-character strings *)
Fixpoint chars (s : string) : list string :=
  match s with
  | String c r => String c EmptyString :: chars r
  | EmptyString => []
  end.

(** [t in s] on strings: [t] occurs in [s] *)
Fixpoint contains (s t : string) : bool :=
  startswith s t ||
  match s with
  | String _ r => contains r t
  | EmptyString => false
  end.

End PyStr.

(** ** JSON documents and the Python values they decode to *)

(** A [float]: the finite ones are rationals. *)
Inductive pyfloat :=
| Fnan
| Finf (negative : bool)
| Ffin (q : Q).

#[warnings="-register-all"]
Inductive json :=
| JNull
| JBool (b : bool)
| JInt (z : Z)
| JFloat (f : pyfloat)
| JStr (s : string)
| JArr (items : list json)
| JObj (members : list (string * json)).

(** A [dict] with string keys keeps its insertion order. *)
Definition pydict := list (string * json).

Fixpoint dict_lookup (k : string) (d : pydict) : option json :=
  match d with
  | [] => None
  | (k', v) :: d' => if String.eqb k k' then Some v else dict_lookup k d'
  end.

(** [d[k] = v]: an existing key keeps its place. *)
Fixpoint dict_set (k : string) (v : json) (d : pydict) : pydict :=
  match d with
  | [] => [(k, v)]
  | (k', v') :: d' =>
      if String.eqb k k' then (k, v) :: d' else (k', v') :: dict_set k v d'
  end.

(** ** Exceptions *)

Inductive exn :=
| KeyError (key : json)
| IndexError
| TypeError (what : string)
| AttributeError (what : string)
| UnboundLocalError (name : string)
| InvalidVersion (version : string)
| ValidationError (field : string)
| ClientError (detail : string)
| ContentError (detail : string).

Definition Exc (A : Type) : Type := (exn + A)%type.

Definition bindE {A B : Type} (m : Exc A) (k : A -> Exc B) : Exc B :=
  match m with
  | inl e => inl e
  | inr a => k a
  end.

Notation "x <~ m ;; k" := (bindE m (fun x => k))
  (at level 100, m at next level, right associativity).

(** [mapE f l]: [f] on each element from left to right, up to the first
    that raises. *)
Fixpoint mapE {A B : Type} (f : A -> Exc B) (l : list A) : Exc (list B) :=
  match l with
  | [] => inr []
  | x :: l' => y <~ f x ;; ys <~ mapE f l' ;; inr (y :: ys)
  end.

(** [[x for x in l if cond(x)]] where [cond] may raise. *)
Fixpoint filterE {A : Type} (cond : A -> Exc bool) (l : list A) : Exc (list A) :=
  match l with
  | [] => inr []
  | x :: l' =>
      b <~ cond x ;; ys <~ filterE cond l' ;; inr (if b then x :: ys else ys)
  end.

(** ** The operations of the Python runtime on decoded JSON *)

Module Py.

Definition type_name (v : json) : string :=
  match v with
  | JNull => "NoneType"
  | JBool _ => "bool"
  | JInt _ => "int"
  | JFloat _ => "float"
  | JStr _ => "str"
  | JArr _ => "list"
  | JObj _ => "dict"
  end.

(** truth value, as [if v:] and [v or w] test it *)
Definition truthy (v : json) : bool :=
  match v with
  | JNull => false
  | JBool b => b
  | JInt z => negb (z =? 0)%Z
  | JFloat (Ffin q) => negb (Qeq_bool q 0)
  | JFloat _ => true
  | JStr s => PyStr.nonempty s
  | JArr l => match l with [] => false | _ => true end
  | JObj d => match d with [] => false | _ => true end
  end.

(** the numeric value of [bool], [int] and [float] objects *)
Definition number (v : json) : option pyfloat :=
  match v with
  | JBool b => Some (Ffin (if b then 1 else 0))
  | JInt z => Some (Ffin (inject_Z z))
  | JFloat f => Some f
  | _ => None
  end.

Definition float_eq (a b : pyfloat) : bool :=
  match a, b with
  | Ffin p, Ffin q => Qeq_bool p q
  | Finf s, Finf t => Bool.eqb s t
  | _, _ => false
  end.

(** [a == b] *)
Fixpoint eq (a b : json) {struct a} : bool :=
  match a, b with
  | JNull, JNull => true
  | JStr s, JStr t => String.eqb s t
  | JArr l, JArr m =>
      (fix go (l m : list json) : bool :=
         match l, m with
         | [], [] => true
         | x :: l', y :: m' => eq x y && go l' m'
         | _, _ => false
         end) l m
  | JObj d, JObj e =>
      (length d =? length e)%nat &&
      (fix go (d : list (string * json)) : bool :=
         match d with
         | [] => true
         | (k, v) :: d' =>
             match dict_lookup k e with
             | Some w => eq v w
             | None => false
             end && go d'
         end) d
  | _, _ =>
      match number a, number b with
      | Some x, Some y => float_eq x y
      | _, _ => false
      end
  end.

Definition hashable (v : json) : bool :=
  match v with
  | JArr _ | JObj _ => false
  | _ => true
  end.

(** Python's index normalisation: negative indices count from the end. *)
Definition index {A : Type} (l : list A) (i : Z) : Exc A :=
  let n := Z.of_nat (length l) in
  let j := if (i <? 0)%Z then (i + n)%Z else i in
  if ((0 <=? j) && (j <? n))%Z
  then match nth_error l (Z.to_nat j) with
       | Some x => inr x
       | None => inl IndexError
       end
  else inl IndexError.

Definition as_index (k : json) : option Z :=
  match k with
  | JInt z => Some z
  | JBool b => Some (if b then 1 else 0)%Z
  | _ => None
  end.

(** [v[k]] *)
Definition getitem (v k : json) : Exc json :=
  match v with
  | JObj d =>
      if hashable k then
        match k with
        | JStr s => match dict_lookup s d with
                    | Some x => inr x
                    | None => inl (KeyError k)
                    end
        | _ => inl (KeyError k)
        end
      else inl (TypeError ("unhashable type: " ++ type_name k))
  | JArr l =>
      match as_index k with
      | Some i => index l i
      | None => inl (TypeError "list indices must be integers or slices")
      end
  | JStr s =>
      match as_index k with
      | Some i => c <~ index (PyStr.chars s) i ;; inr (JStr c)
      | None => inl (TypeError "string indices must be integers")
      end
  | _ => inl (TypeError (type_name v ++ " object is not subscriptable"))
  end.

(** [list(v.keys())] *)
Definition keys (v : json) : Exc (list string) :=
  match v with
  | JObj d => inr (map fst d)
  | _ => inl (AttributeError (type_name v ++ " object has no attribute keys"))
  end.

(** [v.get(k, default)] *)
Definition get (v : json) (k : string) (default : json) : Exc json :=
  match v with
  | JObj d => inr (match dict_lookup k d with Some x => x | None => default end)
  | _ => inl (AttributeError (type_name v ++ " object has no attribute get"))
  end.

(** [x in v] *)
Definition contains (v x : json) : Exc bool :=
  match v with
  | JObj d =>
      if hashable x then
        inr (match x with
             | JStr s => match dict_lookup s d with Some _ => true | None => false end
             | _ => false
             end)
      else inl (TypeError ("unhashable type: " ++ type_name x))
  | JArr l => inr (existsb (fun y => eq y x) l)
  | JStr s =>
      match x with
      | JStr t => inr (PyStr.contains s t)
      | _ => inl (TypeError "in <string> requires string as left operand")
      end
  | _ => inl (TypeError ("argument of type " ++ type_name v ++ " is not iterable"))
  end.

(** the elements [for x in v] visits *)
Definition iter (v : json) : Exc (list json) :=
  match v with
  | JArr l => inr l
  | JStr s => inr (map JStr (PyStr.chars s))
  | JObj d => inr (map (fun kv => JStr (fst kv)) d)
  | _ => inl (TypeError (type_name v ++ " object is not iterable"))
  end.

End Py.

(** ** Request and response models

    The fields of the [BaseModel] classes.  The records hold validated
    values; the constructors that validate are in the section below. *)

Module PackageQuery.
Record t := {
  package_name : string;
  package_manager : string;
  version : option string
}.
End PackageQuery.

Module DependencyQuery.
Record t := {
  package_name : string;
  package_manager : string;
  version : option string;
  depth : option Z
}.
End DependencyQuery.

Module VersionQuery.
Record t := {
  package_name : string;
  package_manager : string;
  version_constraint : option string
}.
End VersionQuery.

Module PackageResult.
Record t := {
  package_name : string;
  package_manager : string;
  versions : list string;
  latest_version : string;
  description : option string;
  error : option string
}.
End PackageResult.

Module DependencyResult.
Record t := {
  package_name : string;
  package_manager : string;
  dependencies : pydict;
  error : option string
}.
End DependencyResult.

Module VersionResult.
Record t := {
  package_name : string;
  package_manager : string;
  compatible_versions : list string;
  recommended_version : option string;
  error : option string
}.
End VersionResult.

(** ** The registries *)

(** Registry API URLs *)
Definition PACKAGE_REGISTRIES : gmap string string :=
  <["pip" := "https://pypi.org/pypi/{package}/json"]>
    (<["npm" := "https://registry.npmjs.org/{package}"]> ∅).

(** [template.format(package=name)]: every field [{package}] of the template
    is replaced; [skip] counts the characters of a field still to drop. *)
Fixpoint format_from (skip : nat) (template package : string) : string :=
  match template with
  | EmptyString => EmptyString
  | String c r =>
      match skip with
      | S k => format_from k r package
      | O =>
          if PyStr.startswith template "{package}"
          then package ++ format_from 8 r package
          else String c (format_from 0 r package)
      end
  end.

Definition format_package (template package : string) : string :=
  format_from 0 template package.

(** What one [session.get(registry_url)] gives: the request raises (no
    connection, timeout, ...), or a response arrives with its status and the
    outcome of [await response.json()]. *)
Inductive reply :=
| Raises (e : exn)
| Response (status : Z) (body : Exc json).

(** The registries, as the server sees them: a reply for each URL. *)
Definition World := string -> reply.

(** A list object is named by its place in the store of list objects. *)
Abbreviation loc := nat.
Abbreviation heap := (list (list string)).

(** ** The libraries the server imports

    [packaging.version] and [pydantic] are not part of the repository: the
    model takes what the server uses of them as parameters.
    - [version_parse s] is [version.parse(s)], [None] when it raises
      [InvalidVersion]; [version_compare] is the order of the comparison
      keys of two parsed versions, on which [<], [<=], [>], [>=] rest.
    - [str_field v] is the validation of [v] for a field annotated [str],
      [dict_field v] for a field annotated [Dict]; [None] when it raises.
    - [omitted_optional] tells what a constructor does with a field that is
      annotated [Optional[...]], has no declared default and is left out of
      the call: [true] when the field is then [None], [false] when the call
      raises a validation error.
    - [str_exn e] is [str(e)]. *)
Class Libs := {
  Version : Type;
  version_parse : string -> option Version;
  version_compare : Version -> Version -> comparison;
  str_field : json -> option string;
  dict_field : json -> option pydict;
  omitted_optional : bool;
  str_exn : exn -> string
}.

(** What the theorems need of the libraries: the comparison keys are totally
    preordered, a value of the annotated type validates to itself, and an
    [Optional] field left out of a call is [None]. *)
Class LibsOk (L : Libs) : Prop := {
  version_compare_opp :
    forall a b, version_compare b a = CompOpp (version_compare a b);
  version_compare_trans :
    forall a b c o, version_compare a b = o -> version_compare b c = o ->
                    version_compare a c = o;
  str_field_str : forall s, str_field (JStr s) = Some s;
  dict_field_obj : forall d, dict_field (JObj d) = Some d;
  omitted_is_none : omitted_optional = true
}.

Section Server.

Context {L : Libs}.

(** [version.parse(s)] as a computation that may raise. *)
Definition parse (s : string) : Exc Version :=
  match version_parse s with
  | Some v => inr v
  | None => inl (InvalidVersion s)
  end.

Definition version_ge (a b : Version) : bool :=
  match version_compare a b with Lt => false | _ => true end.
Definition version_gt (a b : Version) : bool :=
  match version_compare a b with Gt => true | _ => false end.
Definition version_le (a b : Version) : bool :=
  match version_compare a b with Gt => false | _ => true end.
Definition version_lt (a b : Version) : bool :=
  match version_compare a b with Lt => true | _ => false end.

(** validation of a field annotated [str] *)
Definition validate_str (field : string) (v : json) : Exc string :=
  match str_field v with
  | Some s => inr s
  | None => inl (ValidationError field)
  end.

(** validation of a field annotated [Optional[str]] *)
Definition validate_optional_str (field : string) (v : json)
  : Exc (option string) :=
  match v with
  | JNull => inr None
  | _ => s <~ validate_str field v ;; inr (Some s)
  end.

Definition validate_dict (field : string) (v : json) : Exc pydict :=
  match dict_field v with
  | Some d => inr d
  | None => inl (ValidationError field)
  end.

(** *** The store of list objects

    [all_versions] and [compatible_versions] are names for list objects;
    [compatible_versions = all_versions] makes both name one object, a
    comprehension makes a new one, [list.sort] changes one in place. *)

Definition M (A : Type) : Type := heap -> Exc A * heap.

Definition ret {A : Type} (a : A) : M A := fun h => (inr a, h).
Definition raise {A : Type} (e : exn) : M A := fun h => (inl e, h).
Definition bindM {A B : Type} (m : M A) (k : A -> M B) : M B :=
  fun h => match m h with
           | (inl e, h') => (inl e, h')
           | (inr a, h') => k a h'
           end.
Definition lift {A : Type} (m : Exc A) : M A := fun h => (m, h).

(** a new list object *)
Definition alloc (l : list string) : M loc :=
  fun h => (inr (length h), (h ++ [l])%list).
(** the present contents of a list object *)
Definition load (p : loc) : M (list string) :=
  fun h => (inr (match h !! p with Some l => l | None => [] end), h).
(** overwrite the contents of a list object *)
Definition store (p : loc) (l : list string) : M unit :=
  fun h => (inr tt, <[p := l]> h).

#[local] Notation "x <- m ;; k" := (bindM m (fun x => k))
  (at level 100, m at next level, right associativity).

(** *** Sorting

    [l.sort(key=..., reverse=True)] is stable: it orders by decreasing key
    and leaves elements of equal key in their original order.  The keys are
    computed once for every element, in order, before anything moves. *)

Fixpoint insert_desc {K A : Type} (lt : K -> K -> bool)
         (x : K * A) (l : list (K * A)) : list (K * A) :=
  match l with
  | [] => [x]
  | y :: l' =>
      if lt (fst x) (fst y) then y :: insert_desc lt x l' else x :: l
  end.

Definition sort_desc {K A : Type} (lt : K -> K -> bool)
           (l : list (K * A)) : list (K * A) :=
  fold_right (insert_desc lt) [] l.

(** [p.sort(key=lambda v: version.parse(v), reverse=True)] *)
Definition sort_by_version (p : loc) : M unit :=
  vs <- load p ;;
  ks <- lift (mapE parse vs) ;;
  store p (map snd (sort_desc version_lt (combine ks vs))).

(** *** The version resolver (the body of [get_compatible_versions],
    from [compatible_versions = all_versions] to the end of the [if]) *)

(** [[v for v in all_versions if cond(v)]] *)
Definition comprehension (all_versions : loc)
           (cond : string -> Exc bool) : M loc :=
  vs <- load all_versions ;;
  r <- lift (filterE cond vs) ;;
  alloc r.

(** [version.parse(v) OP version.parse(bound)] *)
Definition compare_with (op : Version -> Version -> bool)
           (bound v : string) : Exc bool :=
  a <~ parse v ;; b <~ parse bound ;; inr (op a b).

(** The [if]/[elif] chain on the constraint: the list object that
    [compatible_versions] names afterwards. *)
Definition filter_versions (constraint : string)
           (all_versions compatible_versions : loc) : M loc :=
  if PyStr.startswith constraint ">=" then
    let min_version := PyStr.strip (PyStr.drop 2 constraint) in
    comprehension all_versions (compare_with version_ge min_version)
  else if PyStr.startswith constraint ">" then
    let min_version := PyStr.strip (PyStr.drop 1 constraint) in
    comprehension all_versions (compare_with version_gt min_version)
  else if PyStr.startswith constraint "<=" then
    let max_version := PyStr.strip (PyStr.drop 2 constraint) in
    comprehension all_versions (compare_with version_le max_version)
  else if PyStr.startswith constraint "<" then
    let max_version := PyStr.strip (PyStr.drop 1 constraint) in
    comprehension all_versions (compare_with version_lt max_version)
  else if PyStr.startswith constraint "==" then
    let exact_version := PyStr.strip (PyStr.drop 2 constraint) in
    comprehension all_versions (fun v => inr (String.eqb v exact_version))
  else if PyStr.startswith constraint "~=" then
    let compatible_version := PyStr.strip (PyStr.drop 2 constraint) in
    let parts := PyStr.split "." compatible_version in
    let prefix := PyStr.join "." (removelast parts) ++ "." in
    comprehension all_versions (fun v => inr (PyStr.startswith v prefix))
  else ret compatible_versions.

(** "Update recommended version": sort what is left and take its head. *)
Definition recommend (compatible_versions : loc) : M json :=
  vs <- load compatible_versions ;;
  match vs with
  | _ :: _ =>
      _ <- sort_by_version compatible_versions ;;
      sorted <- load compatible_versions ;;
      match sorted with
      | v :: _ => ret (JStr v)
      | [] => raise IndexError
      end
  | [] => ret JNull
  end.

Definition resolve (all_versions : loc) (latest_version : json)
           (version_constraint : option string) : M (loc * json) :=
  let compatible_versions := all_versions in
  let recommended_version := latest_version in
  match version_constraint with
  | Some constraint =>
      if PyStr.nonempty constraint then
        compatible_versions <-
          filter_versions constraint all_versions compatible_versions ;;
        recommended_version <- recommend compatible_versions ;;
        ret (compatible_versions, recommended_version)
      else ret (compatible_versions, recommended_version)
  | None => ret (compatible_versions, recommended_version)
  end.

(** *** Building the response models

    Each constructor validates what it is given against the annotations of
    its class.  A name, a manager and a version list that are already
    [str] values pass as they are; a value taken from the registry
    document is validated.  A field that the call leaves out takes its
    declared default; [recommended_version] of [VersionResult] is the one
    field that is left out of calls and has none. *)

Definition new_PackageResult (package_name package_manager : string)
           (versions : list string) (latest_version : json)
           (description : option json) (error : option string)
  : Exc PackageResult.t :=
  latest <~ validate_str "latest_version" latest_version ;;
  descr <~ match description with
           | Some d => validate_optional_str "description" d
           | None => inr None
           end ;;
  inr {| PackageResult.package_name := package_name;
         PackageResult.package_manager := package_manager;
         PackageResult.versions := versions;
         PackageResult.latest_version := latest;
         PackageResult.description := descr;
         PackageResult.error := error |}.

Definition new_DependencyResult (package_name package_manager : string)
           (dependencies : json) (error : option string)
  : Exc DependencyResult.t :=
  deps <~ validate_dict "dependencies" dependencies ;;
  inr {| DependencyResult.package_name := package_name;
         DependencyResult.package_manager := package_manager;
         DependencyResult.dependencies := deps;
         DependencyResult.error := error |}.

Definition new_VersionResult (package_name package_manager : string)
           (compatible_versions : list string)
           (recommended_version : option json) (error : option string)
  : Exc VersionResult.t :=
  recommended <~ match recommended_version with
                 | Some v => validate_optional_str "recommended_version" v
                 | None =>
                     if omitted_optional then inr None
                     else inl (ValidationError "recommended_version")
                 end ;;
  inr {| VersionResult.package_name := package_name;
         VersionResult.package_manager := package_manager;
         VersionResult.compatible_versions := compatible_versions;
         VersionResult.recommended_version := recommended;
         VersionResult.error := error |}.

(** [v[k]] for a key that is a string literal *)
Definition item (v : json) (k : string) : Exc json := Py.getitem v (JStr k).

(** *** [POST /package_info] *)

Definition package_info_body (http_get : World) (query : PackageQuery.t)
  : Exc PackageResult.t :=
  let package_manager := PyStr.lower (PackageQuery.package_manager query) in
  match PACKAGE_REGISTRIES !! package_manager with
  | None =>
      new_PackageResult (PackageQuery.package_name query) package_manager
        [] (JStr "") None
        (Some ("Unsupported package manager: " ++ package_manager))
  | Some template =>
      (* Fetch package information from registry *)
      let registry_url :=
        format_package template (PackageQuery.package_name query) in
      match http_get registry_url with
      | Raises e => inl e
      | Response status body =>
          if negb (status =? 200)%Z then
            new_PackageResult (PackageQuery.package_name query)
              package_manager [] (JStr "") None
              (Some ("Package not found: " ++ PackageQuery.package_name query))
          else
            data <~ body ;;
            (* Parse response based on package manager *)
            parsed <~
              (if String.eqb package_manager "pip" then
                 releases <~ item data "releases" ;;
                 versions <~ Py.keys releases ;;
                 info <~ item data "info" ;;
                 latest_version <~ item info "version" ;;
                 info' <~ item data "info" ;;
                 description <~ item info' "summary" ;;
                 inr (versions, latest_version, description)
               else if String.eqb package_manager "npm" then
                 entries <~ item data "versions" ;;
                 versions <~ Py.keys entries ;;
                 tags <~ item data "dist-tags" ;;
                 latest_version <~ item tags "latest" ;;
                 description <~ item data "description" ;;
                 inr (versions, latest_version, description)
               else inr ([], JStr "", JStr "")) ;;
            let '(versions, latest_version, description) := parsed in
            new_PackageResult (PackageQuery.package_name query)
              package_manager versions latest_version (Some description) None
      end
  end.

(** The [try]/[except Exception] around the body.  [inl] is a fault that
    leaves the operation. *)
Definition get_package_info (http_get : World) (query : PackageQuery.t)
  : Exc PackageResult.t :=
  match package_info_body http_get query with
  | inr result => inr result
  | inl e =>
      new_PackageResult (PackageQuery.package_name query)
        (PackageQuery.package_manager query) [] (JStr "") None
        (Some (str_exn e))
  end.

(** *** [POST /dependencies] *)

Definition is_operator_char (c : ascii) : bool :=
  existsb (Ascii.eqb c) ["<"; ">"; "="; "~"; "!"]%char.

(** the longest prefix without a character of [<>=~!], and the rest *)
Fixpoint span_name (s : string) : string * string :=
  match s with
  | String c r =>
      if is_operator_char c then (EmptyString, s)
      else let '(name, rest) := span_name r in (String c name, rest)
  | EmptyString => (EmptyString, EmptyString)
  end.

(** the longest prefix without a newline *)
Fixpoint to_newline (s : string) : string :=
  match s with
  | String c r =>
      if Ascii.eqb c "010"%char then EmptyString else String c (to_newline r)
  | EmptyString => EmptyString
  end.

(** [re.match(r"([^<>=~!]+)(.+)?", dep)]: groups 1 and 2 of the match. *)
Definition match_dependency (dep : string) : option (string * option string) :=
  let '(name, rest) := span_name dep in
  if PyStr.nonempty name then
    let version := to_newline rest in
    Some (name, if PyStr.nonempty version then Some version else None)
  else None.

(** The loop over [requires_dist], on the dictionary built so far. *)
Fixpoint parse_requires (deps : list json) (dependencies : pydict)
  : Exc pydict :=
  match deps with
  | [] => inr dependencies
  | dep :: deps' =>
      match dep with
      | JStr dep =>
          (* Parse dependency string *)
          match match_dependency dep with
          | Some (g1, g2) =>
              let dep_name := PyStr.strip g1 in
              let dep_version := match g2 with Some v => v | None => "" end in
              parse_requires deps' (dict_set dep_name (JStr dep_version) dependencies)
          | None => parse_requires deps' dependencies
          end
      | _ => inl (TypeError "expected string or bytes-like object")
      end
  end.

(** [query.version or fallback] *)
Definition version_or (version : option string) (fallback : Exc json)
  : Exc json :=
  match version with
  | Some v => if PyStr.nonempty v then inr (JStr v) else fallback
  | None => fallback
  end.

Definition dependencies_body (http_get : World) (query : DependencyQuery.t)
  : Exc DependencyResult.t :=
  let package_manager :=
    PyStr.lower (DependencyQuery.package_manager query) in
  match PACKAGE_REGISTRIES !! package_manager with
  | None =>
      new_DependencyResult (DependencyQuery.package_name query)
        package_manager (JObj [])
        (Some ("Unsupported package manager: " ++ package_manager))
  | Some template =>
      (* Fetch package information from registry *)
      let registry_url :=
        format_package template (DependencyQuery.package_name query) in
      match http_get registry_url with
      | Raises e => inl e
      | Response status body =>
          if negb (status =? 200)%Z then
            new_DependencyResult (DependencyQuery.package_name query)
              package_manager (JObj [])
              (Some ("Package not found: "
                       ++ DependencyQuery.package_name query))
          else
            data <~ body ;;
            (* Extract dependencies based on package manager *)
            dependencies <~
              (if String.eqb package_manager "pip" then
                 version_to_check <~
                   version_or (DependencyQuery.version query)
                     (info <~ item data "info" ;; item info "version") ;;
                 releases <~ item data "releases" ;;
                 present <~ Py.contains releases version_to_check ;;
                 if present then
                   (* Get dependencies from requires_dist *)
                   info <~ item data "info" ;;
                   requires_dist <~ Py.get info "requires_dist" (JArr []) ;;
                   if Py.truthy requires_dist then
                     deps <~ Py.iter requires_dist ;;
                     d <~ parse_requires deps [] ;;
                     inr (JObj d)
                   else inr (JObj [])
                 else inr (JObj [])
               else if String.eqb package_manager "npm" then
                 version_to_check <~
                   version_or (DependencyQuery.version query)
                     (tags <~ item data "dist-tags" ;; item tags "latest") ;;
                 entries <~ item data "versions" ;;
                 present <~ Py.contains entries version_to_check ;;
                 if present then
                   (* Get dependencies from package.json *)
                   entries' <~ item data "versions" ;;
                   entry <~ Py.getitem entries' version_to_check ;;
                   Py.get entry "dependencies" (JObj [])
                 else inr (JObj [])
               else inr (JObj [])) ;;
            new_DependencyResult (DependencyQuery.package_name query)
              package_manager dependencies None
      end
  end.

Definition get_dependencies (http_get : World) (query : DependencyQuery.t)
  : Exc DependencyResult.t :=
  match dependencies_body http_get query with
  | inr result => inr result
  | inl e =>
      new_DependencyResult (DependencyQuery.package_name query)
        (DependencyQuery.package_manager query) (JObj [])
        (Some (str_exn e))
  end.

(** *** [POST /compatible_versions] *)

(** "Get all versions": [all_versions] starts as a new empty list; the
    branch of the registry puts a new list of the keys in its place and
    binds [latest_version].  [None] is a [latest_version] left unbound. *)
Definition get_all_versions (package_manager : string) (data : json)
  : M (loc * option json) :=
  all_versions <- alloc [] ;;
  if String.eqb package_manager "pip" then
    releases <- lift (item data "releases") ;;
    versions <- lift (Py.keys releases) ;;
    all_versions <- alloc versions ;;
    info <- lift (item data "info") ;;
    latest_version <- lift (item info "version") ;;
    ret (all_versions, Some latest_version)
  else if String.eqb package_manager "npm" then
    entries <- lift (item data "versions") ;;
    versions <- lift (Py.keys entries) ;;
    all_versions <- alloc versions ;;
    tags <- lift (item data "dist-tags") ;;
    latest_version <- lift (item tags "latest") ;;
    ret (all_versions, Some latest_version)
  else ret (all_versions, None).

Definition compatible_versions_body (http_get : World)
           (query : VersionQuery.t) : M VersionResult.t :=
  let package_manager := PyStr.lower (VersionQuery.package_manager query) in
  match PACKAGE_REGISTRIES !! package_manager with
  | None =>
      lift (new_VersionResult (VersionQuery.package_name query)
              package_manager [] None
              (Some ("Unsupported package manager: " ++ package_manager)))
  | Some template =>
      (* Fetch package information from registry *)
      let registry_url :=
        format_package template (VersionQuery.package_name query) in
      match http_get registry_url with
      | Raises e => raise e
      | Response status body =>
          if negb (status =? 200)%Z then
            lift (new_VersionResult (VersionQuery.package_name query)
                    package_manager [] None
                    (Some ("Package not found: "
                             ++ VersionQuery.package_name query)))
          else
            data <- lift body ;;
            (* Get all versions *)
            got <- get_all_versions package_manager data ;;
            let '(all_versions, latest_version) := got in
            (* Filter compatible versions if version_constraint is provided *)
            latest_version <-
              match latest_version with
              | Some v => ret v
              | None => raise (UnboundLocalError "latest_version")
              end ;;
            resolved <-
              resolve all_versions latest_version
                (VersionQuery.version_constraint query) ;;
            let '(compatible_versions, recommended_version) := resolved in
            versions <- load compatible_versions ;;
            lift (new_VersionResult (VersionQuery.package_name query)
                    package_manager versions (Some recommended_version) None)
      end
  end.

(** The operation with the final store of the run: the model starts from
    the empty store, so [all_versions] of a run that gets that far is the
    second list object. *)
Definition run_compatible_versions (http_get : World)
           (query : VersionQuery.t) : Exc VersionResult.t * heap :=
  match compatible_versions_body http_get query [] with
  | (inr result, h) => (inr result, h)
  | (inl e, h) =>
      (new_VersionResult (VersionQuery.package_name query)
         (VersionQuery.package_manager query) [] None (Some (str_exn e)), h)
  end.

Definition get_compatible_versions (http_get : World)
           (query : VersionQuery.t) : Exc VersionResult.t :=
  fst (run_compatible_versions http_get query).

(** *** Vocabulary of the statements *)

Definition parsable (v : string) : Prop := is_Some (version_parse v).

(** [a] is not below [b] in the order of the parsed versions *)
Definition at_least (a b : string) : Prop :=
  exists ka kb, version_parse a = Some ka /\ version_parse b = Some kb
                /\ version_compare ka kb <> Lt.

(** sorted by parsed version, greatest first *)
Definition descending (l : list string) : Prop := StronglySorted at_least l.

(** the order that [sort_desc] puts decorated elements in *)
Definition key_ge {A : Type} (x y : Version * A) : Prop :=
  version_compare (fst x) (fst y) <> Lt.

(** the four comparison operators with the test each one makes *)
Definition comparison_operators
  : list (string * (Version -> Version -> bool)) :=
  [(">=", version_ge); (">", version_gt);
   ("<=", version_le); ("<", version_lt)].

(** the literal prefix that [~=] asks of a candidate *)
Definition compatible_prefix (operand : string) : string :=
  PyStr.join "." (removelast (PyStr.split "." operand)) ++ ".".

(** The test of the comprehension in the branch of [filter_versions] that
    a constraint selects; [None] when no branch is taken. *)
Definition condition (constraint : string) : option (string -> Exc bool) :=
  if PyStr.startswith constraint ">=" then
    Some (compare_with version_ge (PyStr.strip (PyStr.drop 2 constraint)))
  else if PyStr.startswith constraint ">" then
    Some (compare_with version_gt (PyStr.strip (PyStr.drop 1 constraint)))
  else if PyStr.startswith constraint "<=" then
    Some (compare_with version_le (PyStr.strip (PyStr.drop 2 constraint)))
  else if PyStr.startswith constraint "<" then
    Some (compare_with version_lt (PyStr.strip (PyStr.drop 1 constraint)))
  else if PyStr.startswith constraint "==" then
    Some (fun v => inr (String.eqb v (PyStr.strip (PyStr.drop 2 constraint))))
  else if PyStr.startswith constraint "~=" then
    Some (fun v => inr (PyStr.startswith v
                          (compatible_prefix
                             (PyStr.strip (PyStr.drop 2 constraint)))))
  else None.

(** what is left of the candidates after the filtering of a constraint *)
Definition matches (constraint : string) (candidates : list string)
  : Exc (list string) :=
  match condition constraint with
  | Some cond => filterE cond candidates
  | None => inr candidates
  end.

(** the constraint starts with none of the six operators *)
Definition unrecognized (constraint : string) : Prop :=
  Forall (fun op => PyStr.startswith constraint op = false)
         [">="; ">"; "<="; "<"; "=="; "~="].

(** the contents that [recommend] leaves in a list of contents [m]; the
    recommendation is their head *)
Definition ranked (m : list string) : Exc (list string) :=
  match m with
  | [] => inr []
  | _ :: _ =>
      ks <~ mapE parse m ;;
      inr (map snd (sort_desc version_lt (combine ks m)))
  end.

(** The registry is a supported one and answers the request for the
    package with status 200 and a document from which "Get all versions"
    takes the candidate list and the latest version. *)
Definition registry_reports (http_get : World) (query : VersionQuery.t)
           (candidates : list string) (latest_version : json) : Prop :=
  exists template data,
    PACKAGE_REGISTRIES !! PyStr.lower (VersionQuery.package_manager query)
      = Some template
    /\ http_get (format_package template (VersionQuery.package_name query))
       = Response 200 (inr data)
    /\ get_all_versions (PyStr.lower (VersionQuery.package_manager query))
         data []
       = (inr (1, Some latest_version), [[]; candidates]).

(** the result of a resolution that raised nothing *)
Definition resolved (query : VersionQuery.t) (versions : list string)
           (recommended : option string) : VersionResult.t :=
  {| VersionResult.package_name := VersionQuery.package_name query;
     VersionResult.package_manager :=
       PyStr.lower (VersionQuery.package_manager query);
     VersionResult.compatible_versions := versions;
     VersionResult.recommended_version := recommended;
     VersionResult.error := None |}.

(** The shape every failure is given: the identifying fields, empty data
    fields and a message. *)
Definition package_failure (name manager message : string)
  : PackageResult.t :=
  {| PackageResult.package_name := name;
     PackageResult.package_manager := manager;
     PackageResult.versions := [];
     PackageResult.latest_version := "";
     PackageResult.description := None;
     PackageResult.error := Some message |}.

Definition dependency_failure (name manager message : string)
  : DependencyResult.t :=
  {| DependencyResult.package_name := name;
     DependencyResult.package_manager := manager;
     DependencyResult.dependencies := [];
     DependencyResult.error := Some message |}.

Definition version_failure (name manager message : string)
  : VersionResult.t :=
  {| VersionResult.package_name := name;
     VersionResult.package_manager := manager;
     VersionResult.compatible_versions := [];
     VersionResult.recommended_version := None;
     VersionResult.error := Some message |}.

(** What the failures named in the specification give, for a request of
    [name] to [manager] (as sent) whose body computes [body] and whose
    result is [r] of shape [failure]:
    - a fault raised in the body, whatever it is, gives its text;
    - a manager that is not in the table gives "Unsupported ...";
    - a request that raises (transport failure) gives the text of what it
      raised, a status other than 200 gives "Package not found ...", and
      a body that does not decode gives the text of the decoding fault. *)
Definition failures_reported {R : Type} (http_get : World)
           (name manager : string) (body : Exc R)
           (failure : string -> string -> string -> R) (r : R) : Prop :=
  (forall e, body = inl e -> r = failure name manager (str_exn e))
  /\ (PACKAGE_REGISTRIES !! PyStr.lower manager = None ->
      r = failure name (PyStr.lower manager)
            ("Unsupported package manager: " ++ PyStr.lower manager))
  /\ (forall template,
        PACKAGE_REGISTRIES !! PyStr.lower manager = Some template ->
        match http_get (format_package template name) with
        | Raises e => r = failure name manager (str_exn e)
        | Response status document =>
            if (status =? 200)%Z then
              match document with
              | inl e => r = failure name manager (str_exn e)
              | inr _ => True
              end
            else r = failure name (PyStr.lower manager)
                       ("Package not found: " ++ name)
        end).

(** the result the handler of [get_compatible_versions] builds *)
Definition failed (query : VersionQuery.t) (e : exn) : VersionResult.t :=
  {| VersionResult.package_name := VersionQuery.package_name query;
     VersionResult.package_manager := VersionQuery.package_manager query;
     VersionResult.compatible_versions := [];
     VersionResult.recommended_version := None;
     VersionResult.error := Some (str_exn e) |}.

(** C3 as the specification words it: an unparsable candidate costs only
    its own comparison.  Every parsable candidate that passes the test
    against the bound is returned, and a version is recommended. *)
Definition batch_survives (http_get : World) (query : VersionQuery.t)
           (candidates : list string)
           (test : Version -> Version -> bool) (bound : string) : Prop :=
  exists r,
    get_compatible_versions http_get query = inr r
    /\ forall v pv pb,
         In v candidates -> version_parse v = Some pv ->
         version_parse bound = Some pb -> test pv pb = true ->
         In v (VersionResult.compatible_versions r)
         /\ VersionResult.recommended_version r <> None.

(** C4 as the specification words it: everything comes back and no error
    is signalled. *)
Definition passes_through (http_get : World) (query : VersionQuery.t)
           (candidates : list string) : Prop :=
  exists r,
    get_compatible_versions http_get query = inr r
    /\ Permutation candidates (VersionResult.compatible_versions r)
    /\ VersionResult.error r = None.

(** C8 as the specification words it: what remains is returned in
    descending order with its first element recommended; nothing
    remaining, nothing recommended. *)
Definition ranks_matches (http_get : World) (query : VersionQuery.t)
           (remaining : list string) : Prop :=
  exists r,
    get_compatible_versions http_get query = inr r
    /\ VersionResult.error r = None
    /\ Permutation remaining (VersionResult.compatible_versions r)
    /\ descending (VersionResult.compatible_versions r)
    /\ VersionResult.recommended_version r
       = head (VersionResult.compatible_versions r).

End Server.

(** ** A model of [packaging.version]

    Version identifiers as [packaging.version.Version] reads them (PEP 440):
    optional [v], optional epoch [N!], release [N(.N)*], optional pre-, post-
    and dev-release segments, optional local version [+...], in any letter
    case and between optional white space.  The comparison key is the one of
    [_cmpkey]. *)

Module Pep440.

Inductive pre_letter := PreA | PreB | PreRC.
Inductive local_part := LocalStr (s : string) | LocalInt (n : N).

Record version := {
  epoch : N;
  release : list N;
  pre : option (pre_letter * N);
  post : option N;
  dev : option N;
  local : option (list local_part)
}.

Definition is_digit (c : ascii) : bool :=
  let n := N_of_ascii c in ((48 <=? n) && (n <=? 57))%N.
Definition digit (c : ascii) : N := (N_of_ascii c - 48)%N.
Definition is_alnum (c : ascii) : bool :=
  let n := N_of_ascii c in is_digit c || ((97 <=? n) && (n <=? 122))%N.
Definition is_separator (c : ascii) : bool :=
  existsb (Ascii.eqb c) ["-"; "_"; "."]%char.

(** the decimal number at the head of [s], with [cur] already read *)
Fixpoint read_number (s : string) (cur : N) : N * string :=
  match s with
  | String c r => if is_digit c then read_number r (10 * cur + digit c)%N
                  else (cur, s)
  | EmptyString => (cur, s)
  end.

(** [[0-9]+]: [None] without a digit *)
Definition number (s : string) : option (N * string) :=
  match s with
  | String c _ => if is_digit c then Some (read_number s 0) else None
  | EmptyString => None
  end.

(** the release segment after its first digit has been seen *)
Fixpoint read_release (s : string) (cur : N) (acc : list N)
  : list N * string :=
  match s with
  | String c r =>
      if is_digit c then read_release r (10 * cur + digit c)%N acc
      else if Ascii.eqb c "."%char then
        match r with
        | String d _ =>
            if is_digit d then read_release r 0%N (acc ++ [cur])%list
            else ((acc ++ [cur])%list, s)
        | EmptyString => ((acc ++ [cur])%list, s)
        end
      else ((acc ++ [cur])%list, s)
  | EmptyString => ((acc ++ [cur])%list, s)
  end.

(** [[-_\.]?] *)
Definition skip_separator (s : string) : string :=
  match s with
  | String c r => if is_separator c then r else s
  | EmptyString => s
  end.

Definition strip_prefix (p s : string) : option string :=
  if PyStr.startswith s p then Some (PyStr.drop (String.length p) s) else None.

(** the first alternative of [labels] that [s] starts with *)
Fixpoint read_label {X : Type} (labels : list (string * X)) (s : string)
  : option (X * string) :=
  match labels with
  | [] => None
  | (l, x) :: labels' =>
      match strip_prefix l s with
      | Some r => Some (x, r)
      | None => read_label labels' s
      end
  end.

(** [[-_\.]? (label) [-_\.]? ([0-9]+)?]; a missing number is 0 *)
Definition letter_segment {X : Type} (labels : list (string * X))
           (s : string) : option (X * N * string) :=
  match read_label labels (skip_separator s) with
  | Some (x, r) =>
      let r' := skip_separator r in
      match number r' with
      | Some (n, rest) => Some (x, n, rest)
      | None => Some (x, 0%N, r')
      end
  | None => None
  end.

Definition pre_labels : list (string * pre_letter) :=
  [("alpha", PreA); ("a", PreA); ("beta", PreB); ("b", PreB);
   ("preview", PreRC); ("pre", PreRC); ("c", PreRC); ("rc", PreRC)].
Definition post_labels : list (string * unit) :=
  [("post", tt); ("rev", tt); ("r", tt)].
Definition dev_labels : list (string * unit) := [("dev", tt)].

(** the post-release segment: [-N], or a labelled one *)
Definition post_segment (s : string) : option (N * string) :=
  match match s with
        | String "-" r => number r
        | _ => None
        end with
  | Some nr => Some nr
  | None => match letter_segment post_labels s with
            | Some (_, n, rest) => Some (n, rest)
            | None => None
            end
  end.

(** the parts of a local version, cut at [-], [_] and [.] *)
Fixpoint split_local (s : string) : list string :=
  match s with
  | EmptyString => [EmptyString]
  | String c r =>
      if is_separator c then EmptyString :: split_local r
      else match split_local r with
           | w :: ws => String c w :: ws
           | [] => [String c EmptyString]
           end
  end.

Fixpoint all_chars (p : ascii -> bool) (s : string) : bool :=
  match s with
  | String c r => p c && all_chars p r
  | EmptyString => true
  end.

Definition local_of (part : string) : local_part :=
  if all_chars is_digit part then LocalInt (fst (read_number part 0))
  else LocalStr part.

(** [+ [a-z0-9]+ ([-_\.][a-z0-9]+)*] up to the end of the text *)
Definition local_segment (s : string) : option (option (list local_part)) :=
  match s with
  | EmptyString => Some None
  | String "+" r =>
      let parts := split_local r in
      if forallb (fun w => PyStr.nonempty w && all_chars is_alnum w) parts
      then Some (Some (map local_of parts))
      else None
  | _ => None
  end.

Definition parse (text : string) : option version :=
  let s := PyStr.lower (PyStr.strip text) in
  let s := match s with String "v" r => r | _ => s end in
  let '(epoch, s) :=
    match number s with
    | Some (n, String "!" r) => (n, r)
    | _ => (0%N, s)
    end in
  match number s with
  | None => None
  | Some _ =>
      let '(release, s) := read_release s 0 [] in
      let '(pre, s) :=
        match letter_segment pre_labels s with
        | Some (l, n, r) => (Some (l, n), r)
        | None => (None, s)
        end in
      let '(post, s) :=
        match post_segment s with
        | Some (n, r) => (Some n, r)
        | None => (None, s)
        end in
      let '(dev, s) :=
        match letter_segment dev_labels s with
        | Some (_, n, r) => (Some n, r)
        | None => (None, s)
        end in
      match local_segment s with
      | Some local =>
          Some {| epoch := epoch; release := release; pre := pre;
                  post := post; dev := dev; local := local |}
      | None => None
      end
  end.

(** *** The comparison key *)

(** the release without its trailing zeros *)
Fixpoint strip_zeros (l : list N) : list N :=
  match l with
  | [] => []
  | n :: l' =>
      match strip_zeros l' with
      | [] => if (n =? 0)%N then [] else [n]
      | t => n :: t
      end
  end.

Definition key : Type :=
  N * (list N * ((N * N) * ((N * N) * ((N * N) * list (N * list N))))).

Definition letter_rank (l : pre_letter) : N :=
  match l with PreA => 1 | PreB => 2 | PreRC => 3 end.

Definition codes (s : string) : list N :=
  map N_of_ascii (list_ascii_of_string s).

(** [_cmpkey]: a missing segment is one of the two infinities, written
    here as a rank below or above the ranks of the present ones; in a
    local version a text part comes before every number. *)
Definition cmpkey (v : version) : key :=
  let pre_key :=
    match pre v, post v, dev v with
    | None, None, Some _ => (0, 0)
    | None, _, _ => (4, 0)
    | Some (l, n), _, _ => (letter_rank l, n)
    end%N in
  let post_key := match post v with None => (0, 0) | Some n => (1, n) end%N in
  let dev_key := match dev v with None => (1, 0) | Some n => (0, n) end%N in
  let local_key :=
    match local v with
    | None => []
    | Some parts =>
        map (fun p => match p with
                      | LocalInt n => (1%N, [n])
                      | LocalStr s => (0%N, codes s)
                      end) parts
    end in
  (epoch v, (strip_zeros (release v), (pre_key, (post_key, (dev_key, local_key))))).

(** lexicographic comparison of pairs *)
Definition lex {A B : Type} (ca : A -> A -> comparison)
           (cb : B -> B -> comparison) (x y : A * B) : comparison :=
  match ca (fst x) (fst y) with
  | Eq => cb (snd x) (snd y)
  | c => c
  end.

Definition NN_compare : N * N -> N * N -> comparison :=
  lex N.compare N.compare.

Definition key_compare : key -> key -> comparison :=
  lex N.compare
    (lex (list_compare N.compare)
       (lex NN_compare
          (lex NN_compare
             (lex NN_compare
                (list_compare (lex N.compare (list_compare N.compare))))))).

Definition compare (a b : version) : comparison :=
  key_compare (cmpkey a) (cmpkey b).

End Pep440.

(** A comparison function of a total order, equal only on equal values. *)
Record order_laws {A : Type} (cmp : A -> A -> comparison) : Prop := {
  ol_eq : forall x y, cmp x y = Eq <-> x = y;
  ol_opp : forall x y, cmp y x = CompOpp (cmp x y);
  ol_trans : forall x y z o, cmp x y = o -> cmp y z = o -> cmp x z = o
}.

(** ** Reference libraries

    [packaging.version] as above; validators that accept exactly the values
    of the annotated type and give [None] to an [Optional] field left out;
    the text of an exception. *)

Definition reference_str_exn (e : exn) : string :=
  match e with
  | KeyError (JStr k) => "'" ++ k ++ "'"
  | KeyError k => Py.type_name k
  | IndexError => "list index out of range"
  | TypeError what => what
  | AttributeError what => what
  | UnboundLocalError name =>
      "cannot access local variable '" ++ name
        ++ "' where it is not associated with a value"
  | InvalidVersion version => "Invalid version: '" ++ version ++ "'"
  | ValidationError field => "validation error: " ++ field
  | ClientError detail => detail
  | ContentError detail => detail
  end.

#[export] Instance reference_libs : Libs := {|
  Version := Pep440.version;
  version_parse := Pep440.parse;
  version_compare := Pep440.compare;
  str_field := fun v => match v with JStr s => Some s | _ => None end;
  dict_field := fun v => match v with JObj d => Some d | _ => None end;
  omitted_optional := true;
  str_exn := reference_str_exn
|}.

(** The reference libraries with a validation that refuses a call which
    leaves out a field without a declared default, as pydantic 2 does. *)
Definition strict_libs : Libs := {|
  Version := Pep440.version;
  version_parse := Pep440.parse;
  version_compare := Pep440.compare;
  str_field := fun v => match v with JStr s => Some s | _ => None end;
  dict_field := fun v => match v with JObj d => Some d | _ => None end;
  omitted_optional := false;
  str_exn := reference_str_exn
|}.

(** ** Semantic versioning, as the specification names it

    The order that the specification asks of versions: "standard
    semantic-version precedence rules (numeric comparison per segment,
    pre-release segments sort before release)".  This is not taken from
    the source: it is the order of semver.org, item 11, to compare the
    order of the source with.  A version is its numeric segments (three
    in semver; any number here, a missing one counting as zero), then an
    optional pre-release after [-], then build metadata after [+], which
    precedence ignores. *)

Module SemVer.

Inductive identifier := Numeric (n : N) | Alphanumeric (s : string).

Record version := {
  core : list N;
  prerelease : list identifier
}.

(** the text before the first [c], and the text after it if there is one *)
Fixpoint cut (c : ascii) (s : string) : string * option string :=
  match s with
  | EmptyString => (EmptyString, None)
  | String a r =>
      if Ascii.eqb a c then (EmptyString, Some r)
      else let '(before, after) := cut c r in (String a before, after)
  end.

Definition is_identifier_char (c : ascii) : bool :=
  let n := N_of_ascii c in
  Pep440.is_digit c || ((65 <=? n) && (n <=? 90))%N
  || ((97 <=? n) && (n <=? 122))%N || Ascii.eqb c "-".

Definition segment (s : string) : option N :=
  if PyStr.nonempty s && Pep440.all_chars Pep440.is_digit s
  then Some (fst (Pep440.read_number s 0))
  else None.

Definition identifier_of (s : string) : option identifier :=
  if PyStr.nonempty s && Pep440.all_chars is_identifier_char s
  then Some (if Pep440.all_chars Pep440.is_digit s
             then Numeric (fst (Pep440.read_number s 0))
             else Alphanumeric s)
  else None.

(** every element read, or nothing *)
Fixpoint read_all {A B : Type} (f : A -> option B) (l : list A)
  : option (list B) :=
  match l with
  | [] => Some []
  | x :: l' =>
      match f x, read_all f l' with
      | Some y, Some ys => Some (y :: ys)
      | _, _ => None
      end
  end.

Definition parse (text : string) : option version :=
  let '(public, _) := cut "+" text in
  let '(numbers, pre) := cut "-" public in
  match read_all segment (PyStr.split "." numbers) with
  | Some core =>
      match pre with
      | None => Some {| core := core; prerelease := [] |}
      | Some p =>
          match read_all identifier_of (PyStr.split "." p) with
          | Some ids => Some {| core := core; prerelease := ids |}
          | None => None
          end
      end
  | None => None
  end.

(** numeric identifiers are below alphanumeric ones *)
Definition identifier_compare (a b : identifier) : comparison :=
  match a, b with
  | Numeric m, Numeric n => N.compare m n
  | Numeric _, Alphanumeric _ => Lt
  | Alphanumeric _, Numeric _ => Gt
  | Alphanumeric s, Alphanumeric t => String.compare s t
  end.

(** precedence: the segments number by number; then a pre-release is
    below the release, and two pre-releases compare identifier by
    identifier, the shorter first when one starts the other *)
Definition compare (a b : version) : comparison :=
  match list_compare N.compare (Pep440.strip_zeros (core a))
                     (Pep440.strip_zeros (core b)) with
  | Eq =>
      match prerelease a, prerelease b with
      | [], [] => Eq
      | [], _ :: _ => Gt
      | _ :: _, [] => Lt
      | pa, pb => list_compare identifier_compare pa pb
      end
  | c => c
  end.

End SemVer.

(** ** Registries for the examples *)

(** PyPI answering every request with a project of the given releases *)
Definition pypi (releases : list string) (latest : string) : World :=
  fun _ =>
    Response 200
      (inr (JObj [("info", JObj [("version", JStr latest);
                                 ("summary", JStr "a package")]);
                  ("releases", JObj (map (fun v => (v, JArr [])) releases))])).

(** the npm registry answering every request with a package of the given
    versions *)
Definition npmjs (versions : list string) (latest : string) : World :=
  fun _ =>
    Response 200
      (inr (JObj [("description", JStr "a package");
                  ("dist-tags", JObj [("latest", JStr latest)]);
                  ("versions", JObj (map (fun v => (v, JObj [])) versions))])).

(** a registry that cannot be reached *)
Definition unreachable : World :=
  fun _ => Raises (ClientError "Cannot connect to host").

Definition ask (manager : string) (constraint : option string)
  : VersionQuery.t :=
  {| VersionQuery.package_name := "demo";
     VersionQuery.package_manager := manager;
     VersionQuery.version_constraint := constraint |}.

(** a package on npm with a pre-release that [packaging] does not read *)
Definition npm_versions : list string := ["1.0.0"; "2.0.0-next.1"; "2.0.0"].

(** a project on PyPI whose releases all parse *)
Definition pypi_releases : list string := ["1.0.0"; "1.2.0"; "1.2.3"; "2.0.0"].

(** ** Vocabulary of the corrected claims *)

(** what a comparison operator asks of the outcome of a comparison *)
Definition operator_holds (sym : string) (c : comparison) : Prop :=
  (sym = ">=" /\ c <> Lt) \/ (sym = ">" /\ c = Gt)
  \/ (sym = "<=" /\ c <> Gt) \/ (sym = "<" /\ c = Lt).

(** C6 as the specification words it: the returned versions are the
    candidates that stand in the operator's relation to the operand under
    semantic-versioning precedence. *)
Definition follows_semver {L : Libs} (http_get : World)
           (query : VersionQuery.t) (candidates : list string)
           (sym operand : string) : Prop :=
  exists r,
    get_compatible_versions http_get query = inr r
    /\ forall v,
         In v (VersionResult.compatible_versions r) <->
         In v candidates
         /\ exists pv po,
              SemVer.parse v = Some pv /\ SemVer.parse operand = Some po
              /\ operator_holds sym (SemVer.compare pv po).

(** C2 as the specification words it: the error field describes the
    failure.  The least that asks is a text that is not empty. *)
Definition describes_failure (error : option string) : Prop :=
  exists message, error = Some message /\ message <> "".

(** C2 as the specification words it, for the outcome of one operation on
    one request: a result comes back and its error field describes the
    failure. *)
Definition failure_described {R : Type} (outcome : Exc R)
           (error : R -> option string) : Prop :=
  exists r, outcome = inr r /\ describes_failure (error r).

(** a request that times out: the exception raised has an empty text, as
    [asyncio.TimeoutError()] has *)
Definition timing_out : World := fun _ => Raises (ClientError "").

Definition demo_package : PackageQuery.t :=
  {| PackageQuery.package_name := "demo";
     PackageQuery.package_manager := "pip";
     PackageQuery.version := None |}.

(** a package on npm with a numbered pre-release of 1.0.0, which
    [packaging] reads as the post-release 1.0.0.post1 *)
Definition npm_numbered : list string := ["1.0.0"; "1.0.0-1"; "1.1.0"].

(** the final release with the given segments: no epoch, no pre-, post- or
    development release, no local part *)
Definition final_release (segments : list N) : Pep440.version :=
  {| Pep440.epoch := 0; Pep440.release := segments; Pep440.pre := None;
     Pep440.post := None; Pep440.dev := None; Pep440.local := None |}.

(** ** Further vocabulary *)

(** [GET /supported_package_managers]: [list(PACKAGE_REGISTRIES.keys())],
    the keys in the order of the dict literal. *)
Definition get_supported_package_managers : list string := ["pip"; "npm"].

(** the URLs that the two templates give for a package *)
Definition pypi_url (name : string) : string :=
  "https://pypi.org/pypi/" ++ name ++ "/json".
Definition npm_url (name : string) : string :=
  "https://registry.npmjs.org/" ++ name.

(** every character of [s] passes [p] *)
Fixpoint str_forall (p : ascii -> bool) (s : string) : bool :=
  match s with
  | String c r => p c && str_forall p r
  | EmptyString => true
  end.

(** no character of [<>=~!] *)
Definition operator_free (s : string) : bool :=
  str_forall (fun c => negb (is_operator_char c)) s.

(** no dot *)
Definition dot_free (s : string) : bool :=
  str_forall (fun c => negb (Ascii.eqb c ".")) s.

(** no newline *)
Definition one_line (s : string) : bool :=
  str_forall (fun c => negb (Ascii.eqb c "010")) s.

(** the first character is one of [<>=~!] *)
Definition starts_with_operator (s : string) : bool :=
  match s with
  | String c _ => is_operator_char c
  | EmptyString => false
  end.

(** the key under which a requirement string is entered, if it is *)
Definition requirement_name (dep : string) : option string :=
  match match_dependency dep with
  | Some (g1, _) => Some (PyStr.strip g1)
  | None => None
  end.

(** the value entered for a requirement string *)
Definition requirement_version (dep : string) : string :=
  match match_dependency dep with
  | Some (_, Some v) => v
  | _ => ""
  end.

(** the version of [v] parses and compares equal to [k] *)
Definition same_version {L : Libs} (k : Version) (v : string) : bool :=
  match version_parse v with
  | Some pv => match version_compare pv k with Eq => true | _ => false end
  | None => false
  end.

(** the key of a decorated element compares equal to [k] *)
Definition same_key {L : Libs} {A : Type} (k : Version) (x : Version * A)
  : bool :=
  match version_compare (fst x) k with Eq => true | _ => false end.

(** one turn of the loop over [requires_dist], for a requirement that is a
    string *)
Definition enter_requirement (dependencies : pydict) (dep : string) : pydict :=
  match requirement_name dep with
  | Some name => dict_set name (JStr (requirement_version dep)) dependencies
  | None => dependencies
  end.

(** an entry of the dependency table of a PyPI project: the name holds no
    operator character and no outer white space, the constraint is a text
    that is empty or starts with an operator character *)
Definition requirement_entry (entry : string * json) : Prop :=
  operator_free (fst entry) = true
  /\ PyStr.strip (fst entry) = fst entry
  /\ exists version, snd entry = JStr version
                     /\ (version = "" \/ starts_with_operator version = true).

(** the version whose dependencies a request is about: the one it names,
    or else the latest *)
Definition asked_version (version : option string) (latest : string)
  : string :=
  match version with
  | Some v => if PyStr.nonempty v then v else latest
  | None => latest
  end.

(** ** Further registries for the examples *)

(** [http_get] at one URL, nothing reachable elsewhere *)
Definition only_at (url : string) (http_get : World) : World :=
  fun u => if String.eqb u url then http_get u
           else Raises (ClientError "Cannot connect to host").

(** a PyPI document with requirements *)
Definition pypi_project (releases : list string) (latest : string)
           (requires : list string) : pydict :=
  [("info", JObj [("version", JStr latest);
                  ("summary", JNull);
                  ("requires_dist", JArr (map JStr requires))]);
   ("releases", JObj (map (fun v => (v, JArr [])) releases))].

(** an npm document in which every version has the same dependencies *)
Definition npm_package (versions : list string) (latest : string)
           (dependencies : pydict) : pydict :=
  [("description", JStr "a package");
   ("dist-tags", JObj [("latest", JStr latest)]);
   ("versions",
    JObj (map (fun v => (v, JObj [("dependencies", JObj dependencies)]))
              versions))].

(** a registry that answers every request with one document *)
Definition serving (document : pydict) : World :=
  fun _ => Response 200 (inr (JObj document)).

(** * Properties *)

(** ** The order of the reference versions *)

Lemma N_order : order_laws N.compare.
Proof.
  split.
  - intros x y. apply N.compare_eq_iff.
  - intros x y. apply N.compare_antisym.
  - intros x y z [] Hxy Hyz.
    + apply N.compare_eq_iff in Hxy, Hyz. subst. apply N.compare_refl.
    + rewrite N.compare_lt_iff in *. lia.
    + rewrite N.compare_gt_iff in *. lia.
Qed.

Lemma lex_order {A B : Type} (ca : A -> A -> comparison)
      (cb : B -> B -> comparison) :
  order_laws ca -> order_laws cb -> order_laws (Pep440.lex ca cb).
Proof.
  intros Ha Hb. split.
  - intros [a b] [a' b']. unfold Pep440.lex. simpl.
    destruct (ca a a') eqn:E.
    + apply (ol_eq _ Ha) in E. subst a'. rewrite (ol_eq _ Hb).
      split; [intros -> | intros [= <-]]; reflexivity.
    + split; [discriminate | intros [= <- <-]].
      rewrite (proj2 (ol_eq _ Ha a a) eq_refl) in E. discriminate.
    + split; [discriminate | intros [= <- <-]].
      rewrite (proj2 (ol_eq _ Ha a a) eq_refl) in E. discriminate.
  - intros [a b] [a' b']. unfold Pep440.lex. simpl.
    rewrite (ol_opp _ Ha a a'). destruct (ca a a'); simpl; try reflexivity.
    apply (ol_opp _ Hb).
  - intros [a b] [a' b'] [a'' b''] o. unfold Pep440.lex. simpl.
    destruct (ca a a') eqn:E1, (ca a' a'') eqn:E2; intros H1 H2;
      try (apply (ol_eq _ Ha) in E1; subst a');
      try (apply (ol_eq _ Ha) in E2; subst a'');
      try rewrite E1; try rewrite E2;
      try (rewrite (proj2 (ol_eq _ Ha a a) eq_refl));
      try (rewrite (proj2 (ol_eq _ Ha a' a') eq_refl));
      try congruence;
      try (apply (ol_trans _ Hb _ _ _ _ H1 H2));
      try (subst o; rewrite (ol_trans _ Ha _ _ _ _ E1 E2); reflexivity).
Qed.

Lemma list_order {A : Type} (c : A -> A -> comparison) :
  order_laws c -> order_laws (list_compare c).
Proof.
  intros H. split.
  - intros x y. apply list_compare_refl, (ol_eq _ H).
  - intros x y. apply list_compare_antisym; [apply (ol_eq _ H) | apply (ol_opp _ H)].
  - intros x y z o. apply list_compare_trans;
      [apply (ol_eq _ H) | apply (ol_trans _ H) | apply (ol_opp _ H)].
Qed.

Lemma key_order : order_laws Pep440.key_compare.
Proof.
  unfold Pep440.key_compare, Pep440.NN_compare.
  repeat first [ apply lex_order | apply list_order | apply N_order ].
Qed.

(** The reference libraries meet the assumptions of the theorems. *)
Lemma reference_ok : LibsOk reference_libs.
Proof.
  split; simpl.
  - intros a b. apply (ol_opp _ key_order).
  - intros a b c o. apply (ol_trans _ key_order).
  - reflexivity.
  - reflexivity.
  - reflexivity.
Qed.

(** ** Sorting *)

Section Sorting.

Context {L : Libs} {HL : LibsOk L}.

Lemma version_compare_refl (a : Version) : version_compare a a = Eq.
Proof.
  pose proof (version_compare_opp a a) as H.
  destruct (version_compare a a); simpl in H; congruence.
Qed.

Lemma not_below_trans (a b c : Version) :
  version_compare a b <> Lt -> version_compare b c <> Lt ->
  version_compare a c <> Lt.
Proof.
  intros Hab Hbc Hac.
  pose proof (version_compare_opp a c) as Hca. rewrite Hac in Hca. simpl in Hca.
  pose proof (version_compare_opp a b) as Hba.
  pose proof (version_compare_opp b c) as Hcb.
  destruct (version_compare a b) eqn:Eab; [ | congruence | ];
    destruct (version_compare b c) eqn:Ebc; try congruence; simpl in *.
  - rewrite (version_compare_trans _ _ _ _ Eab Ebc) in Hac. discriminate.
  - rewrite (version_compare_trans _ _ _ _ Ebc Hca) in Hba. discriminate.
  - rewrite (version_compare_trans _ _ _ _ Hca Eab) in Hcb. discriminate.
  - rewrite (version_compare_trans _ _ _ _ Eab Ebc) in Hac. discriminate.
Qed.

Lemma insert_desc_perm {A : Type} (x : Version * A) l :
  Permutation (insert_desc version_lt x l) (x :: l).
Proof.
  induction l as [|y l IH]; simpl; [reflexivity|].
  destruct (version_lt (fst x) (fst y)); [|reflexivity].
  rewrite IH. apply perm_swap.
Qed.

Lemma sort_desc_perm {A : Type} (l : list (Version * A)) :
  Permutation (sort_desc version_lt l) l.
Proof.
  induction l as [|x l IH]; simpl; [reflexivity|].
  rewrite insert_desc_perm. by constructor.
Qed.

Lemma insert_desc_sorted {A : Type} (x : Version * A) l :
  StronglySorted key_ge l -> StronglySorted key_ge (insert_desc version_lt x l).
Proof.
  induction 1 as [|y l Hl IH Hy]; simpl.
  - repeat constructor.
  - unfold version_lt. destruct (version_compare (fst x) (fst y)) eqn:E.
    + constructor; [by constructor|]. constructor.
      * unfold key_ge. congruence.
      * eapply Forall_impl; [exact Hy|]. intros z Hz. unfold key_ge in *.
        apply (not_below_trans _ (fst y)); congruence.
    + constructor; [exact IH|].
      eapply Permutation_Forall; [symmetry; apply insert_desc_perm|]. constructor; [|exact Hy].
      unfold key_ge. rewrite version_compare_opp, E. discriminate.
    + constructor; [by constructor|]. constructor.
      * unfold key_ge. congruence.
      * eapply Forall_impl; [exact Hy|]. intros z Hz. unfold key_ge in *.
        apply (not_below_trans _ (fst y)); congruence.
Qed.

Lemma sort_desc_sorted {A : Type} (l : list (Version * A)) :
  StronglySorted key_ge (sort_desc version_lt l).
Proof.
  induction l as [|x l IH]; simpl; [constructor|].
  by apply insert_desc_sorted.
Qed.

(** A list whose keys are all equal to one another is left as it is. *)
Lemma sort_desc_equal_keys {A : Type} (l : list (Version * A)) :
  (forall x y, In x l -> In y l -> version_compare (fst x) (fst y) = Eq) ->
  sort_desc version_lt l = l.
Proof.
  induction l as [|x l IH]; intros H; simpl; [reflexivity|].
  rewrite IH by (intros; apply H; by right).
  destruct l as [|y l]; simpl; [reflexivity|].
  unfold version_lt. rewrite (H x y); [reflexivity | by left | right; by left].
Qed.

End Sorting.

(** ** The resolver *)

Section Resolver.

Context {L : Libs} {HL : LibsOk L}.

Lemma mapE_parse_ok (m : list string) :
  Forall parsable m ->
  exists ks, mapE parse m = inr ks
             /\ Forall2 (fun v k => version_parse v = Some k) m ks.
Proof.
  induction 1 as [|v m [k Hk] _ (ks & Hks & IH)]; simpl.
  - exists []. by split.
  - exists (k :: ks). unfold parse at 1. rewrite Hk. simpl. rewrite Hks. simpl.
    split; [reflexivity | by constructor].
Qed.

Lemma mapE_parse_fail (good rest : list string) (bad : string) :
  Forall parsable good -> version_parse bad = None ->
  mapE parse (good ++ bad :: rest) = inl (InvalidVersion bad).
Proof.
  intros Hgood Hbad. induction Hgood as [|v m [k Hk] _ IH]; simpl.
  - unfold parse. by rewrite Hbad.
  - unfold parse at 1. rewrite Hk. simpl. by rewrite IH.
Qed.

Lemma snd_combine_keys (m : list string) (ks : list Version) :
  Forall2 (fun v k => version_parse v = Some k) m ks ->
  map snd (combine ks m) = m
  /\ Forall (fun kv => version_parse (snd kv) = Some (fst kv)) (combine ks m).
Proof.
  induction 1 as [|v k m ks Hk _ [IH1 IH2]]; simpl.
  - by split.
  - rewrite IH1. split; [reflexivity | by constructor].
Qed.

Lemma decorated_descending (l : list (Version * string)) :
  Forall (fun kv => version_parse (snd kv) = Some (fst kv)) l ->
  StronglySorted key_ge l -> descending (map snd l).
Proof.
  intros Hl Hs. induction Hs as [|x l Hs IH Hx]; simpl; [constructor|].
  inversion Hl as [|? ? Hx' Hl']; subst. constructor; [by apply IH|].
  rewrite List.Forall_forall. intros v Hv. apply in_map_iff in Hv as (y & <- & Hy).
  rewrite List.Forall_forall in Hx, Hl'.
  exists (fst x), (fst y). repeat split; [exact Hx' | by apply Hl' | by apply Hx].
Qed.

(** Versions that all parse are ranked: the same versions, greatest first. *)
Lemma ranked_ok (m : list string) :
  Forall parsable m ->
  exists s, ranked m = inr s /\ Permutation m s /\ descending s.
Proof.
  intros Hm. destruct m as [|v m]; [exists []; repeat split; constructor|].
  destruct (mapE_parse_ok _ Hm) as (ks & Hks & Hall).
  destruct (snd_combine_keys _ _ Hall) as [Hsnd Hdec].
  unfold ranked. rewrite Hks. simpl bindE.
  eexists. split; [reflexivity|]. split.
  - rewrite <- Hsnd at 1. apply Permutation_map. symmetry. apply sort_desc_perm.
  - apply decorated_descending; [|apply sort_desc_sorted].
    eapply Permutation_Forall; [symmetry; apply sort_desc_perm | exact Hdec].
Qed.

(** The first version that does not parse stops the ranking. *)
Lemma ranked_fail (good rest : list string) (bad : string) :
  Forall parsable good -> version_parse bad = None ->
  ranked (good ++ bad :: rest) = inl (InvalidVersion bad).
Proof.
  intros Hgood Hbad. unfold ranked.
  rewrite (mapE_parse_fail good rest bad Hgood Hbad).
  by destruct good.
Qed.

Lemma ranked_nonempty (m s : list string) :
  ranked m = inr s -> m <> [] -> s <> [].
Proof.
  destruct m as [|v m]; [done|]. unfold ranked.
  destruct (mapE parse (v :: m)) as [e|ks] eqn:E; [discriminate|].
  simpl. intros [= <-] _ Hnil.
  assert (Hlen : length ks = length (v :: m)).
  { clear Hnil. revert ks E. generalize (v :: m). intros l.
    induction l as [|x l IH]; intros ks; simpl.
    - by intros [= <-].
    - destruct (parse x); [discriminate|]. simpl.
      destruct (mapE parse l); [discriminate|]. simpl.
      intros [= <-]. simpl. f_equal. by apply IH. }
  apply (f_equal (@length _)) in Hnil.
  rewrite length_map, (Permutation_length (sort_desc_perm _)) in Hnil.
  rewrite length_combine, Hlen in Hnil. simpl in Hnil. lia.
Qed.

(** *** The stages, as state transformers *)

Lemma recommend_spec (p : loc) (m : list string) (h : heap) :
  h !! p = Some m ->
  recommend p h =
    match ranked m with
    | inr s => (inr (match s with v :: _ => JStr v | [] => JNull end),
                <[p := s]> h)
    | inl e => (inl e, h)
    end.
Proof.
  intros Hp. unfold recommend, bindM at 1, load at 1. rewrite Hp.
  destruct m as [|v m]; cbv beta iota.
  - unfold ranked, ret. by rewrite list_insert_id.
  - pose proof (ranked_nonempty (v :: m)) as Hne.
    unfold ranked in *. unfold sort_by_version, bindM, load, lift, store.
    rewrite Hp.
    destruct (mapE parse (v :: m)) as [e|ks]; [reflexivity|]. simpl bindE in *.
    rewrite list_lookup_insert_eq by (by eapply lookup_lt_Some).
    specialize (Hne _ eq_refl).
    destruct (map snd _) as [|w s]; [by exfalso; apply Hne|]. reflexivity.
Qed.

Lemma comprehension_spec (p : loc) (cond : string -> Exc bool)
      (m : list string) (h : heap) :
  h !! p = Some m ->
  comprehension p cond h =
    match filterE cond m with
    | inr r => (inr (length h), (h ++ [r])%list)
    | inl e => (inl e, h)
    end.
Proof.
  intros Hp. unfold comprehension, bindM, load, lift, alloc. rewrite Hp.
  by destruct (filterE cond m).
Qed.

Lemma filter_versions_spec (c : string) (p : loc) (m : list string) (h : heap) :
  h !! p = Some m ->
  filter_versions c p p h =
    match condition c with
    | Some cond =>
        match filterE cond m with
        | inr r => (inr (length h), (h ++ [r])%list)
        | inl e => (inl e, h)
        end
    | None => (inr p, h)
    end.
Proof.
  intros Hp. unfold filter_versions, condition, compatible_prefix.
  repeat (match goal with
          | |- context [if ?b then _ else _] => destruct b
          end; [by apply comprehension_spec|]).
  reflexivity.
Qed.

End Resolver.

(** ** The operation on a registry that reports candidates *)

Section Run.

Context {L : Libs} {HL : LibsOk L}.

Lemma failed_is_built (query : VersionQuery.t) (e : exn) :
  new_VersionResult (VersionQuery.package_name query)
    (VersionQuery.package_manager query) [] None (Some (str_exn e))
  = inr (failed query e).
Proof using HL. unfold new_VersionResult. by rewrite omitted_is_none. Qed.

Lemma run_reports http_get query candidates latest :
  registry_reports http_get query candidates latest ->
  run_compatible_versions http_get query =
    match resolve 1 latest (VersionQuery.version_constraint query)
                  [[]; candidates] with
    | (inl e, h) => (inr (failed query e), h)
    | (inr (p, recommended), h) =>
        match validate_optional_str "recommended_version" recommended with
        | inr r =>
            (inr (resolved query
                    (match h !! p with Some l => l | None => [] end) r), h)
        | inl e => (inr (failed query e), h)
        end
    end.
Proof.
  intros (template & data & Htemplate & Hget & Hall).
  unfold run_compatible_versions, compatible_versions_body.
  rewrite Htemplate, Hget. cbv beta iota zeta.
  change (negb (200 =? 200)%Z) with false. cbv iota.
  unfold bindM at 1. unfold lift at 1.
  unfold bindM at 1. rewrite Hall.
  unfold bindM at 1. unfold ret at 1.
  unfold bindM at 1.
  destruct (resolve 1 latest _ _) as [[e|[p recommended]] h];
    [by rewrite failed_is_built|].
  unfold bindM, load, lift. unfold new_VersionResult at 1.
  destruct (validate_optional_str _ recommended);
    cbv beta iota delta [bindE];
    [by rewrite failed_is_built | reflexivity].
Qed.

Lemma resolve_constrained (c : string) latest candidates :
  PyStr.nonempty c = true ->
  resolve 1 latest (Some c) [[]; candidates] =
    match condition c with
    | None =>
        match ranked candidates with
        | inr s => (inr (1, match s with v :: _ => JStr v | [] => JNull end),
                    [[]; s])
        | inl e => (inl e, [[]; candidates])
        end
    | Some cond =>
        match filterE cond candidates with
        | inl e => (inl e, [[]; candidates])
        | inr m =>
            match ranked m with
            | inr s =>
                (inr (2, match s with v :: _ => JStr v | [] => JNull end),
                 [[]; candidates; s])
            | inl e => (inl e, [[]; candidates; m])
            end
        end
    end.
Proof.
  intros Hc. unfold resolve. rewrite Hc. unfold bindM at 1.
  rewrite (filter_versions_spec c 1 candidates) by reflexivity.
  destruct (condition c) as [cond|].
  - destruct (filterE cond candidates) as [e|m]; [reflexivity|].
    unfold bindM. rewrite (recommend_spec 2 m) by reflexivity.
    destruct (ranked m); reflexivity.
  - unfold bindM. rewrite (recommend_spec 1 candidates) by reflexivity.
    destruct (ranked candidates); reflexivity.
Qed.

(** A request with a constraint: the result, and the store it leaves. *)
Lemma run_constrained http_get query candidates latest (c : string) :
  registry_reports http_get query candidates latest ->
  VersionQuery.version_constraint query = Some c ->
  PyStr.nonempty c = true ->
  run_compatible_versions http_get query =
    match condition c with
    | None =>
        match ranked candidates with
        | inr s => (inr (resolved query s (head s)), [[]; s])
        | inl e => (inr (failed query e), [[]; candidates])
        end
    | Some cond =>
        match filterE cond candidates with
        | inl e => (inr (failed query e), [[]; candidates])
        | inr m =>
            match ranked m with
            | inr s => (inr (resolved query s (head s)), [[]; candidates; s])
            | inl e => (inr (failed query e), [[]; candidates; m])
            end
        end
    end.
Proof.
  intros Hreg Hq Hc. rewrite (run_reports _ _ _ _ Hreg), Hq.
  rewrite (resolve_constrained c latest candidates Hc).
  destruct (condition c) as [cond|].
  - destruct (filterE cond candidates) as [e|m]; [reflexivity|].
    destruct (ranked m) as [e|[|v s]]; [reflexivity|reflexivity|].
    unfold validate_optional_str, validate_str. by rewrite str_field_str.
  - destruct (ranked candidates) as [e|[|v s]]; [reflexivity|reflexivity|].
    unfold validate_optional_str, validate_str. by rewrite str_field_str.
Qed.

Lemma get_constrained http_get query candidates latest (c : string) :
  registry_reports http_get query candidates latest ->
  VersionQuery.version_constraint query = Some c ->
  PyStr.nonempty c = true ->
  get_compatible_versions http_get query =
    inr match matches c candidates with
        | inl e => failed query e
        | inr m =>
            match ranked m with
            | inr s => resolved query s (head s)
            | inl e => failed query e
            end
        end.
Proof.
  intros Hreg Hq Hc. unfold get_compatible_versions, matches.
  rewrite (run_constrained _ _ _ _ c Hreg Hq Hc).
  destruct (condition c) as [cond|].
  - destruct (filterE cond candidates) as [e|m]; [reflexivity|].
    by destruct (ranked m).
  - by destruct (ranked candidates).
Qed.

(** A request without a constraint. *)
Lemma run_unconstrained http_get query candidates latest :
  registry_reports http_get query candidates latest ->
  VersionQuery.version_constraint query = None
  \/ VersionQuery.version_constraint query = Some "" ->
  run_compatible_versions http_get query =
    (inr match validate_optional_str "recommended_version" latest with
         | inr r => resolved query candidates r
         | inl e => failed query e
         end, [[]; candidates]).
Proof.
  intros Hreg Hq. rewrite (run_reports _ _ _ _ Hreg).
  destruct Hq as [-> | ->]; unfold resolve;
    change (PyStr.nonempty "") with false; unfold ret; cbv iota;
    by destruct (validate_optional_str "recommended_version" latest).
Qed.

(** *** What a run does to the candidate list

    [all_versions] is the second list object of a run.  A run leaves it
    as the registry gave it when there is no constraint and when a branch
    of the chain is taken; when none is taken, [compatible_versions] still
    names the same object and the sort reorders it. *)

Lemma run_keeps_candidates http_get query candidates latest :
  registry_reports http_get query candidates latest ->
  VersionQuery.version_constraint query = None
  \/ VersionQuery.version_constraint query = Some ""
  \/ (exists c, VersionQuery.version_constraint query = Some c
                /\ PyStr.nonempty c = true /\ condition c <> None) ->
  snd (run_compatible_versions http_get query) !! 1 = Some candidates.
Proof using HL.
  intros Hreg [Hq|[Hq|(c & Hq & Hc & Hcond)]].
  - rewrite (run_unconstrained _ _ _ _ Hreg); [reflexivity | by left].
  - rewrite (run_unconstrained _ _ _ _ Hreg); [reflexivity | by right].
  - rewrite (run_constrained _ _ _ _ c Hreg Hq Hc).
    destruct (condition c) as [cond|]; [|done].
    destruct (filterE cond candidates) as [e|m]; [reflexivity|].
    by destruct (ranked m).
Qed.

Lemma run_sorts_candidates http_get query candidates latest c s :
  registry_reports http_get query candidates latest ->
  VersionQuery.version_constraint query = Some c ->
  PyStr.nonempty c = true -> condition c = None ->
  ranked candidates = inr s ->
  snd (run_compatible_versions http_get query) !! 1 = Some s.
Proof using HL.
  intros Hreg Hq Hc Hcond Hs.
  rewrite (run_constrained _ _ _ _ c Hreg Hq Hc). by rewrite Hcond, Hs.
Qed.

End Run.

(** ** The tests of the constraint operators *)

Section Conditions.

Context {L : Libs}.

Lemma condition_unrecognized (c : string) :
  unrecognized c -> condition c = None.
Proof.
  unfold unrecognized. rewrite !Forall_cons.
  intros (H1 & H2 & H3 & H4 & H5 & H6 & _).
  unfold condition. by rewrite H1, H2, H3, H4, H5, H6.
Qed.

Lemma condition_exact (tail : string) :
  condition ("==" ++ tail)
  = Some (fun v => inr (String.eqb v (PyStr.strip tail))).
Proof. reflexivity. Qed.

Lemma condition_compatible (tail : string) :
  condition ("~=" ++ tail)
  = Some (fun v => inr (PyStr.startswith v
                          (compatible_prefix (PyStr.strip tail)))).
Proof. reflexivity. Qed.

(** A comparison operator selects its own test: the two-character
    operators are tried before their one-character prefixes. *)
Lemma condition_comparison (sym tail : string) test :
  In (sym, test) comparison_operators ->
  (sym = ">" \/ sym = "<" -> PyStr.startswith tail "=" = false) ->
  condition (sym ++ tail) = Some (compare_with test (PyStr.strip tail)).
Proof.
  intros Hin Htail. unfold comparison_operators in Hin. simpl in Hin.
  destruct Hin as [[= <- <-]|[[= <- <-]|[[= <- <-]|[[= <- <-]|[]]]]];
    try reflexivity.
  - transitivity
      (if PyStr.startswith tail "="
       then Some (compare_with version_ge (PyStr.strip (PyStr.drop 1 tail)))
       else Some (compare_with version_gt (PyStr.strip tail)));
      [reflexivity | by rewrite Htail by (by left)].
  - transitivity
      (if PyStr.startswith tail "="
       then Some (compare_with version_le (PyStr.strip (PyStr.drop 1 tail)))
       else Some (compare_with version_lt (PyStr.strip tail)));
      [reflexivity | by rewrite Htail by (by right)].
Qed.

Lemma filterE_pure (f : string -> bool) (l : list string) :
  filterE (fun v => inr (f v)) l = inr (List.filter f l).
Proof.
  induction l as [|v l IH]; simpl; [reflexivity|].
  rewrite IH. simpl. by destruct (f v).
Qed.

(** On candidates that all parse, a comparison keeps those whose version
    passes the test against the bound. *)
Lemma filterE_comparison test (bound : string) (b : Version)
      (l : list string) :
  version_parse bound = Some b -> Forall parsable l ->
  filterE (compare_with test bound) l
  = inr (List.filter (fun v => match version_parse v with
                               | Some pv => test pv b
                               | None => false
                               end) l).
Proof.
  intros Hb. induction 1 as [|v l [pv Hv] _ IH]; simpl; [reflexivity|].
  unfold compare_with at 1, parse. rewrite Hv, Hb. simpl. rewrite IH. simpl.
  by destruct (test pv b).
Qed.

(** The first candidate that does not parse stops the comprehension. *)
Lemma filterE_unparsable test (bound : string) (b : Version)
      (good rest : list string) (bad : string) :
  version_parse bound = Some b -> Forall parsable good ->
  version_parse bad = None ->
  filterE (compare_with test bound) (good ++ bad :: rest)
  = inl (InvalidVersion bad).
Proof.
  intros Hb Hgood Hbad. induction Hgood as [|v l [pv Hv] _ IH]; simpl.
  - unfold compare_with, parse. by rewrite Hbad.
  - unfold compare_with at 1, parse. rewrite Hv, Hb. simpl. by rewrite IH.
Qed.

End Conditions.

(** ** The example registries report what they are given *)

Lemma keys_of_entries (payload : json) (versions : list string) :
  map fst (map (fun v : string => (v, payload)) versions) = versions.
Proof.
  induction versions as [|v l IH]; simpl; [reflexivity | by rewrite IH].
Qed.

Lemma pypi_reports {L : Libs} releases latest constraint :
  registry_reports (pypi releases latest) (ask "pip" constraint)
                   releases (JStr latest).
Proof.
  exists "https://pypi.org/pypi/{package}/json".
  eexists. split; [reflexivity|]. split; [reflexivity|].
  unfold get_all_versions, bindM, alloc, lift, ret, item. simpl.
  by rewrite keys_of_entries.
Qed.

Lemma npmjs_reports {L : Libs} versions latest constraint :
  registry_reports (npmjs versions latest) (ask "npm" constraint)
                   versions (JStr latest).
Proof.
  exists "https://registry.npmjs.org/{package}".
  eexists. split; [reflexivity|]. split; [reflexivity|].
  unfold get_all_versions, bindM, alloc, lift, ret, item. simpl.
  by rewrite keys_of_entries.
Qed.

(** ** The claims about the resolver *)

Section Claims.

Context {L : Libs} {HL : LibsOk L}.

Variable http_get : World.
Variable query : VersionQuery.t.
Variable candidates : list string.
Variable latest : json.
Hypothesis reported : registry_reports http_get query candidates latest.

(** C9: without a constraint (absent, or the empty string) the operation
    returns the candidate list as the registry gave it, unfiltered and in
    the same order, and recommends the latest version the registry
    reports; a latest version that is a string is recommended as it is. *)
Theorem no_constraint_returns_all_and_latest (r : option string) :
  VersionQuery.version_constraint query = None
  \/ VersionQuery.version_constraint query = Some "" ->
  validate_optional_str "recommended_version" latest = inr r ->
  get_compatible_versions http_get query
  = inr (resolved query candidates r)
  /\ (forall s, latest = JStr s -> r = Some s).
Proof using HL reported.
  intros Hq Hr. split.
  - unfold get_compatible_versions.
    rewrite (run_unconstrained _ _ _ _ reported Hq), Hr. reflexivity.
  - intros s ->. unfold validate_optional_str, validate_str in Hr.
    rewrite str_field_str in Hr. simpl in Hr. congruence.
Qed.


(** The operation when no branch of the constraint chain is taken and
    every candidate parses. *)
Lemma unrecognized_ranked (c : string) :
  VersionQuery.version_constraint query = Some c ->
  PyStr.nonempty c = true -> unrecognized c ->
  Forall parsable candidates ->
  exists s,
    get_compatible_versions http_get query = inr (resolved query s (head s))
    /\ Permutation candidates s /\ descending s.
Proof using HL reported.
  intros Hq Hc Hun Hall.
  destruct (ranked_ok candidates Hall) as (s & Hs & Hperm & Hdesc).
  exists s. split; [|by split].
  rewrite (get_constrained _ _ _ _ c reported Hq Hc).
  unfold matches. by rewrite (condition_unrecognized c Hun), Hs.
Qed.


(** C4, amended: with a non-empty constraint whose operator is none of
    the six and candidates that all parse, nothing is filtered out: the
    returned list holds exactly the candidates, and no error is
    signalled. *)
Theorem unrecognized_operator_keeps_all (c : string) :
  VersionQuery.version_constraint query = Some c ->
  PyStr.nonempty c = true -> unrecognized c ->
  Forall parsable candidates ->
  passes_through http_get query candidates.
Proof using HL reported.
  intros Hq Hc Hun Hall.
  destruct (unrecognized_ranked c Hq Hc Hun Hall) as (s & Hs & Hperm & _).
  eexists. split; [exact Hs|]. by split.
Qed.

(** C8, amended: with a non-empty constraint, when the filtering leaves
    versions that all parse, the returned list is those versions in
    descending order of parsed version and the recommendation is its first
    element; when it leaves none, the list is empty and nothing is
    recommended, without an error. *)
Theorem remaining_versions_are_ranked (c : string) (m : list string) :
  VersionQuery.version_constraint query = Some c ->
  PyStr.nonempty c = true ->
  matches c candidates = inr m -> Forall parsable m ->
  ranks_matches http_get query m
  /\ (m = [] ->
      get_compatible_versions http_get query = inr (resolved query [] None)).
Proof using HL reported.
  intros Hq Hc Hm Hall.
  destruct (ranked_ok m Hall) as (s & Hs & Hperm & Hdesc).
  pose proof (get_constrained _ _ _ _ c reported Hq Hc) as Hget.
  rewrite Hm, Hs in Hget. split.
  - eexists. split; [exact Hget|]. by repeat split.
  - intros ->. apply Permutation_nil in Hperm. by subst s.
Qed.

(** C3, amended: with a comparison operator whose operand parses, a
    candidate that does not parse fails the whole request: the operation
    returns the result of its handler, with no versions, no
    recommendation and the text of the [InvalidVersion] raised for the
    first such candidate. *)
Theorem unparsable_candidate_fails_request
        (sym tail : string) test (b : Version)
        (good rest : list string) (bad : string) :
  In (sym, test) comparison_operators ->
  (sym = ">" \/ sym = "<" -> PyStr.startswith tail "=" = false) ->
  VersionQuery.version_constraint query = Some (sym ++ tail) ->
  version_parse (PyStr.strip tail) = Some b ->
  candidates = (good ++ bad :: rest)%list ->
  Forall parsable good -> version_parse bad = None ->
  get_compatible_versions http_get query
  = inr (failed query (InvalidVersion bad)).
Proof using HL reported.
  intros Hop Htail Hq Hb Hc Hgood Hbad.
  assert (Hne : PyStr.nonempty (sym ++ tail) = true).
  { simpl in Hop.
    destruct Hop as [[= <- _]|[[= <- _]|[[= <- _]|[[= <- _]|[]]]]]; reflexivity. }
  rewrite (get_constrained _ _ _ _ _ reported Hq Hne).
  unfold matches. rewrite (condition_comparison sym tail test Hop Htail), Hc.
  by rewrite (filterE_unparsable test _ b good rest bad Hb Hgood Hbad).
Qed.

(** Versions that are all one parsable string are ranked as they are. *)
Lemma ranked_constant (x : string) (m : list string) :
  parsable x -> (forall v, In v m -> v = x) -> ranked m = inr m.
Proof using HL.
  intros Hx Hm.
  assert (Hall : Forall parsable m).
  { rewrite List.Forall_forall. intros v Hv. by rewrite (Hm v Hv). }
  destruct m as [|v m]; [reflexivity|].
  destruct (mapE_parse_ok _ Hall) as (ks & Hks & Hkeys).
  destruct (snd_combine_keys _ _ Hkeys) as [Hsnd Hdec].
  unfold ranked. rewrite Hks. simpl bindE. f_equal.
  rewrite sort_desc_equal_keys; [exact Hsnd|].
  rewrite List.Forall_forall in Hdec. intros a b Ha Hb.
  pose proof (Hdec a Ha) as Hpa. pose proof (Hdec b Hb) as Hpb.
  assert (Hsa : snd a = x).
  { apply Hm. rewrite <- Hsnd. apply in_map_iff. by exists a. }
  assert (Hsb : snd b = x).
  { apply Hm. rewrite <- Hsnd. apply in_map_iff. by exists b. }
  rewrite Hsa in Hpa. rewrite Hsb in Hpb.
  assert (fst a = fst b) as -> by congruence.
  apply version_compare_refl.
Qed.

(** The operation when the constraint selects a test that raises nothing
    and every candidate that passes it parses. *)
Lemma filtered_ranked (c : string) (f : string -> bool) :
  VersionQuery.version_constraint query = Some c ->
  PyStr.nonempty c = true ->
  matches c candidates = inr (List.filter f candidates) ->
  (forall v, In v candidates -> f v = true -> parsable v) ->
  exists s,
    get_compatible_versions http_get query = inr (resolved query s (head s))
    /\ descending s
    /\ forall v, In v s <-> In v candidates /\ f v = true.
Proof using HL reported.
  intros Hq Hc Hm Hparse.
  assert (Hall : Forall parsable (List.filter f candidates)).
  { rewrite List.Forall_forall. intros v Hv.
    apply filter_In in Hv as [Hv Hf]. by apply Hparse. }
  destruct (ranked_ok _ Hall) as (s & Hs & Hperm & Hdesc).
  exists s. split; [|split; [exact Hdesc|]].
  - rewrite (get_constrained _ _ _ _ c reported Hq Hc). by rewrite Hm, Hs.
  - intros v. rewrite <- filter_In. split; intros Hv.
    + by apply (Permutation_in _ (Permutation_sym Hperm)).
    + by apply (Permutation_in _ Hperm).
Qed.

(** The resolver under [==], whatever the operand: nothing equal gives the
    empty result; equal candidates are returned as they are when the
    operand parses; when it does not, [sort] raises on the first of them
    and the handler answers. *)
Lemma exact_constraint_resolves (tail : string) :
  VersionQuery.version_constraint query = Some ("==" ++ tail) ->
  let exact := List.filter (fun v => String.eqb v (PyStr.strip tail))
                           candidates in
  get_compatible_versions http_get query
  = inr match exact with
        | [] => resolved query [] None
        | _ :: _ =>
            match version_parse (PyStr.strip tail) with
            | Some _ => resolved query exact (head exact)
            | None => failed query (InvalidVersion (PyStr.strip tail))
            end
        end.
Proof using HL reported.
  intros Hq exact.
  rewrite (get_constrained _ _ _ _ _ reported Hq eq_refl).
  unfold matches. rewrite condition_exact, filterE_pure. fold exact.
  assert (Hall : forall v, In v exact -> v = PyStr.strip tail).
  { intros v Hv. apply filter_In in Hv as [_ Hv]. by apply String.eqb_eq. }
  destruct exact as [|x rest] eqn:Hexact; [reflexivity|].
  destruct (version_parse (PyStr.strip tail)) as [k|] eqn:Hk.
  - rewrite (ranked_constant (PyStr.strip tail) (x :: rest)); [reflexivity| |exact Hall].
    unfold parsable. by rewrite Hk.
  - assert (Hx : x = PyStr.strip tail) by (apply Hall; by left).
    rewrite (ranked_fail [] rest x); [by rewrite Hx|constructor|by rewrite Hx].
Qed.

(** The resolver under a comparison operator, for any version library. *)
Lemma comparison_constraint_filters
      (sym tail : string) test (b : Version) :
  In (sym, test) comparison_operators ->
  (sym = ">" \/ sym = "<" -> PyStr.startswith tail "=" = false) ->
  VersionQuery.version_constraint query = Some (sym ++ tail) ->
  version_parse (PyStr.strip tail) = Some b ->
  Forall parsable candidates ->
  exists s,
    get_compatible_versions http_get query = inr (resolved query s (head s))
    /\ descending s
    /\ forall v, In v s <->
                 In v candidates
                 /\ exists pv, version_parse v = Some pv /\ test pv b = true.
Proof using HL reported.
  intros Hop Htail Hq Hb Hall.
  assert (Hne : PyStr.nonempty (sym ++ tail) = true).
  { simpl in Hop.
    destruct Hop as [[= <- _]|[[= <- _]|[[= <- _]|[[= <- _]|[]]]]]; reflexivity. }
  set (f := fun v => match version_parse v with
                     | Some pv => test pv b
                     | None => false
                     end).
  destruct (filtered_ranked (sym ++ tail) f Hq Hne) as (s & Hs & Hdesc & Hin).
  - unfold matches. rewrite (condition_comparison sym tail test Hop Htail).
    by apply filterE_comparison.
  - intros v Hv _. rewrite List.Forall_forall in Hall. by apply Hall.
  - exists s. split; [exact Hs|]. split; [exact Hdesc|].
    intros v. rewrite Hin. unfold f. split.
    + intros [Hv Hf]. split; [exact Hv|].
      destruct (version_parse v) as [pv|]; [by exists pv | discriminate].
    + intros [Hv (pv & Hpv & Ht)]. split; [exact Hv|]. by rewrite Hpv.
Qed.

(** The resolver under [~=], for any version library. *)
Lemma compatible_constraint_filters (tail : string) :
  VersionQuery.version_constraint query = Some ("~=" ++ tail) ->
  (forall v, In v candidates ->
             PyStr.startswith v (compatible_prefix (PyStr.strip tail)) = true ->
             parsable v) ->
  exists s,
    get_compatible_versions http_get query = inr (resolved query s (head s))
    /\ descending s
    /\ forall v, In v s <->
                 In v candidates
                 /\ PyStr.startswith v (compatible_prefix (PyStr.strip tail))
                    = true.
Proof using HL reported.
  intros Hq Hparse.
  apply (filtered_ranked ("~=" ++ tail)
           (fun v => PyStr.startswith v (compatible_prefix (PyStr.strip tail))));
    [exact Hq | reflexivity | | exact Hparse].
  unfold matches. by rewrite condition_compatible, filterE_pure.
Qed.

End Claims.

(** ** Faults inside an operation *)

Section Faults.

Context {L : Libs}.

Lemma bindE_inr {A B : Type} (m : Exc A) (k : A -> Exc B) (b : B) :
  bindE m k = inr b -> exists a, m = inr a /\ k a = inr b.
Proof. destruct m as [e|a]; [discriminate|]. intros H. by exists a. Qed.

Lemma bindM_inr {A B : Type} (m : M A) (k : A -> M B) h (b : B) h' :
  bindM m k h = (inr b, h') ->
  exists a h1, m h = (inr a, h1) /\ k a h1 = (inr b, h').
Proof.
  unfold bindM. destruct (m h) as [[e|a] h1]; [discriminate|].
  intros H. by exists a, h1.
Qed.

Lemma new_PackageResult_error name manager versions latest descr r :
  new_PackageResult name manager versions latest descr None = inr r ->
  PackageResult.error r = None.
Proof.
  unfold new_PackageResult. intros H.
  apply bindE_inr in H as (a & _ & H). apply bindE_inr in H as (b & _ & H).
  by injection H as <-.
Qed.

Lemma new_DependencyResult_error name manager deps r :
  new_DependencyResult name manager deps None = inr r ->
  DependencyResult.error r = None.
Proof.
  unfold new_DependencyResult. intros H.
  apply bindE_inr in H as (a & _ & H). by injection H as <-.
Qed.

Lemma new_VersionResult_error name manager versions recommended r :
  new_VersionResult name manager versions recommended None = inr r ->
  VersionResult.error r = None.
Proof.
  unfold new_VersionResult. intros H.
  apply bindE_inr in H as (a & _ & H). by injection H as <-.
Qed.

(** What the handlers need of the validation library: a value of the
    annotated type is accepted as it is.  Nothing is asked of the field
    that a call leaves out. *)
Section Validated.

Hypothesis Hstr : forall s, str_field (JStr s) = Some s.
Hypothesis Hdict : forall d, dict_field (JObj d) = Some d.

Lemma package_failure_built (name manager message : string) :
  new_PackageResult name manager [] (JStr "") None (Some message)
  = inr (package_failure name manager message).
Proof using Hstr.
  unfold new_PackageResult, validate_str. by rewrite Hstr.
Qed.

Lemma dependency_failure_built (name manager message : string) :
  new_DependencyResult name manager (JObj []) (Some message)
  = inr (dependency_failure name manager message).
Proof using Hdict.
  unfold new_DependencyResult, validate_dict. by rewrite Hdict.
Qed.

(** *** [get_package_info] *)

Lemma package_info_body_inr http_get (query : PackageQuery.t) r :
  package_info_body http_get query = inr r ->
  PackageResult.error r = None
  \/ (PackageResult.versions r = [] /\ PackageResult.latest_version r = ""
      /\ PackageResult.description r = None).
Proof using Hstr.
  unfold package_info_body. intros Hbody.
  destruct (PACKAGE_REGISTRIES !! _) as [template|];
    [|rewrite package_failure_built in Hbody; injection Hbody as <-; by right].
  destruct (http_get _) as [e'|status document]; [discriminate|].
  destruct (status =? 200)%Z; simpl in Hbody;
    [|rewrite package_failure_built in Hbody; injection Hbody as <-; by right].
  apply bindE_inr in Hbody as (data & _ & Hbody).
  apply bindE_inr in Hbody as ([[versions latest] descr] & _ & Hbody).
  left. by apply new_PackageResult_error in Hbody.
Qed.

Lemma package_info_total http_get (query : PackageQuery.t) :
  exists r,
    get_package_info http_get query = inr r
    /\ failures_reported http_get (PackageQuery.package_name query)
         (PackageQuery.package_manager query)
         (package_info_body http_get query) package_failure r
    /\ (PackageResult.error r <> None ->
        PackageResult.versions r = [] /\ PackageResult.latest_version r = ""
        /\ PackageResult.description r = None).
Proof using Hstr.
  unfold get_package_info, failures_reported.
  destruct (package_info_body http_get query) as [e|r] eqn:Hbody.
  - rewrite package_failure_built. eexists. split; [reflexivity|].
    unfold package_info_body in Hbody. repeat split.
    + by intros e' [= <-].
    + intros Hnone. rewrite Hnone, package_failure_built in Hbody. discriminate.
    + intros template Ht. rewrite Ht in Hbody.
      destruct (http_get _) as [e'|status document]; [congruence|].
      destruct (status =? 200)%Z; simpl in Hbody;
        [|rewrite package_failure_built in Hbody; discriminate].
      destruct document as [e'|data]; [simpl in Hbody; congruence | exact I].
  - exists r. split; [reflexivity|].
    pose proof (package_info_body_inr _ _ _ Hbody) as Hshape.
    unfold package_info_body in Hbody. split; [repeat split|].
    + discriminate.
    + intros Hnone. rewrite Hnone, package_failure_built in Hbody. congruence.
    + intros template Ht. rewrite Ht in Hbody.
      destruct (http_get _) as [e'|status document]; [discriminate|].
      destruct (status =? 200)%Z; simpl in Hbody;
        [|rewrite package_failure_built in Hbody; congruence].
      destruct document as [e'|data]; [discriminate | exact I].
    + intros Herr. by destruct Hshape.
Qed.

(** *** [get_dependencies] *)

Lemma dependencies_body_inr http_get (query : DependencyQuery.t) r :
  dependencies_body http_get query = inr r ->
  DependencyResult.error r = None \/ DependencyResult.dependencies r = [].
Proof using Hdict.
  unfold dependencies_body. intros Hbody.
  destruct (PACKAGE_REGISTRIES !! _) as [template|];
    [|rewrite dependency_failure_built in Hbody; injection Hbody as <-; by right].
  destruct (http_get _) as [e'|status document]; [discriminate|].
  destruct (status =? 200)%Z; simpl in Hbody;
    [|rewrite dependency_failure_built in Hbody; injection Hbody as <-; by right].
  apply bindE_inr in Hbody as (data & _ & Hbody).
  apply bindE_inr in Hbody as (deps & _ & Hbody).
  left. by apply new_DependencyResult_error in Hbody.
Qed.

Lemma dependencies_total http_get (query : DependencyQuery.t) :
  exists r,
    get_dependencies http_get query = inr r
    /\ failures_reported http_get (DependencyQuery.package_name query)
         (DependencyQuery.package_manager query)
         (dependencies_body http_get query) dependency_failure r
    /\ (DependencyResult.error r <> None ->
        DependencyResult.dependencies r = []).
Proof using Hdict.
  unfold get_dependencies, failures_reported.
  destruct (dependencies_body http_get query) as [e|r] eqn:Hbody.
  - rewrite dependency_failure_built. eexists. split; [reflexivity|].
    unfold dependencies_body in Hbody. repeat split.
    + by intros e' [= <-].
    + intros Hnone. rewrite Hnone, dependency_failure_built in Hbody.
      discriminate.
    + intros template Ht. rewrite Ht in Hbody.
      destruct (http_get _) as [e'|status document]; [congruence|].
      destruct (status =? 200)%Z; simpl in Hbody;
        [|rewrite dependency_failure_built in Hbody; discriminate].
      destruct document as [e'|data]; [simpl in Hbody; congruence | exact I].
  - exists r. split; [reflexivity|].
    pose proof (dependencies_body_inr _ _ _ Hbody) as Hshape.
    unfold dependencies_body in Hbody. split; [repeat split|].
    + discriminate.
    + intros Hnone. rewrite Hnone, dependency_failure_built in Hbody.
      congruence.
    + intros template Ht. rewrite Ht in Hbody.
      destruct (http_get _) as [e'|status document]; [discriminate|].
      destruct (status =? 200)%Z; simpl in Hbody;
        [|rewrite dependency_failure_built in Hbody; congruence].
      destruct document as [e'|data]; [discriminate | exact I].
    + intros Herr. by destruct Hshape.
Qed.

(** *** [get_compatible_versions], where a call that leaves
    [recommended_version] out gets [None] for it *)

Hypothesis Hopt : omitted_optional = true.

Lemma version_failure_built (name manager message : string) :
  new_VersionResult name manager [] None (Some message)
  = inr (version_failure name manager message).
Proof using Hopt.
  unfold new_VersionResult. by rewrite Hopt.
Qed.

Lemma compatible_versions_body_inr http_get (query : VersionQuery.t) r h :
  compatible_versions_body http_get query [] = (inr r, h) ->
  VersionResult.error r = None
  \/ (VersionResult.compatible_versions r = []
      /\ VersionResult.recommended_version r = None).
Proof using Hopt.
  unfold compatible_versions_body. intros Hbody.
  destruct (PACKAGE_REGISTRIES !! _) as [template|];
    [|rewrite version_failure_built in Hbody; injection Hbody as <- _; by right].
  destruct (http_get _) as [e'|status document]; [discriminate|].
  destruct (status =? 200)%Z; cbv beta iota delta [negb] in Hbody;
    [|rewrite version_failure_built in Hbody; injection Hbody as <- _; by right].
  apply bindM_inr in Hbody as (data & h1 & _ & Hbody).
  apply bindM_inr in Hbody as ([p latest] & h2 & _ & Hbody).
  apply bindM_inr in Hbody as (latest' & h3 & _ & Hbody).
  apply bindM_inr in Hbody as ([p' recommended] & h4 & _ & Hbody).
  apply bindM_inr in Hbody as (versions & h5 & _ & Hbody).
  unfold lift in Hbody. injection Hbody as Hbody _.
  left. by apply new_VersionResult_error in Hbody.
Qed.

Lemma compatible_versions_total http_get (query : VersionQuery.t) :
  exists r,
    get_compatible_versions http_get query = inr r
    /\ failures_reported http_get (VersionQuery.package_name query)
         (VersionQuery.package_manager query)
         (fst (compatible_versions_body http_get query []))
         version_failure r
    /\ (VersionResult.error r <> None ->
        VersionResult.compatible_versions r = []
        /\ VersionResult.recommended_version r = None).
Proof using Hopt.
  unfold get_compatible_versions, run_compatible_versions, failures_reported.
  destruct (compatible_versions_body http_get query []) as [[e|r] h] eqn:Hbody.
  - rewrite version_failure_built. eexists. split; [reflexivity|].
    unfold compatible_versions_body in Hbody. simpl fst. repeat split.
    + by intros e' [= <-].
    + intros Hnone. rewrite Hnone, version_failure_built in Hbody.
      discriminate.
    + intros template Ht. rewrite Ht in Hbody.
      destruct (http_get _) as [e'|status document];
        [unfold raise in Hbody; injection Hbody as <- _; reflexivity|].
      destruct (status =? 200)%Z; cbv beta iota delta [negb] in Hbody;
        [|rewrite version_failure_built in Hbody; discriminate].
      destruct document as [e'|data]; [|exact I].
      unfold bindM, lift in Hbody. injection Hbody as <- _. reflexivity.
  - exists r. split; [reflexivity|].
    pose proof (compatible_versions_body_inr _ _ _ _ Hbody) as Hshape.
    unfold compatible_versions_body in Hbody. simpl fst.
    split; [repeat split|].
    + discriminate.
    + intros Hnone. rewrite Hnone, version_failure_built in Hbody.
      unfold lift in Hbody. by injection Hbody as <- _.
    + intros template Ht. rewrite Ht in Hbody.
      destruct (http_get _) as [e'|status document]; [discriminate|].
      destruct (status =? 200)%Z; cbv beta iota delta [negb] in Hbody;
        [|rewrite version_failure_built in Hbody; unfold lift in Hbody;
          by injection Hbody as <- _].
      destruct document as [e'|data]; [discriminate | exact I].
    + intros Herr. by destruct Hshape.
Qed.

End Validated.

Context {HL : LibsOk L}.

Lemma new_package_failure (name manager message : string) :
  new_PackageResult name manager [] (JStr "") None (Some message)
  = inr (package_failure name manager message).
Proof using HL. apply package_failure_built, str_field_str. Qed.

Lemma new_dependency_failure (name manager message : string) :
  new_DependencyResult name manager (JObj []) (Some message)
  = inr (dependency_failure name manager message).
Proof using HL. apply dependency_failure_built, dict_field_obj. Qed.

Lemma new_version_failure (name manager message : string) :
  new_VersionResult name manager [] None (Some message)
  = inr (version_failure name manager message).
Proof using HL. apply version_failure_built, omitted_is_none. Qed.

(** Where the validation library instead refuses a call that leaves
    [recommended_version] out, the handler of [get_compatible_versions]
    raises in its turn: the fault leaves the operation. *)
Lemma required_field_breaks_handler http_get (query : VersionQuery.t) :
  omitted_optional = false ->
  PACKAGE_REGISTRIES !! PyStr.lower (VersionQuery.package_manager query)
  = None ->
  get_compatible_versions http_get query
  = inl (ValidationError "recommended_version").
Proof.
  intros Hopt Hnone.
  unfold get_compatible_versions, run_compatible_versions,
    compatible_versions_body.
  rewrite Hnone. unfold lift, new_VersionResult. rewrite Hopt. reflexivity.
Qed.

End Faults.

(** ** The claims that rest on the reference version library *)

Lemma strip_zeros_snoc (l : list N) :
  Pep440.strip_zeros (l ++ [0%N])%list = Pep440.strip_zeros l.
Proof.
  induction l as [|n l IH]; simpl; [reflexivity | by rewrite IH].
Qed.

(** C1 (the code breaks it): the registry gives the releases 1.0.0, 2.0.0 in
    that order and the request carries the constraint [!=1.0.0], whose
    operator the chain does not know.  After the run the candidate list
    itself (the second list object) holds 2.0.0, 1.0.0: the sort reordered
    it in place. *)
Theorem unrecognized_operator_sorts_candidates_in_place :
  let http_get := pypi ["1.0.0"; "2.0.0"] "2.0.0" in
  let query := ask "pip" (Some "!=1.0.0") in
  registry_reports http_get query ["1.0.0"; "2.0.0"] (JStr "2.0.0")
  /\ snd (run_compatible_versions http_get query) !! 1
     = Some ["2.0.0"; "1.0.0"]
  /\ get_compatible_versions http_get query
     = inr (resolved query ["2.0.0"; "1.0.0"] (Some "2.0.0")).
Proof.
  split; [apply pypi_reports|]. split; vm_compute; reflexivity.
Qed.

Lemma final_releases_compare (ra rb : list N) :
  Pep440.compare (final_release ra) (final_release rb)
  = list_compare N.compare (Pep440.strip_zeros ra) (Pep440.strip_zeros rb).
Proof.
  unfold Pep440.compare, Pep440.key_compare, Pep440.cmpkey, final_release.
  cbn [Pep440.epoch Pep440.release Pep440.pre Pep440.post Pep440.dev
       Pep440.local].
  unfold Pep440.lex at 1 2. cbn [fst snd]. rewrite N.compare_refl.
  by destruct (list_compare N.compare _ _).
Qed.

(** What each comparison asks of the order of the version library. *)
Lemma comparison_tests {L : Libs} (sym : string) (pv b : Version) :
  In sym [">="; ">"; "<="; "<"] ->
  exists test,
    In (sym, test) comparison_operators
    /\ (test pv b = true <-> operator_holds sym (version_compare pv b)).
Proof.
  unfold operator_holds.
  intros [<-|[<-|[<-|[<-|[]]]]].
  - exists version_ge. split; [by left|]. unfold version_ge.
    destruct (version_compare pv b); split; intros H;
      try discriminate H; try (left; by split);
      by destruct H as [[_ H]|[[H _]|[[H _]|[H _]]]].
  - exists version_gt. split; [right; by left|]. unfold version_gt.
    destruct (version_compare pv b); split; intros H;
      try discriminate H; try (right; left; by split);
      by destruct H as [[H _]|[[_ H]|[[H _]|[H _]]]].
  - exists version_le. split; [right; right; by left|]. unfold version_le.
    destruct (version_compare pv b); split; intros H;
      try discriminate H; try (right; right; left; by split);
      by destruct H as [[H _]|[[H _]|[[_ H]|[H _]]]].
  - exists version_lt. split; [right; right; right; by left|].
    unfold version_lt.
    destruct (version_compare pv b); split; intros H;
      try discriminate H; try (right; right; right; by split);
      by destruct H as [[H _]|[[H _]|[[H _]|[_ H]]]].
Qed.

(** C6 (corrected): with one of the operators [>=], [>], [<=], [<] (the
    two-character ones tried first), an operand that parses and candidates
    that all parse, the returned list holds exactly the candidates [v] for
    which [version_compare (parse v) (parse operand)] is not [Lt] for [>=],
    is [Gt] for [>], is not [Gt] for [<=], is [Lt] for [<], greatest first.
    The order is that of the version library.  In the library of the source
    (PEP 440) a release compares equal to itself with a zero segment added,
    so 1.2 equals 1.2.0, and two final releases compare number by number;
    but 1.0.0-1 reads as a post-release and is above 1.0.0, and a local
    version 1.0.0+build.5 is above 1.0.0 too. *)
Theorem comparison_constraint_follows_library_order :
  (forall (L : Libs), LibsOk L ->
   forall http_get query candidates latest sym tail b,
     registry_reports http_get query candidates latest ->
     In sym [">="; ">"; "<="; "<"] ->
     (sym = ">" \/ sym = "<" -> PyStr.startswith tail "=" = false) ->
     VersionQuery.version_constraint query = Some (sym ++ tail) ->
     version_parse (PyStr.strip tail) = Some b ->
     Forall parsable candidates ->
     exists s,
       get_compatible_versions http_get query = inr (resolved query s (head s))
       /\ descending s
       /\ forall v, In v s <->
                    In v candidates
                    /\ exists pv, version_parse v = Some pv
                                  /\ operator_holds sym (version_compare pv b))
  /\ (forall v : Pep440.version,
        Pep440.compare v
          {| Pep440.epoch := Pep440.epoch v;
             Pep440.release := (Pep440.release v ++ [0%N])%list;
             Pep440.pre := Pep440.pre v; Pep440.post := Pep440.post v;
             Pep440.dev := Pep440.dev v; Pep440.local := Pep440.local v |}
        = Eq)
  /\ (exists a b, Pep440.parse "1.2" = Some a /\ Pep440.parse "1.2.0" = Some b
                  /\ Pep440.compare a b = Eq)
  /\ (forall ra rb : list N,
        Pep440.compare (final_release ra) (final_release rb)
        = list_compare N.compare (Pep440.strip_zeros ra)
                       (Pep440.strip_zeros rb))
  /\ (exists a b, Pep440.parse "1.0.0-1" = Some a
                  /\ Pep440.parse "1.0.0" = Some b
                  /\ Pep440.compare a b = Gt)
  /\ (exists a b, Pep440.parse "1.0.0+build.5" = Some a
                  /\ Pep440.parse "1.0.0" = Some b
                  /\ Pep440.compare a b = Gt).
Proof.
  split; [|split; [|split; [|split; [|split]]]].
  - intros L HL http_get query candidates latest sym tail b Hreg Hsym Htail
           Hq Hb Hall.
    destruct (comparison_tests sym b b Hsym) as (test & Hop & _).
    destruct (comparison_constraint_filters _ _ _ latest Hreg sym tail test b
                Hop Htail Hq Hb Hall) as (s & Hs & Hdesc & Hin).
    exists s. split; [exact Hs|]. split; [exact Hdesc|].
    intros v. rewrite Hin. split.
    + intros [Hv (pv & Hpv & Ht)]. split; [exact Hv|]. exists pv.
      split; [exact Hpv|].
      destruct (comparison_tests sym pv b Hsym) as (test' & Hop' & Hiff).
      assert (test' = test) as ->; [|by apply Hiff].
      clear -Hop Hop'. simpl in Hop, Hop'.
      destruct Hop as [[= <- <-]|[[= <- <-]|[[= <- <-]|[[= <- <-]|[]]]]];
        destruct Hop' as [[= <-]|[[= <-]|[[= <-]|[[= <-]|[]]]]]; reflexivity.
    + intros [Hv (pv & Hpv & Hc)]. split; [exact Hv|]. exists pv.
      split; [exact Hpv|].
      destruct (comparison_tests sym pv b Hsym) as (test' & Hop' & Hiff).
      assert (test' = test) as <-; [|by apply Hiff].
      clear -Hop Hop'. simpl in Hop, Hop'.
      destruct Hop as [[= <- <-]|[[= <- <-]|[[= <- <-]|[[= <- <-]|[]]]]];
        destruct Hop' as [[= <-]|[[= <-]|[[= <-]|[[= <-]|[]]]]]; reflexivity.
  - intros v. unfold Pep440.compare. apply (ol_eq _ key_order).
    unfold Pep440.cmpkey. simpl. by rewrite strip_zeros_snoc.
  - do 2 eexists. repeat split; reflexivity.
  - intros ra rb. apply final_releases_compare.
  - do 2 eexists. split; [|split]; reflexivity.
  - do 2 eexists. split; [|split]; reflexivity.
Qed.

(** C7: with the operator [~=] a candidate is kept exactly when its text
    starts with the operand's components but the last, joined by dots and
    followed by a dot; whenever the kept candidates parse, they are what
    the operation returns.  For the operand 1.4.2 the prefix is [1.4.]:
    1.4.9 is kept, 1.5.0 and 1.4 are not. *)
Theorem compatible_release_is_prefix_match :
  (forall (L : Libs) (tail : string) (candidates : list string),
     matches ("~=" ++ tail) candidates
     = inr (List.filter
              (fun v => PyStr.startswith v
                          (compatible_prefix (PyStr.strip tail)))
              candidates))
  /\ (forall (L : Libs), LibsOk L ->
      forall http_get query candidates latest tail,
        registry_reports http_get query candidates latest ->
        VersionQuery.version_constraint query = Some ("~=" ++ tail) ->
        (forall v, In v candidates ->
                   PyStr.startswith v (compatible_prefix (PyStr.strip tail))
                   = true -> parsable v) ->
        exists s,
          get_compatible_versions http_get query
          = inr (resolved query s (head s))
          /\ descending s
          /\ forall v, In v s <->
                       In v candidates
                       /\ PyStr.startswith v
                            (compatible_prefix (PyStr.strip tail)) = true)
  /\ compatible_prefix "1.4.2" = "1.4."
  /\ PyStr.startswith "1.4.9" (compatible_prefix "1.4.2") = true
  /\ PyStr.startswith "1.5.0" (compatible_prefix "1.4.2") = false
  /\ PyStr.startswith "1.4" (compatible_prefix "1.4.2") = false.
Proof.
  split; [|split; [|by repeat split]].
  - intros L tail candidates. unfold matches.
    by rewrite condition_compatible, filterE_pure.
  - intros L HL http_get query candidates latest tail Hreg.
    by apply (compatible_constraint_filters _ _ _ latest Hreg).
Qed.

(** C5: with the operator [==] the filter keeps exactly the candidates whose
    text equals the operand, character for character, in the order the
    registry gave them, whatever the operand and the candidates are.  The
    operation returns what the filter kept, the first of them recommended
    and no error signalled, when the operand parses or nothing was kept;
    when candidates equal an operand that does not parse, the sort raises
    on them and the handler answers with the failure result. *)
Theorem exact_constraint_selects_equal_strings :
  (forall (L : Libs) (tail : string) (candidates : list string),
     let exact := List.filter (fun v => String.eqb v (PyStr.strip tail))
                              candidates in
     matches ("==" ++ tail) candidates = inr exact
     /\ forall v, In v exact <-> In v candidates /\ v = PyStr.strip tail)
  /\ (forall (L : Libs), LibsOk L ->
      forall http_get query candidates latest tail,
        registry_reports http_get query candidates latest ->
        VersionQuery.version_constraint query = Some ("==" ++ tail) ->
        let exact := List.filter (fun v => String.eqb v (PyStr.strip tail))
                                 candidates in
        get_compatible_versions http_get query
        = inr match exact with
              | [] => resolved query [] None
              | _ :: _ =>
                  match version_parse (PyStr.strip tail) with
                  | Some _ => resolved query exact (head exact)
                  | None => failed query (InvalidVersion (PyStr.strip tail))
                  end
              end).
Proof.
  split.
  - intros L tail candidates exact. split.
    + unfold matches. by rewrite condition_exact, filterE_pure.
    + intros v. unfold exact. rewrite filter_In, String.eqb_eq. reflexivity.
  - intros L HL http_get query candidates latest tail Hreg.
    by apply (exact_constraint_resolves _ _ _ latest Hreg).
Qed.

(** C2 (corrected): whatever the request and whatever the registry answers,
    [get_package_info] and [get_dependencies] return a result and raise
    nothing, and so does [get_compatible_versions] wherever a
    [VersionResult] built without [recommended_version] gets [None] for it.
    A fault raised anywhere in the body, an unsupported manager, a request
    that cannot be made, a status other than 200 and a body that does not
    decode each give the failure result: the identifying fields, empty data
    fields, and as error the fixed message or the text of the exception,
    whatever that text is.  A result that carries an error has empty data
    fields. *)
Theorem faults_become_failure_results (L : Libs) (http_get : World) :
  (forall s, str_field (JStr s) = Some s) ->
  (forall d, dict_field (JObj d) = Some d) ->
  (forall query : PackageQuery.t,
     exists r,
       get_package_info http_get query = inr r
       /\ failures_reported http_get (PackageQuery.package_name query)
            (PackageQuery.package_manager query)
            (package_info_body http_get query) package_failure r
       /\ (PackageResult.error r <> None ->
           PackageResult.versions r = []
           /\ PackageResult.latest_version r = ""
           /\ PackageResult.description r = None))
  /\ (forall query : DependencyQuery.t,
        exists r,
          get_dependencies http_get query = inr r
          /\ failures_reported http_get (DependencyQuery.package_name query)
               (DependencyQuery.package_manager query)
               (dependencies_body http_get query) dependency_failure r
          /\ (DependencyResult.error r <> None ->
              DependencyResult.dependencies r = []))
  /\ (omitted_optional = true ->
      forall query : VersionQuery.t,
        exists r,
          get_compatible_versions http_get query = inr r
          /\ failures_reported http_get (VersionQuery.package_name query)
               (VersionQuery.package_manager query)
               (fst (compatible_versions_body http_get query []))
               version_failure r
          /\ (VersionResult.error r <> None ->
              VersionResult.compatible_versions r = []
              /\ VersionResult.recommended_version r = None)).
Proof.
  intros Hstr Hdict. split; [|split].
  - intros query. by apply package_info_total.
  - intros query. by apply dependencies_total.
  - intros Hopt query. by apply compatible_versions_total.
Qed.

(** ** The claims on concrete requests *)

(** C3 as written fails: npm lists 1.0.0, 2.0.0-next.1, 2.0.0 and the
    request asks [>=1.0.0].  1.0.0 parses and passes the test, yet it is
    not returned: the request ends in the handler. *)
Lemma unparsable_candidate_loses_the_batch :
  get_compatible_versions (npmjs npm_versions "2.0.0")
                          (ask "npm" (Some ">=1.0.0"))
  = inr (version_failure "demo" "npm" "Invalid version: '2.0.0-next.1'")
  /\ ~ batch_survives (npmjs npm_versions "2.0.0")
                      (ask "npm" (Some ">=1.0.0"))
                      npm_versions version_ge "1.0.0".
Proof.
  split; [vm_compute; reflexivity|].
  intros (r & Hr & H). vm_compute in Hr. injection Hr as <-.
  edestruct (H "1.0.0") as [Hin _];
    [by left | reflexivity | reflexivity | reflexivity | exact Hin].
Qed.

(** C4 as written fails: the same package with the constraint [^1.0.0],
    whose operator the chain does not know.  Nothing comes back and an
    error is signalled. *)
Lemma unrecognized_operator_can_fail :
  get_compatible_versions (npmjs npm_versions "2.0.0")
                          (ask "npm" (Some "^1.0.0"))
  = inr (version_failure "demo" "npm" "Invalid version: '2.0.0-next.1'")
  /\ ~ passes_through (npmjs npm_versions "2.0.0")
                      (ask "npm" (Some "^1.0.0")) npm_versions.
Proof.
  split; [vm_compute; reflexivity|].
  intros (r & Hr & _ & Herr). vm_compute in Hr. injection Hr as <-.
  discriminate.
Qed.

(** C8 as written fails: the same package with the constraint
    [==2.0.0-next.1].  The filtering leaves one version, and the result
    holds none. *)
Lemma remaining_version_can_be_lost :
  matches "==2.0.0-next.1" npm_versions = inr ["2.0.0-next.1"]
  /\ get_compatible_versions (npmjs npm_versions "2.0.0")
                             (ask "npm" (Some "==2.0.0-next.1"))
     = inr (version_failure "demo" "npm" "Invalid version: '2.0.0-next.1'")
  /\ ~ ranks_matches (npmjs npm_versions "2.0.0")
                     (ask "npm" (Some "==2.0.0-next.1")) ["2.0.0-next.1"].
Proof.
  split; [reflexivity|]. split; [vm_compute; reflexivity|].
  intros (r & Hr & Herr & _). vm_compute in Hr. injection Hr as <-.
  discriminate.
Qed.

(** C6 as written fails: npm lists 1.0.0, 1.0.0-1, 1.1.0, which all parse,
    and the request asks [>1.0.0].  In semantic versioning 1.0.0-1 is a
    pre-release of 1.0.0 and precedes it; the version library reads it as
    the post-release 1.0.0.post1, above 1.0.0, and it is returned. *)
Lemma numbered_prerelease_is_ranked_above_release :
  Forall parsable npm_numbered
  /\ get_compatible_versions (npmjs npm_numbered "1.1.0")
                             (ask "npm" (Some ">1.0.0"))
     = inr (resolved (ask "npm" (Some ">1.0.0")) ["1.1.0"; "1.0.0-1"]
                     (Some "1.1.0"))
  /\ (exists a b, SemVer.parse "1.0.0-1" = Some a
                  /\ SemVer.parse "1.0.0" = Some b
                  /\ SemVer.compare a b = Lt)
  /\ ~ follows_semver (npmjs npm_numbered "1.1.0")
                      (ask "npm" (Some ">1.0.0")) npm_numbered ">" "1.0.0".
Proof.
  split; [|split; [|split]].
  - unfold npm_numbered.
    repeat (apply List.Forall_cons; [by eexists|]). apply List.Forall_nil.
  - vm_compute. reflexivity.
  - do 2 eexists. split; [|split]; reflexivity.
  - intros (r & Hr & H). vm_compute in Hr. injection Hr as <-.
    destruct (proj1 (H "1.0.0-1")) as (_ & pv & po & Hpv & Hpo & Hrel);
      [right; by left|].
    vm_compute in Hpv, Hpo. injection Hpv as <-. injection Hpo as <-.
    destruct Hrel as [[Hs _]|[[_ Hc]|[[Hs _]|[Hs _]]]];
      try discriminate Hs.
    vm_compute in Hc. discriminate Hc.
Qed.

(** C2 as written fails twice.  A request for package information that
    times out comes back with the empty text as its error, which describes
    nothing.  And where the validation library refuses a call that leaves
    out a field without a declared default, a request for the versions of a
    package under an unsupported manager raises: building the failure
    result without [recommended_version] is refused, in the body and again
    in the handler. *)
Lemma failure_can_say_nothing_or_escape :
  get_package_info timing_out demo_package
  = inr (package_failure "demo" "pip" "")
  /\ ~ failure_described (get_package_info timing_out demo_package)
                         PackageResult.error
  /\ get_compatible_versions (L := strict_libs) unreachable (ask "cargo" None)
     = inl (ValidationError "recommended_version")
  /\ ~ failure_described
        (get_compatible_versions (L := strict_libs) unreachable
                                 (ask "cargo" None))
        VersionResult.error.
Proof.
  split; [|split; [|split]].
  - vm_compute. reflexivity.
  - intros (r & Hr & message & Herr & Hne). vm_compute in Hr.
    injection Hr as <-. simpl in Herr. injection Herr as <-. by apply Hne.
  - vm_compute. reflexivity.
  - intros (r & Hr & _). vm_compute in Hr. discriminate Hr.
Qed.

Lemma releases_parse : Forall parsable pypi_releases.
Proof.
  unfold pypi_releases.
  repeat (apply List.Forall_cons; [by eexists|]). apply List.Forall_nil.
Qed.

(** C9 on PyPI: no constraint, everything back as given. *)
Lemma no_constraint_returns_all_and_latest_witness :
  get_compatible_versions (pypi npm_versions "2.0.0") (ask "pip" None)
  = inr (resolved (ask "pip" None) npm_versions (Some "2.0.0"))
  /\ (forall s, JStr "2.0.0" = JStr s -> Some "2.0.0" = Some s).
Proof.
  apply (no_constraint_returns_all_and_latest (HL := reference_ok)
           (pypi npm_versions "2.0.0") (ask "pip" None) npm_versions
           (JStr "2.0.0") (pypi_reports _ _ _) (Some "2.0.0")).
  - left. reflexivity.
  - reflexivity.
Defined.


(** C4, amended, on PyPI. *)
Lemma unrecognized_operator_keeps_all_witness :
  passes_through (pypi pypi_releases "1.2.3") (ask "pip" (Some "^1.0.0"))
                 pypi_releases.
Proof.
  apply (unrecognized_operator_keeps_all (HL := reference_ok)
           (pypi pypi_releases "1.2.3") (ask "pip" (Some "^1.0.0"))
           pypi_releases (JStr "1.2.3") (pypi_reports _ _ _) "^1.0.0").
  - reflexivity.
  - reflexivity.
  - repeat constructor.
  - exact releases_parse.
Defined.

(** C8, amended, on PyPI.  [>=1.2.0] leaves 1.2.0, 1.2.3, 2.0.0 in the
    order of the registry: they come back greatest first and 2.0.0 is
    recommended.  [>=3.0.0] leaves nothing: the result is empty and nothing
    is recommended. *)
Lemma remaining_versions_are_ranked_witness :
  (matches ">=1.2.0" pypi_releases = inr ["1.2.0"; "1.2.3"; "2.0.0"]
   /\ ranks_matches (pypi pypi_releases "2.0.0") (ask "pip" (Some ">=1.2.0"))
                    ["1.2.0"; "1.2.3"; "2.0.0"]
   /\ get_compatible_versions (pypi pypi_releases "2.0.0")
                              (ask "pip" (Some ">=1.2.0"))
      = inr (resolved (ask "pip" (Some ">=1.2.0"))
                      ["2.0.0"; "1.2.3"; "1.2.0"] (Some "2.0.0")))
  /\ (matches ">=3.0.0" pypi_releases = inr []
      /\ get_compatible_versions (pypi pypi_releases "2.0.0")
                                 (ask "pip" (Some ">=3.0.0"))
         = inr (resolved (ask "pip" (Some ">=3.0.0")) [] None)).
Proof.
  split; (split; [vm_compute; reflexivity|]).
  - split; [|vm_compute; reflexivity].
    apply (remaining_versions_are_ranked (HL := reference_ok)
             (pypi pypi_releases "2.0.0") (ask "pip" (Some ">=1.2.0"))
             pypi_releases (JStr "2.0.0") (pypi_reports _ _ _) ">=1.2.0"
             ["1.2.0"; "1.2.3"; "2.0.0"]).
    + reflexivity.
    + reflexivity.
    + vm_compute. reflexivity.
    + repeat (apply List.Forall_cons; [by eexists|]). apply List.Forall_nil.
  - apply (remaining_versions_are_ranked (HL := reference_ok)
             (pypi pypi_releases "2.0.0") (ask "pip" (Some ">=3.0.0"))
             pypi_releases (JStr "2.0.0") (pypi_reports _ _ _) ">=3.0.0" []).
    + reflexivity.
    + reflexivity.
    + vm_compute. reflexivity.
    + apply List.Forall_nil.
    + reflexivity.
Defined.

(** C3, amended, on npm. *)
Lemma unparsable_candidate_fails_request_witness :
  get_compatible_versions (npmjs npm_versions "2.0.0")
                          (ask "npm" (Some ">=1.0.0"))
  = inr (failed (ask "npm" (Some ">=1.0.0")) (InvalidVersion "2.0.0-next.1")).
Proof.
  eapply (unparsable_candidate_fails_request (HL := reference_ok)
            (npmjs npm_versions "2.0.0") (ask "npm" (Some ">=1.0.0"))
            npm_versions (JStr "2.0.0") (npmjs_reports _ _ _)
            ">=" "1.0.0" version_ge _ ["1.0.0"] ["2.0.0"] "2.0.0-next.1").
  - left. reflexivity.
  - intros [H|H]; discriminate H.
  - reflexivity.
  - reflexivity.
  - reflexivity.
  - apply List.Forall_cons; [by eexists | apply List.Forall_nil].
  - reflexivity.
Defined.

(** C5 on PyPI and npm: [== 1.2.0 ] returns the one release of that text;
    [==abc] equals no release and returns none; [==2.0.0-next.1] equals a
    version that does not parse and ends in the handler. *)
Lemma exact_constraint_selects_equal_strings_witness :
  get_compatible_versions (pypi pypi_releases "2.0.0")
                          (ask "pip" (Some "== 1.2.0 "))
  = inr (resolved (ask "pip" (Some "== 1.2.0 ")) ["1.2.0"] (Some "1.2.0"))
  /\ get_compatible_versions (pypi pypi_releases "2.0.0")
                             (ask "pip" (Some "==abc"))
     = inr (resolved (ask "pip" (Some "==abc")) [] None)
  /\ get_compatible_versions (npmjs npm_versions "2.0.0")
                             (ask "npm" (Some "==2.0.0-next.1"))
     = inr (failed (ask "npm" (Some "==2.0.0-next.1"))
                   (InvalidVersion "2.0.0-next.1")).
Proof.
  split; [|split].
  - exact (proj2 exact_constraint_selects_equal_strings
                 reference_libs reference_ok
                 (pypi pypi_releases "2.0.0") (ask "pip" (Some "== 1.2.0 "))
                 pypi_releases (JStr "2.0.0") " 1.2.0 "
                 (pypi_reports _ _ _) eq_refl).
  - exact (proj2 exact_constraint_selects_equal_strings
                 reference_libs reference_ok
                 (pypi pypi_releases "2.0.0") (ask "pip" (Some "==abc"))
                 pypi_releases (JStr "2.0.0") "abc"
                 (pypi_reports _ _ _) eq_refl).
  - exact (proj2 exact_constraint_selects_equal_strings
                 reference_libs reference_ok
                 (npmjs npm_versions "2.0.0")
                 (ask "npm" (Some "==2.0.0-next.1"))
                 npm_versions (JStr "2.0.0") "2.0.0-next.1"
                 (npmjs_reports _ _ _) eq_refl).
Defined.

(** C6, amended, on PyPI: the scenario of the specification, [>=1.2.0],
    and [<1.2] against the same releases. *)
Lemma comparison_constraint_follows_library_order_witness :
  (get_compatible_versions (pypi pypi_releases "2.0.0")
                           (ask "pip" (Some ">=1.2.0"))
   = inr (resolved (ask "pip" (Some ">=1.2.0"))
                   ["2.0.0"; "1.2.3"; "1.2.0"] (Some "2.0.0"))
   /\ exists s,
        get_compatible_versions (pypi pypi_releases "2.0.0")
                                (ask "pip" (Some ">=1.2.0"))
        = inr (resolved (ask "pip" (Some ">=1.2.0")) s (head s))
        /\ descending s
        /\ forall v, In v s <->
                     In v pypi_releases
                     /\ exists pv,
                          version_parse v = Some pv
                          /\ operator_holds ">="
                               (version_compare pv (final_release [1; 2; 0]%N)))
  /\ (get_compatible_versions (pypi pypi_releases "2.0.0")
                              (ask "pip" (Some "<1.2"))
      = inr (resolved (ask "pip" (Some "<1.2")) ["1.0.0"] (Some "1.0.0"))
      /\ exists s,
           get_compatible_versions (pypi pypi_releases "2.0.0")
                                   (ask "pip" (Some "<1.2"))
           = inr (resolved (ask "pip" (Some "<1.2")) s (head s))
           /\ descending s
           /\ forall v, In v s <->
                        In v pypi_releases
                        /\ exists pv,
                             version_parse v = Some pv
                             /\ operator_holds "<"
                                  (version_compare pv (final_release [1; 2]%N))).
Proof.
  split; (split; [vm_compute; reflexivity|]).
  - apply (proj1 comparison_constraint_follows_library_order
                 reference_libs reference_ok
                 (pypi pypi_releases "2.0.0") (ask "pip" (Some ">=1.2.0"))
                 pypi_releases (JStr "2.0.0")
                 ">=" "1.2.0" (final_release [1; 2; 0]%N) (pypi_reports _ _ _)).
    + left. reflexivity.
    + intros [H|H]; discriminate H.
    + reflexivity.
    + reflexivity.
    + exact releases_parse.
  - apply (proj1 comparison_constraint_follows_library_order
                 reference_libs reference_ok
                 (pypi pypi_releases "2.0.0") (ask "pip" (Some "<1.2"))
                 pypi_releases (JStr "2.0.0")
                 "<" "1.2" (final_release [1; 2]%N) (pypi_reports _ _ _)).
    + right. right. right. left. reflexivity.
    + intros _. reflexivity.
    + reflexivity.
    + reflexivity.
    + exact releases_parse.
Defined.

(** C7 on PyPI: [~=1.4.2] keeps what starts with [1.4.]. *)
Lemma compatible_release_is_prefix_match_witness :
  let releases := ["1.4.0"; "1.4.2"; "1.4.9"; "1.5.0"; "1.4"] in
  let query := ask "pip" (Some "~=1.4.2") in
  get_compatible_versions (pypi releases "1.5.0") query
  = inr (resolved query ["1.4.9"; "1.4.2"; "1.4.0"] (Some "1.4.9"))
  /\ exists s,
       get_compatible_versions (pypi releases "1.5.0") query
       = inr (resolved query s (head s))
       /\ descending s
       /\ forall v, In v s <->
                    In v releases
                    /\ PyStr.startswith v (compatible_prefix "1.4.2") = true.
Proof.
  intros releases query. split; [vm_compute; reflexivity|].
  apply (proj1 (proj2 compatible_release_is_prefix_match)
               reference_libs reference_ok
               (pypi releases "1.5.0") query releases (JStr "1.5.0")
               "1.4.2" (pypi_reports _ _ _)).
  - reflexivity.
  - intros v Hv _. unfold releases in Hv. simpl in Hv.
    destruct Hv as [<-|[<-|[<-|[<-|[<-|[]]]]]]; by eexists.
Defined.

(** C2, amended, on the failures the specification names: an unsupported
    manager, a registry out of reach, a package the registry does not know,
    a body that is not JSON, and a document without the expected members;
    and on a request that times out, whose error is the empty text. *)
Lemma faults_become_failure_results_witness :
  get_package_info (pypi pypi_releases "2.0.0")
    {| PackageQuery.package_name := "demo";
       PackageQuery.package_manager := "cargo";
       PackageQuery.version := None |}
  = inr (package_failure "demo" "cargo" "Unsupported package manager: cargo")
  /\ get_package_info timing_out demo_package
     = inr (package_failure "demo" "pip" "")
  /\ get_dependencies (fun _ => Response 404 (inr JNull))
       {| DependencyQuery.package_name := "demo";
          DependencyQuery.package_manager := "pip";
          DependencyQuery.version := None;
          DependencyQuery.depth := Some 1%Z |}
     = inr (dependency_failure "demo" "pip" "Package not found: demo")
  /\ get_compatible_versions unreachable (ask "npm" None)
     = inr (version_failure "demo" "npm" "Cannot connect to host")
  /\ get_compatible_versions
       (fun _ => Response 200 (inl (ContentError "Expecting value")))
       (ask "pip" None)
     = inr (version_failure "demo" "pip" "Expecting value")
  /\ get_compatible_versions (fun _ => Response 200 (inr (JObj [])))
                             (ask "pip" None)
     = inr (version_failure "demo" "pip" "'releases'").
Proof.
  split; [|split; [|split; [|split; [|split]]]].
  - destruct (proj1 (faults_become_failure_results reference_libs
                       (pypi pypi_releases "2.0.0")
                       (fun s => eq_refl) (fun d => eq_refl))
                    {| PackageQuery.package_name := "demo";
                       PackageQuery.package_manager := "cargo";
                       PackageQuery.version := None |})
      as (r & Hr & (_ & Hf & _) & _).
    rewrite Hr. f_equal. apply Hf. vm_compute. reflexivity.
  - destruct (proj1 (faults_become_failure_results reference_libs timing_out
                       (fun s => eq_refl) (fun d => eq_refl))
                    demo_package)
      as (r & Hr & (_ & _ & Hf) & _).
    rewrite Hr. f_equal.
    apply (Hf "https://pypi.org/pypi/{package}/json"). vm_compute. reflexivity.
  - destruct (proj1 (proj2 (faults_become_failure_results reference_libs
                              (fun _ => Response 404 (inr JNull))
                              (fun s => eq_refl) (fun d => eq_refl)))
                    {| DependencyQuery.package_name := "demo";
                       DependencyQuery.package_manager := "pip";
                       DependencyQuery.version := None;
                       DependencyQuery.depth := Some 1%Z |})
      as (r & Hr & (_ & _ & Hf) & _).
    rewrite Hr. f_equal.
    apply (Hf "https://pypi.org/pypi/{package}/json"). vm_compute. reflexivity.
  - destruct (proj2 (proj2 (faults_become_failure_results reference_libs
                              unreachable
                              (fun s => eq_refl) (fun d => eq_refl)))
                    eq_refl (ask "npm" None))
      as (r & Hr & (_ & _ & Hf) & _).
    rewrite Hr. f_equal.
    apply (Hf "https://registry.npmjs.org/{package}"). vm_compute. reflexivity.
  - destruct (proj2 (proj2 (faults_become_failure_results reference_libs
                              (fun _ => Response 200
                                          (inl (ContentError "Expecting value")))
                              (fun s => eq_refl) (fun d => eq_refl)))
                    eq_refl (ask "pip" None))
      as (r & Hr & (_ & _ & Hf) & _).
    rewrite Hr. f_equal.
    apply (Hf "https://pypi.org/pypi/{package}/json"). vm_compute. reflexivity.
  - destruct (proj2 (proj2 (faults_become_failure_results reference_libs
                              (fun _ => Response 200 (inr (JObj [])))
                              (fun s => eq_refl) (fun d => eq_refl)))
                    eq_refl (ask "pip" None))
      as (r & Hr & (Hf & _) & _).
    rewrite Hr. f_equal. apply (Hf (KeyError (JStr "releases"))).
    vm_compute. reflexivity.
Defined.

(** * Further properties of the server *)

(** ** The registry table and the request *)

Lemma registry_of (m template : string) :
  PACKAGE_REGISTRIES !! m = Some template <->
  (m = "pip" /\ template = "https://pypi.org/pypi/{package}/json")
  \/ (m = "npm" /\ template = "https://registry.npmjs.org/{package}").
Proof.
  unfold PACKAGE_REGISTRIES.
  rewrite lookup_insert_Some, lookup_insert_Some, lookup_empty.
  split.
  - intros [[Hm Ht]|[_ [[Hm Ht]|[_ Hnone]]]];
      [left | right | discriminate Hnone]; by split.
  - intros [[Hm Ht]|[Hm Ht]]; subst; [by left|].
    right. split; [discriminate|]. by left.
Qed.

Lemma registry_none (m : string) :
  PACKAGE_REGISTRIES !! m = None <-> ~ In m get_supported_package_managers.
Proof.
  unfold PACKAGE_REGISTRIES, get_supported_package_managers.
  rewrite lookup_insert_None, lookup_insert_None, lookup_empty. simpl.
  split.
  - intros [[_ Hnpm] Hpip] [H|[H|[]]]; [by apply Hpip | by apply Hnpm].
  - intros H. repeat split; intros Hm; apply H; [right; by left | by left].
Qed.

Lemma append_cons (c : ascii) (s t : string) :
  String c s ++ t = String c (s ++ t).
Proof. reflexivity. Qed.

Lemma append_empty (s : string) : s ++ "" = s.
Proof.
  induction s as [|c s IH]; [reflexivity | by rewrite append_cons, IH].
Qed.

Lemma append_assoc (s t u : string) : (s ++ t) ++ u = s ++ (t ++ u).
Proof.
  induction s as [|c s IH]; [reflexivity | by rewrite !append_cons, IH].
Qed.

Lemma format_pypi (name : string) :
  format_package "https://pypi.org/pypi/{package}/json" name = pypi_url name.
Proof. reflexivity. Qed.

Lemma format_npm (name : string) :
  format_package "https://registry.npmjs.org/{package}" name = npm_url name.
Proof.
  unfold npm_url. rewrite <- (append_empty name) at 2. reflexivity.
Qed.

Section Registry.

Context {L : Libs} {HL : LibsOk L}.

(** X1: a manager that, in lower case, is not one of those that
  [/supported_package_managers] lists is refused by all three operations
  with the "Unsupported package manager" result, whatever the registries
  would answer: no request is made. *)
Theorem unlisted_manager_is_refused (http_get : World)
      (name manager : string) :
~ In (PyStr.lower manager) get_supported_package_managers ->
let refusal := "Unsupported package manager: " ++ PyStr.lower manager in
(forall version,
    get_package_info http_get
      {| PackageQuery.package_name := name;
         PackageQuery.package_manager := manager;
         PackageQuery.version := version |}
    = inr (package_failure name (PyStr.lower manager) refusal))
/\ (forall version depth,
       get_dependencies http_get
         {| DependencyQuery.package_name := name;
            DependencyQuery.package_manager := manager;
            DependencyQuery.version := version;
            DependencyQuery.depth := depth |}
       = inr (dependency_failure name (PyStr.lower manager) refusal))
/\ (forall constraint,
       get_compatible_versions http_get
         {| VersionQuery.package_name := name;
            VersionQuery.package_manager := manager;
            VersionQuery.version_constraint := constraint |}
       = inr (version_failure name (PyStr.lower manager) refusal)).
Proof using HL.
intros Hm refusal. apply registry_none in Hm. repeat split; intros.
- unfold get_package_info, package_info_body. simpl.
  by rewrite Hm, new_package_failure.
- unfold get_dependencies, dependencies_body. simpl.
  by rewrite Hm, new_dependency_failure.
- unfold get_compatible_versions, run_compatible_versions,
    compatible_versions_body. simpl.
  by rewrite Hm, new_version_failure.
Qed.

(** X2: each operation makes one request, to
  [https://pypi.org/pypi/<name>/json] for pip and to
  [https://registry.npmjs.org/<name>] for npm, with the package name put in
  as it is; two registries that answer that request alike give the same
  result. *)
Theorem one_request_decides (http_get http_get' : World)
      (name manager : string) :
(PyStr.lower manager = "pip" ->
 http_get (pypi_url name) = http_get' (pypi_url name)) ->
(PyStr.lower manager = "npm" ->
 http_get (npm_url name) = http_get' (npm_url name)) ->
(forall version,
    let query := {| PackageQuery.package_name := name;
                    PackageQuery.package_manager := manager;
                    PackageQuery.version := version |} in
    get_package_info http_get query = get_package_info http_get' query)
/\ (forall version depth,
       let query := {| DependencyQuery.package_name := name;
                       DependencyQuery.package_manager := manager;
                       DependencyQuery.version := version;
                       DependencyQuery.depth := depth |} in
       get_dependencies http_get query = get_dependencies http_get' query)
/\ (forall constraint,
       let query := {| VersionQuery.package_name := name;
                       VersionQuery.package_manager := manager;
                       VersionQuery.version_constraint := constraint |} in
       get_compatible_versions http_get query
       = get_compatible_versions http_get' query).
Proof.
intros Hpip Hnpm.
assert (Hurl : forall template,
           PACKAGE_REGISTRIES !! PyStr.lower manager = Some template ->
           http_get (format_package template name)
           = http_get' (format_package template name)).
{ intros template Ht. apply registry_of in Ht as [[Hm ->]|[Hm ->]].
  - rewrite format_pypi. by apply Hpip.
  - rewrite format_npm. by apply Hnpm. }
repeat split; intros; subst query.
- unfold get_package_info, package_info_body. simpl.
  destruct (PACKAGE_REGISTRIES !! _) as [template|] eqn:Ht; [|reflexivity].
  by rewrite (Hurl template eq_refl).
- unfold get_dependencies, dependencies_body. simpl.
  destruct (PACKAGE_REGISTRIES !! _) as [template|] eqn:Ht; [|reflexivity].
  by rewrite (Hurl template eq_refl).
- unfold get_compatible_versions, run_compatible_versions,
    compatible_versions_body. simpl.
  destruct (PACKAGE_REGISTRIES !! _) as [template|] eqn:Ht; [|reflexivity].
  by rewrite (Hurl template eq_refl).
Qed.

End Registry.

(** ** The resolver, whatever parses *)

Section ResolverFacts.

Context {L : Libs} {HL : LibsOk L}.

Lemma mapE_parse_inv (m : list string) (ks : list Version) :
mapE parse m = inr ks ->
Forall2 (fun v k => version_parse v = Some k) m ks.
Proof.
revert ks. induction m as [|v m IH]; intros ks; simpl.
- intros [= <-]. constructor.
- unfold parse at 1. destruct (version_parse v) as [k|] eqn:Hk; [|discriminate].
  simpl. destruct (mapE parse m) as [e|ks']; [discriminate|].
  simpl. intros [= <-]. constructor; [exact Hk | by apply IH].
Qed.

(** Ranking rearranges: nothing is added or lost. *)
Lemma ranked_perm (m s : list string) : ranked m = inr s -> Permutation m s.
Proof.
destruct m as [|v m]; [by intros [= <-]|]. unfold ranked.
destruct (mapE parse (v :: m)) as [e|ks] eqn:Hks; [discriminate|].
simpl bindE. intros [= <-].
destruct (snd_combine_keys _ _ (mapE_parse_inv _ _ Hks)) as [Hsnd _].
rewrite <- Hsnd at 1. apply Permutation_map. symmetry. apply sort_desc_perm.
Qed.

(** A comprehension keeps a sublist, in the order of the list. *)
Lemma filterE_sublist (cond : string -> Exc bool) (l m : list string) :
filterE cond l = inr m -> sublist m l.
Proof.
revert m. induction l as [|v l IH]; intros m; simpl.
- intros [= <-]. constructor.
- destruct (cond v) as [e|b]; [discriminate|]. simpl.
  destruct (filterE cond l) as [e|m']; [discriminate|]. simpl.
  intros [= <-]. destruct b; [apply sublist_skip | apply sublist_cons];
    by apply IH.
Qed.

Lemma matches_sublist (c : string) (l m : list string) :
matches c l = inr m -> sublist m l.
Proof.
unfold matches. destruct (condition c) as [cond|].
- apply filterE_sublist.
- by intros [= <-].
Qed.

Variable http_get : World.
Variable query : VersionQuery.t.
Variable candidates : list string.
Variable latest : json.
Hypothesis reported : registry_reports http_get query candidates latest.

(** X3: the operation never invents a version.  Whatever the constraint
  and whatever parses, the returned list is a rearrangement of a part of
  the candidate list (so it has no version twice unless the registry
  has), and under a non-empty constraint the recommendation is the first
  element of the returned list, or absent when the list is empty. *)
Theorem returned_versions_come_from_candidates :
exists r m,
  get_compatible_versions http_get query = inr r
  /\ sublist m candidates
  /\ Permutation m (VersionResult.compatible_versions r)
  /\ (NoDup candidates -> NoDup (VersionResult.compatible_versions r))
  /\ (forall c, VersionQuery.version_constraint query = Some c ->
                PyStr.nonempty c = true ->
                VersionResult.recommended_version r
                = head (VersionResult.compatible_versions r)).
Proof using HL reported.
assert (Hgoal : exists r m,
           get_compatible_versions http_get query = inr r
           /\ sublist m candidates
           /\ Permutation m (VersionResult.compatible_versions r)
           /\ (forall c, VersionQuery.version_constraint query = Some c ->
                         PyStr.nonempty c = true ->
                         VersionResult.recommended_version r
                         = head (VersionResult.compatible_versions r))).
{ assert (Hfail : forall e,
             get_compatible_versions http_get query = inr (failed query e) ->
             exists r m,
               get_compatible_versions http_get query = inr r
               /\ sublist m candidates
               /\ Permutation m (VersionResult.compatible_versions r)
               /\ (forall c, VersionQuery.version_constraint query = Some c ->
                             PyStr.nonempty c = true ->
                             VersionResult.recommended_version r
                             = head (VersionResult.compatible_versions r))).
  { intros e He. exists (failed query e), [].
    split; [exact He|]. split; [apply sublist_nil_l|]. by split. }
  destruct (VersionQuery.version_constraint query) as [c|] eqn:Hq.
  - destruct (PyStr.nonempty c) eqn:Hc.
    + pose proof (get_constrained _ _ _ _ c reported Hq Hc) as Hget.
      destruct (matches c candidates) as [e|m] eqn:Hm; [by apply (Hfail e)|].
      destruct (ranked m) as [e|s] eqn:Hs; [by apply (Hfail e)|].
      exists (resolved query s (head s)), m.
      split; [exact Hget|]. split; [by apply (matches_sublist c)|].
      split; [by apply ranked_perm | done].
    + destruct c; [|discriminate].
      pose proof (run_unconstrained _ _ _ _ reported (or_intror Hq))
        as Hrun.
      apply (f_equal fst) in Hrun. simpl in Hrun.
      fold (get_compatible_versions http_get query) in Hrun.
      destruct (validate_optional_str _ latest) as [e|r];
        [by apply (Hfail e)|].
      exists (resolved query candidates r), candidates.
      split; [exact Hrun|]. split; [done|]. split; [done|].
      intros c [= <-]. discriminate.
  - pose proof (run_unconstrained _ _ _ _ reported (or_introl Hq))
      as Hrun.
    apply (f_equal fst) in Hrun. simpl in Hrun.
    fold (get_compatible_versions http_get query) in Hrun.
    destruct (validate_optional_str _ latest) as [e|r];
      [by apply (Hfail e)|].
    exists (resolved query candidates r), candidates.
    split; [exact Hrun|]. split; [done|]. split; [done|]. discriminate. }
destruct Hgoal as (r & m & Hr & Hsub & Hperm & Hhead).
exists r, m. repeat split; try done.
intros Hnd. rewrite <- Hperm. by eapply sublist_NoDup.
Qed.

(** X4: a run leaves the candidate list with the versions it had: the
  second list object holds a rearrangement of what the registry gave, and
  holds it unchanged when there is no constraint and when the constraint
  starts with one of the six operators. *)
Theorem run_keeps_the_candidates_versions :
exists l,
  snd (run_compatible_versions http_get query) !! 1 = Some l
  /\ Permutation candidates l
  /\ ((VersionQuery.version_constraint query = None
       \/ VersionQuery.version_constraint query = Some ""
       \/ exists c, VersionQuery.version_constraint query = Some c
                    /\ PyStr.nonempty c = true /\ condition c <> None) ->
      l = candidates).
Proof using HL reported.
destruct (VersionQuery.version_constraint query) as [c|] eqn:Hq.
- destruct (PyStr.nonempty c) eqn:Hc.
  + destruct (condition c) as [cond|] eqn:Hcond.
    * exists candidates. split; [|by split].
      apply (run_keeps_candidates _ _ _ _ reported).
      right. right. exists c. rewrite Hcond. by repeat split.
    * destruct (ranked candidates) as [e|s] eqn:Hs.
      -- exists candidates. rewrite (run_constrained _ _ _ _ c reported Hq Hc).
         rewrite Hcond, Hs. by repeat split.
      -- exists s.
         split; [exact (run_sorts_candidates _ _ _ latest c s
                          reported Hq Hc Hcond Hs)|].
         split; [by apply ranked_perm|].
         intros [H|[H|(c0 & H & _ & Hc0)]];
           [discriminate H | injection H as ->; discriminate Hc
           | injection H as <-; contradiction].
  + destruct c; [|discriminate]. exists candidates. split; [|by split].
    apply (run_keeps_candidates _ _ _ _ reported). right. by left.
- exists candidates. split; [|by split].
  apply (run_keeps_candidates _ _ _ _ reported). by left.
Qed.

(** X5: when the registry lists no version, a request with any non-empty
  constraint gets the empty list, no recommendation and no error: the
  operand is not even parsed. *)
Theorem no_candidates_no_error (c : string) :
candidates = [] ->
VersionQuery.version_constraint query = Some c ->
PyStr.nonempty c = true ->
get_compatible_versions http_get query = inr (resolved query [] None).
Proof using HL reported.
intros Hnil Hq Hc. rewrite (get_constrained _ _ _ _ c reported Hq Hc), Hnil.
unfold matches. by destruct (condition c).
Qed.

(** X6: a comparison operator whose operand does not parse fails the
  request as soon as one candidate has been parsed: when the first
  candidate parses, the result is the handler's, with the text of the
  [InvalidVersion] raised for the operand. *)
Theorem unparsable_operand_fails_request
      (sym tail : string) test (first : string) (rest : list string) :
In (sym, test) comparison_operators ->
(sym = ">" \/ sym = "<" -> PyStr.startswith tail "=" = false) ->
VersionQuery.version_constraint query = Some (sym ++ tail) ->
version_parse (PyStr.strip tail) = None ->
candidates = first :: rest -> parsable first ->
get_compatible_versions http_get query
= inr (failed query (InvalidVersion (PyStr.strip tail))).
Proof using HL reported.
intros Hop Htail Hq Hb Hc [k Hk].
assert (Hne : PyStr.nonempty (sym ++ tail) = true).
{ simpl in Hop.
  destruct Hop as [[= <- _]|[[= <- _]|[[= <- _]|[[= <- _]|[]]]]]; reflexivity. }
rewrite (get_constrained _ _ _ _ _ reported Hq Hne).
unfold matches. rewrite (condition_comparison sym tail test Hop Htail), Hc.
simpl. unfold compare_with at 1, parse. by rewrite Hk, Hb.
Qed.

(** X7: under a non-empty constraint the latest version that the registry
  reports is not used: two registries that give the same candidates give
  the same result, whatever each calls the latest. *)
Theorem constrained_result_ignores_latest (c : string)
      (http_get' : World) (latest' : json) :
VersionQuery.version_constraint query = Some c ->
PyStr.nonempty c = true ->
registry_reports http_get' query candidates latest' ->
get_compatible_versions http_get' query
= get_compatible_versions http_get query.
Proof using HL reported.
intros Hq Hc Hrep. rewrite (get_constrained _ _ _ _ c Hrep Hq Hc).
by rewrite (get_constrained _ _ _ _ c reported Hq Hc).
Qed.

End ResolverFacts.

(** ** The sort is stable *)

Section Stability.

Context {L : Libs} {HL : LibsOk L}.

Lemma same_key_not_below {A : Type} (k : Version) (x y : Version * A) :
same_key k x = true -> same_key k y = true ->
version_lt (fst x) (fst y) = false.
Proof using HL.
unfold same_key, version_lt. intros Hx Hy.
destruct (version_compare (fst x) k) eqn:Ex; try discriminate.
destruct (version_compare (fst y) k) eqn:Ey; try discriminate.
pose proof (version_compare_opp (fst y) k) as Hky. rewrite Ey in Hky.
simpl in Hky. by rewrite (version_compare_trans _ _ _ _ Ex Hky).
Qed.

Lemma insert_desc_same_key {A : Type} (k : Version) (x : Version * A) l :
List.filter (same_key k) (insert_desc version_lt x l)
= List.filter (same_key k) (x :: l).
Proof using HL.
induction l as [|y l IH]; [reflexivity|].
cbn [insert_desc]. destruct (version_lt (fst x) (fst y)) eqn:Hlt;
  [|reflexivity].
cbn [List.filter] in *. rewrite IH.
destruct (same_key k x) eqn:Hx, (same_key k y) eqn:Hy; try reflexivity.
by rewrite (same_key_not_below k x y Hx Hy) in Hlt.
Qed.

Lemma sort_desc_same_key {A : Type} (k : Version) (l : list (Version * A)) :
List.filter (same_key k) (sort_desc version_lt l)
= List.filter (same_key k) l.
Proof using HL.
induction l as [|x l IH]; [reflexivity|].
cbn [sort_desc fold_right]. fold (sort_desc version_lt l).
rewrite insert_desc_same_key. cbn [List.filter]. by rewrite IH.
Qed.

Lemma filter_decorated (k : Version) (l : list (Version * string)) :
Forall (fun kv => version_parse (snd kv) = Some (fst kv)) l ->
List.filter (same_version k) (map snd l)
= map snd (List.filter (same_key k) l).
Proof.
induction 1 as [|x l Hx _ IH]; [reflexivity|].
cbn [map List.filter]. unfold same_version at 1, same_key at 1.
rewrite Hx, IH. by destruct (version_compare (fst x) k).
Qed.

Lemma ranked_stable (m s : list string) (k : Version) :
ranked m = inr s ->
List.filter (same_version k) s = List.filter (same_version k) m.
Proof using HL.
destruct m as [|v m]; [by intros [= <-]|]. unfold ranked.
destruct (mapE parse (v :: m)) as [e|ks] eqn:Hks; [discriminate|].
simpl bindE. intros [= <-].
destruct (snd_combine_keys _ _ (mapE_parse_inv _ _ Hks)) as [Hsnd Hdec].
rewrite filter_decorated.
- rewrite sort_desc_same_key, <- filter_decorated by exact Hdec.
  by rewrite Hsnd.
- eapply Permutation_Forall; [symmetry; apply sort_desc_perm | exact Hdec].
Qed.

(** X8: versions that parse to equal versions (as 1.0 and 1.0.0 do) come
  back in the order they had after the filtering, which is the order of
  the registry: the descending sort is stable. *)
Theorem equal_versions_keep_their_order
      (http_get : World) (query : VersionQuery.t)
      (candidates : list string) (latest : json)
      (c : string) (m : list string) (r : VersionResult.t) :
registry_reports http_get query candidates latest ->
VersionQuery.version_constraint query = Some c ->
PyStr.nonempty c = true ->
matches c candidates = inr m ->
get_compatible_versions http_get query = inr r ->
VersionResult.error r = None ->
sublist m candidates
/\ forall k,
     List.filter (same_version k) (VersionResult.compatible_versions r)
     = List.filter (same_version k) m.
Proof using HL.
intros Hrep Hq Hc Hm Hr Herr. split; [by apply (matches_sublist c)|].
rewrite (get_constrained _ _ _ _ c Hrep Hq Hc), Hm in Hr.
destruct (ranked m) as [e|s] eqn:Hs; injection Hr as <-; [discriminate|].
intros k. by apply ranked_stable.
Qed.

End Stability.

(** ** The prefix of a compatible release *)

Lemma split_nonempty (c : ascii) (s : string) : PyStr.split c s <> [].
Proof.
  destruct s as [|a r]; simpl; [discriminate|].
  destruct (Ascii.eqb a c); [discriminate|].
  by destruct (PyStr.split c r).
Qed.

(** Splitting at a character and joining with it gives the text back. *)
Lemma join_split (c : ascii) (s : string) :
  PyStr.join (String c "") (PyStr.split c s) = s.
Proof.
  induction s as [|a r IH]; [reflexivity|]. cbn [PyStr.split].
  destruct (Ascii.eqb a c) eqn:Hac.
  - apply Ascii.eqb_eq in Hac as ->.
    pose proof (split_nonempty c r) as Hne.
    destruct (PyStr.split c r) as [|w ws]; [done|].
    change (PyStr.join (String c "") ("" :: w :: ws))
      with ("" ++ String c "" ++ PyStr.join (String c "") (w :: ws)).
    by rewrite IH.
  - pose proof (split_nonempty c r) as Hne.
    destruct (PyStr.split c r) as [|w ws]; [done|].
    rewrite <- IH. by destruct ws.
Qed.

Lemma split_dot_free (s : string) :
  dot_free s = true -> PyStr.split "." s = [s].
Proof.
  induction s as [|a r IH]; [reflexivity|]. cbn [dot_free str_forall].
  intros [Ha Hr]%andb_prop. cbn [PyStr.split].
  apply negb_true_iff in Ha. rewrite Ha.
  unfold dot_free in IH. by rewrite IH by exact Hr.
Qed.

Lemma split_last_component (a b : string) :
  dot_free b = true ->
  PyStr.split "." (a ++ "." ++ b) = (PyStr.split "." a ++ [b])%list.
Proof.
  intros Hb. induction a as [|x a IH].
  - change ("" ++ "." ++ b) with (String "." b). cbn [PyStr.split].
    change (Ascii.eqb "." ".") with true. cbn iota.
    by rewrite (split_dot_free b Hb).
  - rewrite append_cons. cbn [PyStr.split]. rewrite IH.
    destruct (Ascii.eqb x "."); [reflexivity|].
    pose proof (split_nonempty "." a) as Hne.
    by destruct (PyStr.split "." a).
Qed.

(** X9: the prefix that [~=] asks for is the operand up to and including
    its last dot, so the last component of the operand plays no part
    ([~=1.4.2] and [~=1.4.9] ask the same); for an operand without a dot it
    is a lone dot, which no version that starts with a digit has. *)
Theorem compatible_prefix_ends_at_last_dot (a b : string) :
  dot_free b = true ->
  compatible_prefix (a ++ "." ++ b) = a ++ "."
  /\ compatible_prefix b = "."
  /\ (forall v, PyStr.startswith v (compatible_prefix b)
                = PyStr.startswith v ".").
Proof.
  intros Hb. unfold compatible_prefix. repeat split.
  - rewrite (split_last_component a b Hb), removelast_last.
    by rewrite (join_split "." a).
  - by rewrite (split_dot_free b Hb).
  - by rewrite (split_dot_free b Hb).
Qed.

(** ** The operations on registry documents *)

Section Documents.

Context {L : Libs} {HL : LibsOk L}.

Lemma pip_template (manager : string) :
PyStr.lower manager = "pip" ->
PACKAGE_REGISTRIES !! PyStr.lower manager
= Some "https://pypi.org/pypi/{package}/json".
Proof. intros ->. apply registry_of. by left. Qed.

Lemma npm_template (manager : string) :
PyStr.lower manager = "npm" ->
PACKAGE_REGISTRIES !! PyStr.lower manager
= Some "https://registry.npmjs.org/{package}".
Proof. intros ->. apply registry_of. by right. Qed.

(** X10: for pip, a PyPI document whose [releases] is an object and whose
  [info] has a string [version] and a string or null [summary] gives the
  keys of [releases] in the order of the document, that version as the
  latest, the summary as the description, and no error. *)
Theorem package_info_of_pypi_document
      (http_get : World) (query : PackageQuery.t)
      (document releases info : pydict) (latest : string) (summary : json)
      (description : option string) :
PyStr.lower (PackageQuery.package_manager query) = "pip" ->
http_get (pypi_url (PackageQuery.package_name query))
= Response 200 (inr (JObj document)) ->
dict_lookup "releases" document = Some (JObj releases) ->
dict_lookup "info" document = Some (JObj info) ->
dict_lookup "version" info = Some (JStr latest) ->
dict_lookup "summary" info = Some summary ->
validate_optional_str "description" summary = inr description ->
get_package_info http_get query
= inr {| PackageResult.package_name := PackageQuery.package_name query;
         PackageResult.package_manager := "pip";
         PackageResult.versions := map fst releases;
         PackageResult.latest_version := latest;
         PackageResult.description := description;
         PackageResult.error := None |}.
Proof using HL.
intros Hm Hget Hrel Hinfo Hver Hsum Hdescr.
unfold get_package_info, package_info_body.
rewrite (pip_template _ Hm), format_pypi, Hget, Hm.
change (negb (200 =? 200)%Z) with false. cbv iota.
change (String.eqb "pip" "pip") with true. cbv iota.
unfold item, Py.getitem. cbn [Py.hashable bindE].
rewrite Hrel. cbn [bindE Py.keys]. rewrite Hinfo. cbn [bindE].
rewrite Hver. cbn [bindE]. rewrite Hsum. cbn [bindE].
unfold new_PackageResult, validate_str. rewrite str_field_str. cbn [bindE].
by rewrite Hdescr.
Qed.

(** X11: for npm, a registry document whose [versions] is an object, whose
  [dist-tags] has a string [latest] and whose [description] is a string
  or null gives the keys of [versions] in the order of the document, that
  tag as the latest version, the description, and no error. *)
Theorem package_info_of_npm_document
      (http_get : World) (query : PackageQuery.t)
      (document entries tags : pydict) (latest : string) (summary : json)
      (description : option string) :
PyStr.lower (PackageQuery.package_manager query) = "npm" ->
http_get (npm_url (PackageQuery.package_name query))
= Response 200 (inr (JObj document)) ->
dict_lookup "versions" document = Some (JObj entries) ->
dict_lookup "dist-tags" document = Some (JObj tags) ->
dict_lookup "latest" tags = Some (JStr latest) ->
dict_lookup "description" document = Some summary ->
validate_optional_str "description" summary = inr description ->
get_package_info http_get query
= inr {| PackageResult.package_name := PackageQuery.package_name query;
         PackageResult.package_manager := "npm";
         PackageResult.versions := map fst entries;
         PackageResult.latest_version := latest;
         PackageResult.description := description;
         PackageResult.error := None |}.
Proof using HL.
intros Hm Hget Hrel Htags Hver Hsum Hdescr.
unfold get_package_info, package_info_body.
rewrite (npm_template _ Hm), format_npm, Hget, Hm.
change (negb (200 =? 200)%Z) with false. cbv iota.
change (String.eqb "npm" "pip") with false.
change (String.eqb "npm" "npm") with true. cbv iota.
unfold item, Py.getitem. cbn [Py.hashable bindE].
rewrite Hrel. cbn [bindE Py.keys]. rewrite Htags. cbn [bindE].
rewrite Hver. cbn [bindE]. rewrite Hsum. cbn [bindE].
unfold new_PackageResult, validate_str. rewrite str_field_str. cbn [bindE].
by rewrite Hdescr.
Qed.

(** X12: a PyPI document that is an object without [releases] is an error
  for the package information and for the compatible versions alike: the
  result is the handler's, with the manager as it was sent and the text
  of the [KeyError]. *)
Theorem document_without_releases_is_an_error
      (http_get : World) (name manager : string) (document : pydict) :
PyStr.lower manager = "pip" ->
http_get (pypi_url name) = Response 200 (inr (JObj document)) ->
dict_lookup "releases" document = None ->
(forall version,
    get_package_info http_get
      {| PackageQuery.package_name := name;
         PackageQuery.package_manager := manager;
         PackageQuery.version := version |}
    = inr (package_failure name manager
             (str_exn (KeyError (JStr "releases")))))
/\ (forall constraint,
       get_compatible_versions http_get
         {| VersionQuery.package_name := name;
            VersionQuery.package_manager := manager;
            VersionQuery.version_constraint := constraint |}
       = inr (version_failure name manager
                (str_exn (KeyError (JStr "releases"))))).
Proof using HL.
intros Hm Hget Hrel. split; intros.
- unfold get_package_info, package_info_body. simpl.
  rewrite (pip_template _ Hm), format_pypi, Hget, Hm.
  change (negb (200 =? 200)%Z) with false. cbv iota.
  change (String.eqb "pip" "pip") with true. cbv iota.
  unfold item, Py.getitem. cbn [Py.hashable bindE]. rewrite Hrel.
  cbn [bindE]. apply new_package_failure.
- unfold get_compatible_versions, run_compatible_versions,
    compatible_versions_body. simpl.
  rewrite (pip_template _ Hm), format_pypi, Hget, Hm.
  change (negb (200 =? 200)%Z) with false. cbv iota.
  unfold get_all_versions, bindM, lift, alloc, item, Py.getitem.
  change (String.eqb "pip" "pip") with true. cbn [Py.hashable].
  rewrite Hrel. cbn [fst]. apply new_version_failure.
Qed.

End Documents.

(** ** Requirement strings *)

Lemma operator_is_not_newline (c : ascii) :
  is_operator_char c = true -> Ascii.eqb c "010" = false.
Proof.
  unfold is_operator_char. cbn [existsb]. rewrite !orb_true_iff.
  intros [H|[H|[H|[H|[H|H]]]]]; try discriminate H;
    apply Ascii.eqb_eq in H; by subst c.
Qed.

Lemma span_name_spec (s : string) :
  s = fst (span_name s) ++ snd (span_name s)
  /\ operator_free (fst (span_name s)) = true
  /\ (snd (span_name s) = ""
      \/ starts_with_operator (snd (span_name s)) = true).
Proof.
  induction s as [|c r (IH1 & IH2 & IH3)]; [by repeat split; auto|].
  cbn [span_name]. destruct (is_operator_char c) eqn:Hc.
  - repeat split; auto.
  - destruct (span_name r) as [name rest]. cbn [fst snd] in *.
    repeat split; [by rewrite append_cons, <- IH1 | | exact IH3].
    unfold operator_free in *. cbn [str_forall]. by rewrite Hc, IH2.
Qed.

Lemma to_newline_spec (s : string) :
  one_line (to_newline s) = true
  /\ PyStr.startswith s (to_newline s) = true
  /\ (starts_with_operator s = true ->
      starts_with_operator (to_newline s) = true).
Proof.
  induction s as [|c r (IH1 & IH2 & _)]; [by repeat split|].
  cbn [to_newline]. destruct (Ascii.eqb c "010") eqn:Hc.
  - repeat split. cbn [starts_with_operator]. intros Hop.
    by rewrite (operator_is_not_newline c Hop) in Hc.
  - repeat split.
    + unfold one_line in *. cbn [str_forall]. by rewrite Hc, IH1.
    + cbn [PyStr.startswith]. by rewrite Ascii.eqb_refl, IH2.
    + done.
Qed.

Lemma startswith_append (s t : string) : PyStr.startswith (s ++ t) s = true.
Proof.
  induction s as [|c s IH]; [reflexivity|].
  rewrite append_cons. cbn [PyStr.startswith]. by rewrite Ascii.eqb_refl, IH.
Qed.

Lemma startswith_append_r (s t u : string) :
  PyStr.startswith t u = true -> PyStr.startswith (s ++ t) (s ++ u) = true.
Proof.
  intros H. induction s as [|c s IH]; [exact H|].
  rewrite !append_cons. cbn [PyStr.startswith]. by rewrite Ascii.eqb_refl, IH.
Qed.

Lemma match_dependency_spec (dep : string) :
  (dep = "" \/ starts_with_operator dep = true ->
   match_dependency dep = None)
  /\ (dep <> "" -> operator_free dep = true ->
      match_dependency dep = Some (dep, None))
  /\ (forall g1 g2,
         match_dependency dep = Some (g1, g2) ->
         g1 <> "" /\ operator_free g1 = true
         /\ match g2 with
            | Some v =>
                v <> "" /\ starts_with_operator v = true
                /\ one_line v = true
                /\ PyStr.startswith dep (g1 ++ v) = true
            | None => dep = g1
            end).
Proof.
  unfold match_dependency.
  destruct (span_name_spec dep) as (Hdep & Hfree & Hrest).
  destruct (span_name dep) as [name rest]. cbn [fst snd] in *.
  split; [|split].
  - intros [->|Hop].
    + destruct name; [reflexivity | discriminate].
    + destruct name as [|c name]; [reflexivity|]. subst dep.
      rewrite append_cons in Hop. cbn [starts_with_operator] in Hop.
      unfold operator_free in Hfree.
      cbn [str_forall] in Hfree. by rewrite Hop in Hfree.
  - intros Hne Hall.
    assert (rest = "") as ->.
    { destruct Hrest as [|Hop]; [done|]. exfalso. subst dep. clear Hne Hfree.
      induction name as [|c name IH].
      - destruct rest as [|c rest]; [discriminate|].
        change ("" ++ String c rest) with (String c rest) in Hall.
        cbn [starts_with_operator] in Hop. unfold operator_free in Hall.
        cbn [str_forall] in Hall. by rewrite Hop in Hall.
      - apply IH. unfold operator_free in *. rewrite append_cons in Hall.
        cbn [str_forall] in Hall. by apply andb_prop in Hall as [_ Hall]. }
    rewrite append_empty in Hdep. subst name.
    destruct dep; [done | reflexivity].
  - intros g1 g2.
    destruct (PyStr.nonempty name) eqn:Hname; [|discriminate].
    intros [= <- <-]. split; [by destruct name|]. split; [exact Hfree|].
    destruct (to_newline_spec rest) as (Hline & Hpre & Hop).
    destruct (PyStr.nonempty (to_newline rest)) eqn:Hv.
    + destruct Hrest as [->|Hrest]; [discriminate|].
      repeat split; [by destruct (to_newline rest) | by apply Hop | exact Hline|].
      rewrite Hdep. by apply startswith_append_r.
    + destruct Hrest as [->|Hrest]; [by rewrite append_empty in Hdep|].
      specialize (Hop Hrest). by destruct (to_newline rest).
Qed.


(** ** White space *)

Lemma lstrip_forall (p : ascii -> bool) (s : string) :
  str_forall p s = true -> str_forall p (PyStr.lstrip s) = true.
Proof.
  induction s as [|c r IH]; [done|]. cbn [str_forall PyStr.lstrip].
  intros [Hc Hr]%andb_prop. destruct (PyStr.isspace c); [by apply IH|].
  cbn [str_forall]. by rewrite Hc, Hr.
Qed.

Lemma rstrip_forall (p : ascii -> bool) (s : string) :
  str_forall p s = true -> str_forall p (PyStr.rstrip s) = true.
Proof.
  induction s as [|c r IH]; [done|]. cbn [str_forall PyStr.rstrip].
  intros [Hc Hr]%andb_prop. specialize (IH Hr).
  destruct (PyStr.rstrip r) as [|c' r'].
  - destruct (PyStr.isspace c); [done|]. cbn [str_forall]. by rewrite Hc.
  - cbn [str_forall] in *. by rewrite Hc, IH.
Qed.

Lemma lstrip_head (s : string) :
  match PyStr.lstrip s with
  | String c _ => PyStr.isspace c = false
  | EmptyString => True
  end.
Proof.
  induction s as [|c r IH]; [done|]. cbn [PyStr.lstrip].
  by destruct (PyStr.isspace c) eqn:Hc.
Qed.

Lemma rstrip_idem (s : string) : PyStr.rstrip (PyStr.rstrip s) = PyStr.rstrip s.
Proof.
  induction s as [|c r IH]; [done|]. cbn [PyStr.rstrip].
  destruct (PyStr.rstrip r) as [|c' r'] eqn:Hr.
  - destruct (PyStr.isspace c) eqn:Hc; [done|]. cbn [PyStr.rstrip].
    by rewrite Hc.
  - cbn [PyStr.rstrip]. cbn [PyStr.rstrip] in IH. by rewrite IH.
Qed.

Lemma rstrip_head (s : string) :
  match s with
  | String c _ => PyStr.isspace c = false
  | EmptyString => True
  end ->
  PyStr.lstrip (PyStr.rstrip s) = PyStr.rstrip s.
Proof.
  destruct s as [|c r]; [done|]. intros Hc. cbn [PyStr.rstrip].
  destruct (PyStr.rstrip r); rewrite ?Hc; cbn [PyStr.lstrip]; by rewrite Hc.
Qed.

(** Stripping twice is stripping once. *)
Lemma strip_idem (s : string) : PyStr.strip (PyStr.strip s) = PyStr.strip s.
Proof.
  unfold PyStr.strip. rewrite (rstrip_head _ (lstrip_head s)).
  apply rstrip_idem.
Qed.

(** ** The table of dependencies *)

Lemma dict_lookup_set_eq (k : string) (v : json) (d : pydict) :
  dict_lookup k (dict_set k v d) = Some v.
Proof.
  induction d as [|[k' v'] d IH]; cbn [dict_set dict_lookup].
  - by rewrite String.eqb_refl.
  - destruct (String.eqb k k') eqn:E; cbn [dict_lookup]; rewrite ?E;
      [by rewrite String.eqb_refl | exact IH].
Qed.

Lemma dict_lookup_set_ne (k k' : string) (v : json) (d : pydict) :
  k <> k' -> dict_lookup k' (dict_set k v d) = dict_lookup k' d.
Proof.
  intros Hne. apply String.eqb_neq in Hne. rewrite String.eqb_sym in Hne.
  induction d as [|[k0 v0] d IH]; cbn [dict_set dict_lookup].
  - by rewrite Hne.
  - destruct (String.eqb k k0) eqn:E; cbn [dict_lookup].
    + apply String.eqb_eq in E as <-. by rewrite Hne.
    + by rewrite IH.
Qed.

Lemma dict_set_keys (k k' : string) (v : json) (d : pydict) :
  In k' (map fst (dict_set k v d)) <-> k' = k \/ In k' (map fst d).
Proof.
  induction d as [|[k0 v0] d IH]; cbn [dict_set map fst In].
  - intuition.
  - destruct (String.eqb k k0) eqn:E; cbn [map fst In].
    + apply String.eqb_eq in E as <-. intuition.
    + rewrite IH. intuition.
Qed.

Lemma dict_set_nodup (k : string) (v : json) (d : pydict) :
  List.NoDup (map fst d) -> List.NoDup (map fst (dict_set k v d)).
Proof.
  induction d as [|[k0 v0] d IH]; cbn [dict_set map fst].
  - intros _. apply List.NoDup_cons; [intros [] | apply List.NoDup_nil].
  - intros Hnd. apply List.NoDup_cons_iff in Hnd as [Hin Hnd].
    destruct (String.eqb k k0) eqn:E; cbn [map fst].
    + apply String.eqb_eq in E as <-. by apply List.NoDup_cons.
    + apply List.NoDup_cons; [|by apply IH].
      rewrite dict_set_keys. intros [->|H]; [|done].
      by rewrite String.eqb_refl in E.
Qed.

Lemma dict_set_forall (P : string * json -> Prop) (k : string) (v : json)
      (d : pydict) :
  P (k, v) -> Forall P d -> Forall P (dict_set k v d).
Proof.
  intros Hkv. induction 1 as [|[k0 v0] d H0 Hd IH]; cbn [dict_set].
  - by repeat constructor.
  - destruct (String.eqb k k0); constructor; auto.
Qed.

Lemma parse_requires_strings (rs : list string) (acc : pydict) :
  parse_requires (map JStr rs) acc
  = inr (fold_left enter_requirement rs acc).
Proof.
  revert acc. induction rs as [|dep rs IH]; intros acc; [reflexivity|].
  cbn [map parse_requires fold_left]. unfold enter_requirement at 2.
  unfold requirement_name, requirement_version.
  destruct (match_dependency dep) as [[g1 g2]|]; rewrite IH; [|reflexivity].
  by destruct g2.
Qed.

Lemma entered_requirement (dep name : string) :
  requirement_name dep = Some name ->
  requirement_entry (name, JStr (requirement_version dep)).
Proof.
  unfold requirement_name, requirement_version, requirement_entry.
  destruct (match_dependency dep) as [[g1 g2]|] eqn:Hm; [|discriminate].
  intros [= <-]. cbn [fst snd].
  destruct (proj2 (proj2 (match_dependency_spec dep)) g1 g2 Hm)
    as (_ & Hfree & Hg2).
  split; [by apply rstrip_forall, lstrip_forall|].
  split; [apply strip_idem|]. eexists. split; [reflexivity|].
  destruct g2 as [v|]; [right; tauto | by left].
Qed.

Lemma enter_lookup_other (deps : list string) (name : string) (acc : pydict) :
  (forall d, In d deps -> requirement_name d <> Some name) ->
  dict_lookup name (fold_left enter_requirement deps acc)
  = dict_lookup name acc.
Proof.
  revert acc. induction deps as [|dep deps IH]; intros acc Hnone;
    [reflexivity|].
  cbn [fold_left]. rewrite IH by (intros d Hd; apply Hnone; by right).
  unfold enter_requirement.
  destruct (requirement_name dep) as [n|] eqn:Hn; [|reflexivity].
  apply dict_lookup_set_ne. intros ->. by apply (Hnone dep); [left|].
Qed.

Lemma enter_lookup_some (deps : list string) (name : string) (acc : pydict) :
  is_Some (dict_lookup name (fold_left enter_requirement deps acc)) <->
  is_Some (dict_lookup name acc)
  \/ exists dep, In dep deps /\ requirement_name dep = Some name.
Proof.
  revert acc. induction deps as [|dep deps IH]; intros acc.
  - cbn [fold_left]. split; [by left | by intros [H|(d & [] & _)]].
  - cbn [fold_left]. rewrite IH. unfold enter_requirement at 1.
    destruct (requirement_name dep) as [n|] eqn:Hn.
    + destruct (String.eqb n name) eqn:E.
      * apply String.eqb_eq in E as ->. rewrite dict_lookup_set_eq. split.
        -- intros _. right. exists dep. split; [by left | done].
        -- intros _. left. by eexists.
      * apply String.eqb_neq in E. rewrite (dict_lookup_set_ne _ _ _ _ E).
        split.
        -- intros [H|(d & Hd & Hname)]; [by left|].
           right. exists d. split; [by right | done].
        -- intros [H|(d & [<-|Hd] & Hname)]; [by left | congruence |].
           right. by exists d.
    + split.
      * intros [H|(d & Hd & Hname)]; [by left|].
        right. exists d. split; [by right | done].
      * intros [H|(d & [<-|Hd] & Hname)]; [by left | congruence |].
        right. by exists d.
Qed.

(** X14: the table that the loop over a [requires_dist] of strings builds.
    It has every name once; each name is free of operator characters and
    of outer white space, each constraint is empty or starts with an
    operator character; the names are those of the requirements that
    match; and a name that several requirements share carries the
    constraint of the last of them. *)
Theorem requirements_table (deps : list string) :
  exists table,
    parse_requires (map JStr deps) [] = inr table
    /\ List.NoDup (map fst table)
    /\ Forall requirement_entry table
    /\ (forall name,
           is_Some (dict_lookup name table) <->
           exists dep, In dep deps /\ requirement_name dep = Some name)
    /\ (forall before dep after name,
           deps = (before ++ dep :: after)%list ->
           requirement_name dep = Some name ->
           (forall d, In d after -> requirement_name d <> Some name) ->
           dict_lookup name table = Some (JStr (requirement_version dep))).
Proof.
  exists (fold_left enter_requirement deps []).
  split; [apply parse_requires_strings|].
  assert (Hinv : forall acc,
             List.NoDup (map fst acc) -> Forall requirement_entry acc ->
             List.NoDup (map fst (fold_left enter_requirement deps acc))
             /\ Forall requirement_entry (fold_left enter_requirement deps acc)).
  { induction deps as [|dep deps IH]; intros acc Hnd Hall; [by split|].
    cbn [fold_left]. apply IH; unfold enter_requirement;
      destruct (requirement_name dep) as [n|] eqn:Hn; try done.
    - by apply dict_set_nodup.
    - apply dict_set_forall; [by apply entered_requirement | done]. }
  destruct (Hinv [] (List.NoDup_nil _) (List.Forall_nil _)) as [Hnd Hall].
  split; [exact Hnd|]. split; [exact Hall|]. split.
  - intros name. rewrite enter_lookup_some. split; [|by right].
    intros [[x Hx]|H]; [discriminate Hx | exact H].
  - intros before dep after name -> Hname Hafter.
    rewrite fold_left_app. cbn [fold_left].
    rewrite (enter_lookup_other after name _ Hafter).
    unfold enter_requirement at 1. rewrite Hname. apply dict_lookup_set_eq.
Qed.

(** ** The dependencies of a package *)

Section Dependencies.

Context {L : Libs} {HL : LibsOk L}.

Lemma version_or_asked (version : option string) (latest : string) :
version_or version (inr (JStr latest))
= inr (JStr (asked_version version latest)).
Proof.
unfold version_or, asked_version.
destruct version as [v|]; [by destruct (PyStr.nonempty v) | reflexivity].
Qed.

Lemma truthy_strings (deps : list string) :
Py.truthy (JArr (map JStr deps))
= match deps with [] => false | _ => true end.
Proof. by destruct deps. Qed.

(** X15: the dependencies of a PyPI project.  When the version asked for
  (the one the request names, or else the latest) is not a key of
  [releases], the table is empty and there is no error.  When it is, the
  table is built from [info.requires_dist], the requirements of the
  latest release, whichever release was asked for; a missing or null
  [requires_dist] gives the empty table. *)
Theorem dependencies_of_pypi_document
      (http_get : World) (query : DependencyQuery.t)
      (document releases info : pydict) (latest : string) :
PyStr.lower (DependencyQuery.package_manager query) = "pip" ->
http_get (pypi_url (DependencyQuery.package_name query))
= Response 200 (inr (JObj document)) ->
dict_lookup "releases" document = Some (JObj releases) ->
dict_lookup "info" document = Some (JObj info) ->
dict_lookup "version" info = Some (JStr latest) ->
let asked := asked_version (DependencyQuery.version query) latest in
let answer table :=
  inr {| DependencyResult.package_name :=
           DependencyQuery.package_name query;
         DependencyResult.package_manager := "pip";
         DependencyResult.dependencies := table;
         DependencyResult.error := None |} in
(dict_lookup asked releases = None ->
 get_dependencies http_get query = answer [])
/\ (is_Some (dict_lookup asked releases) ->
    (forall deps,
        dict_lookup "requires_dist" info = Some (JArr (map JStr deps)) ->
        get_dependencies http_get query
        = answer (fold_left enter_requirement deps []))
    /\ (dict_lookup "requires_dist" info = None
        \/ dict_lookup "requires_dist" info = Some JNull ->
        get_dependencies http_get query = answer [])).
Proof using HL.
intros Hm Hget Hrel Hinfo Hver asked answer.
assert (Hbody : forall deps : Exc json,
           (present <~ Py.contains (JObj releases) (JStr asked) ;;
            if present then
              info' <~ item (JObj document) "info" ;;
              requires_dist <~ Py.get info' "requires_dist" (JArr []) ;;
              if Py.truthy requires_dist then
                ds <~ Py.iter requires_dist ;;
                d <~ parse_requires ds [] ;; inr (JObj d)
              else inr (JObj [])
            else inr (JObj [])) = deps ->
           get_dependencies http_get query
           = match deps with
             | inr v =>
                 match new_DependencyResult
                         (DependencyQuery.package_name query) "pip" v None
                 with
                 | inr r => inr r
                 | inl e =>
                     new_DependencyResult
                       (DependencyQuery.package_name query)
                       (DependencyQuery.package_manager query) (JObj [])
                       (Some (str_exn e))
                 end
             | inl e =>
                 new_DependencyResult
                   (DependencyQuery.package_name query)
                   (DependencyQuery.package_manager query) (JObj [])
                   (Some (str_exn e))
             end).
{ intros deps <-. unfold get_dependencies, dependencies_body.
  rewrite (pip_template _ Hm), format_pypi, Hget, Hm.
  change (negb (200 =? 200)%Z) with false. cbv iota.
  change (String.eqb "pip" "pip") with true. cbv iota.
  assert (Hlatest : (i <~ item (JObj document) "info" ;; item i "version")
                    = inr (JStr latest)).
  { unfold item, Py.getitem. cbn [Py.hashable]. rewrite Hinfo.
    cbn [bindE]. by rewrite Hver. }
  cbn [bindE]. rewrite Hlatest, version_or_asked. fold asked. cbn [bindE]. unfold item at 1, Py.getitem. cbn [Py.hashable].
  rewrite Hrel. cbn [bindE].
  destruct (bindE (Py.contains _ _) _) as [e|v]; [reflexivity|].
  cbn [bindE]. by destruct (new_DependencyResult _ "pip" v None). }
assert (Hanswer : forall table,
           new_DependencyResult (DependencyQuery.package_name query)
             "pip" (JObj table) None = answer table).
{ intros table. unfold new_DependencyResult, validate_dict.
  by rewrite dict_field_obj. }
cbn [Py.contains Py.hashable] in Hbody. split; [|intros [x Hx]; split].
- intros Hnone. rewrite (Hbody (inr (JObj []))); [by rewrite Hanswer|].
  by rewrite Hnone.
- intros deps Hreq.
  rewrite (Hbody (inr (JObj (fold_left enter_requirement deps []))));
    [by rewrite Hanswer|].
  rewrite Hx. cbn [bindE]. unfold item, Py.getitem. cbn [Py.hashable].
  rewrite Hinfo. cbn [bindE Py.get]. rewrite Hreq. cbn [bindE].
  rewrite truthy_strings. destruct deps as [|dep deps]; [reflexivity|].
  cbn [Py.iter bindE]. by rewrite parse_requires_strings.
- intros Hreq. rewrite (Hbody (inr (JObj []))); [by rewrite Hanswer|].
  rewrite Hx. cbn [bindE]. unfold item, Py.getitem. cbn [Py.hashable].
  rewrite Hinfo. cbn [bindE Py.get]. by destruct Hreq as [-> | ->].
Qed.

(** X16: the dependencies of an npm package.  When the version asked for
  (the one the request names, or else the [latest] tag) is not a key of
  [versions], the table is empty and there is no error.  When it is, the
  table is the [dependencies] object of that version's entry as the
  registry gives it, and empty when the entry has none. *)
Theorem dependencies_of_npm_document
      (http_get : World) (query : DependencyQuery.t)
      (document entries tags : pydict) (latest : string) :
PyStr.lower (DependencyQuery.package_manager query) = "npm" ->
http_get (npm_url (DependencyQuery.package_name query))
= Response 200 (inr (JObj document)) ->
dict_lookup "versions" document = Some (JObj entries) ->
dict_lookup "dist-tags" document = Some (JObj tags) ->
dict_lookup "latest" tags = Some (JStr latest) ->
let asked := asked_version (DependencyQuery.version query) latest in
let answer table :=
  inr {| DependencyResult.package_name :=
           DependencyQuery.package_name query;
         DependencyResult.package_manager := "npm";
         DependencyResult.dependencies := table;
         DependencyResult.error := None |} in
(dict_lookup asked entries = None ->
 get_dependencies http_get query = answer [])
/\ (forall entry,
       dict_lookup asked entries = Some (JObj entry) ->
       (forall table,
           dict_lookup "dependencies" entry = Some (JObj table) ->
           get_dependencies http_get query = answer table)
       /\ (dict_lookup "dependencies" entry = None ->
           get_dependencies http_get query = answer [])).
Proof using HL.
intros Hm Hget Hent Htags Hver asked answer.
assert (Hbody : forall deps : Exc json,
           (present <~ Py.contains (JObj entries) (JStr asked) ;;
            if present then
              entries' <~ item (JObj document) "versions" ;;
              entry <~ Py.getitem entries' (JStr asked) ;;
              Py.get entry "dependencies" (JObj [])
            else inr (JObj [])) = deps ->
           get_dependencies http_get query
           = match deps with
             | inr v =>
                 match new_DependencyResult
                         (DependencyQuery.package_name query) "npm" v None
                 with
                 | inr r => inr r
                 | inl e =>
                     new_DependencyResult
                       (DependencyQuery.package_name query)
                       (DependencyQuery.package_manager query) (JObj [])
                       (Some (str_exn e))
                 end
             | inl e =>
                 new_DependencyResult
                   (DependencyQuery.package_name query)
                   (DependencyQuery.package_manager query) (JObj [])
                   (Some (str_exn e))
             end).
{ intros deps <-. unfold get_dependencies, dependencies_body.
  rewrite (npm_template _ Hm), format_npm, Hget, Hm.
  change (negb (200 =? 200)%Z) with false. cbv iota.
  change (String.eqb "npm" "pip") with false.
  change (String.eqb "npm" "npm") with true. cbv iota.
  assert (Hlatest : (t <~ item (JObj document) "dist-tags" ;;
                     item t "latest") = inr (JStr latest)).
  { unfold item, Py.getitem. cbn [Py.hashable]. rewrite Htags.
    cbn [bindE]. by rewrite Hver. }
  cbn [bindE]. rewrite Hlatest, version_or_asked. fold asked. cbn [bindE]. unfold item at 1, Py.getitem at 1. cbn [Py.hashable].
  rewrite Hent. cbn [bindE].
  destruct (bindE (Py.contains _ _) _) as [e|v]; [reflexivity|].
  cbn [bindE]. by destruct (new_DependencyResult _ "npm" v None). }
assert (Hanswer : forall table,
           new_DependencyResult (DependencyQuery.package_name query)
             "npm" (JObj table) None = answer table).
{ intros table. unfold new_DependencyResult, validate_dict.
  by rewrite dict_field_obj. }
cbn [Py.contains Py.hashable] in Hbody. split; [|intros entry Hx; split].
- intros Hnone. rewrite (Hbody (inr (JObj []))); [by rewrite Hanswer|].
  by rewrite Hnone.
- intros table Hdeps. rewrite (Hbody (inr (JObj table)));
    [by rewrite Hanswer|].
  rewrite Hx. cbn [bindE]. unfold item, Py.getitem. cbn [Py.hashable].
  rewrite Hent. cbn [bindE]. rewrite Hx. cbn [bindE Py.get].
  by rewrite Hdeps.
- intros Hdeps. rewrite (Hbody (inr (JObj []))); [by rewrite Hanswer|].
  rewrite Hx. cbn [bindE]. unfold item, Py.getitem. cbn [Py.hashable].
  rewrite Hent. cbn [bindE]. rewrite Hx. cbn [bindE Py.get].
  by rewrite Hdeps.
Qed.

End Dependencies.

(** ** The identifying fields of a result *)

Section Identity.

Context {L : Libs} {HL : LibsOk L}.

Lemma new_PackageResult_ids name manager versions latest descr err r :
new_PackageResult name manager versions latest descr err = inr r ->
PackageResult.package_name r = name
/\ PackageResult.package_manager r = manager.
Proof.
unfold new_PackageResult. intros H.
apply bindE_inr in H as (a & _ & H). apply bindE_inr in H as (b & _ & H).
by injection H as <-.
Qed.

Lemma new_DependencyResult_ids name manager deps err r :
new_DependencyResult name manager deps err = inr r ->
DependencyResult.package_name r = name
/\ DependencyResult.package_manager r = manager.
Proof.
unfold new_DependencyResult. intros H.
apply bindE_inr in H as (a & _ & H). by injection H as <-.
Qed.

Lemma new_VersionResult_ids name manager versions recommended err r :
new_VersionResult name manager versions recommended err = inr r ->
VersionResult.package_name r = name
/\ VersionResult.package_manager r = manager.
Proof.
unfold new_VersionResult. intros H.
apply bindE_inr in H as (a & _ & H). by injection H as <-.
Qed.

Lemma package_info_body_ids http_get (query : PackageQuery.t) r :
package_info_body http_get query = inr r ->
PackageResult.package_name r = PackageQuery.package_name query
/\ PackageResult.package_manager r
   = PyStr.lower (PackageQuery.package_manager query).
Proof.
unfold package_info_body. intros Hbody.
destruct (PACKAGE_REGISTRIES !! _) as [template|];
  [|by apply new_PackageResult_ids in Hbody].
destruct (http_get _) as [e'|status document]; [discriminate|].
destruct (negb (status =? 200)%Z);
  [by apply new_PackageResult_ids in Hbody|].
apply bindE_inr in Hbody as (data & _ & Hbody).
apply bindE_inr in Hbody as ([[versions latest] descr] & _ & Hbody).
by apply new_PackageResult_ids in Hbody.
Qed.

Lemma dependencies_body_ids http_get (query : DependencyQuery.t) r :
dependencies_body http_get query = inr r ->
DependencyResult.package_name r = DependencyQuery.package_name query
/\ DependencyResult.package_manager r
   = PyStr.lower (DependencyQuery.package_manager query).
Proof.
unfold dependencies_body. intros Hbody.
destruct (PACKAGE_REGISTRIES !! _) as [template|];
  [|by apply new_DependencyResult_ids in Hbody].
destruct (http_get _) as [e'|status document]; [discriminate|].
destruct (negb (status =? 200)%Z);
  [by apply new_DependencyResult_ids in Hbody|].
apply bindE_inr in Hbody as (data & _ & Hbody).
apply bindE_inr in Hbody as (deps & _ & Hbody).
by apply new_DependencyResult_ids in Hbody.
Qed.

Lemma compatible_versions_body_ids http_get (query : VersionQuery.t) r h :
compatible_versions_body http_get query [] = (inr r, h) ->
VersionResult.package_name r = VersionQuery.package_name query
/\ VersionResult.package_manager r
   = PyStr.lower (VersionQuery.package_manager query).
Proof.
unfold compatible_versions_body. intros Hbody.
destruct (PACKAGE_REGISTRIES !! _) as [template|];
  [|unfold lift in Hbody; injection Hbody as Hbody _;
    by apply new_VersionResult_ids in Hbody].
destruct (http_get _) as [e'|status document]; [discriminate|].
destruct (negb (status =? 200)%Z);
  [unfold lift in Hbody; injection Hbody as Hbody _;
   by apply new_VersionResult_ids in Hbody|].
apply bindM_inr in Hbody as (data & h1 & _ & Hbody).
apply bindM_inr in Hbody as ([p latest] & h2 & _ & Hbody).
apply bindM_inr in Hbody as (latest' & h3 & _ & Hbody).
apply bindM_inr in Hbody as ([p' recommended] & h4 & _ & Hbody).
apply bindM_inr in Hbody as (versions & h5 & _ & Hbody).
unfold lift in Hbody. injection Hbody as Hbody _.
by apply new_VersionResult_ids in Hbody.
Qed.

(** X17: every result carries the package name of its request.  Its
  manager is the request's in lower case when the body returned the
  result, and the request's as it was sent, letter case kept, when the
  handler built it from a fault. *)
Theorem result_names_the_request (http_get : World) :
(forall query : PackageQuery.t,
    exists r,
      get_package_info http_get query = inr r
      /\ PackageResult.package_name r = PackageQuery.package_name query
      /\ PackageResult.package_manager r
         = match package_info_body http_get query with
           | inr _ => PyStr.lower (PackageQuery.package_manager query)
           | inl _ => PackageQuery.package_manager query
           end)
/\ (forall query : DependencyQuery.t,
       exists r,
         get_dependencies http_get query = inr r
         /\ DependencyResult.package_name r
            = DependencyQuery.package_name query
         /\ DependencyResult.package_manager r
            = match dependencies_body http_get query with
              | inr _ => PyStr.lower (DependencyQuery.package_manager query)
              | inl _ => DependencyQuery.package_manager query
              end)
/\ (forall query : VersionQuery.t,
       exists r,
         get_compatible_versions http_get query = inr r
         /\ VersionResult.package_name r = VersionQuery.package_name query
         /\ VersionResult.package_manager r
            = match fst (compatible_versions_body http_get query []) with
              | inr _ => PyStr.lower (VersionQuery.package_manager query)
              | inl _ => VersionQuery.package_manager query
              end).
Proof using HL.
split; [|split]; intros query.
- unfold get_package_info.
  destruct (package_info_body http_get query) as [e|r] eqn:Hbody.
  + rewrite new_package_failure. by eexists.
  + exists r. split; [reflexivity|]. by apply (package_info_body_ids http_get).
- unfold get_dependencies.
  destruct (dependencies_body http_get query) as [e|r] eqn:Hbody.
  + rewrite new_dependency_failure. by eexists.
  + exists r. split; [reflexivity|]. by apply (dependencies_body_ids http_get).
- unfold get_compatible_versions, run_compatible_versions.
  destruct (compatible_versions_body http_get query []) as [[e|r] h]
    eqn:Hbody.
  + rewrite new_version_failure. by eexists.
  + exists r. split; [reflexivity|].
    by apply (compatible_versions_body_ids http_get _ _ h).
Qed.

End Identity.

(** ** The further properties on concrete requests *)

Lemma unlisted_manager_is_refused_witness :
  get_compatible_versions unreachable (ask "Cargo" None)
  = inr (version_failure "demo" "cargo" "Unsupported package manager: cargo").
Proof.
  apply (proj2 (proj2 (unlisted_manager_is_refused (HL := reference_ok)
                         unreachable "demo" "Cargo"
                         ltac:(intros [H|[H|[]]]; discriminate H)))).
Defined.

Lemma one_request_decides_witness :
  get_compatible_versions (pypi pypi_releases "2.0.0")
                          (ask "pip" (Some ">=1.2"))
  = get_compatible_versions
      (only_at (pypi_url "demo") (pypi pypi_releases "2.0.0"))
      (ask "pip" (Some ">=1.2")).
Proof.
  apply (proj2 (proj2 (one_request_decides
                         (pypi pypi_releases "2.0.0")
                         (only_at (pypi_url "demo")
                                  (pypi pypi_releases "2.0.0"))
                         "demo" "pip"
                         ltac:(intros _; reflexivity)
                         ltac:(intros H; discriminate H)))).
Defined.

Lemma returned_versions_come_from_candidates_witness :
  get_compatible_versions (pypi pypi_releases "2.0.0")
                          (ask "pip" (Some "<=1.2.0"))
  = inr (resolved (ask "pip" (Some "<=1.2.0")) ["1.2.0"; "1.0.0"]
                  (Some "1.2.0"))
  /\ exists r m,
       get_compatible_versions (pypi pypi_releases "2.0.0")
                               (ask "pip" (Some "<=1.2.0")) = inr r
       /\ sublist m pypi_releases
       /\ Permutation m (VersionResult.compatible_versions r)
       /\ (NoDup pypi_releases -> NoDup (VersionResult.compatible_versions r))
       /\ (forall c, Some "<=1.2.0" = Some c -> PyStr.nonempty c = true ->
                     VersionResult.recommended_version r
                     = head (VersionResult.compatible_versions r)).
Proof.
  split; [vm_compute; reflexivity|].
  exact (returned_versions_come_from_candidates (HL := reference_ok)
           (pypi pypi_releases "2.0.0") (ask "pip" (Some "<=1.2.0"))
           pypi_releases (JStr "2.0.0") (pypi_reports _ _ _)).
Defined.

Lemma run_keeps_the_candidates_versions_witness :
  exists l,
    snd (run_compatible_versions (pypi pypi_releases "2.0.0")
                                 (ask "pip" (Some "^1.0"))) !! 1 = Some l
    /\ Permutation pypi_releases l.
Proof.
  destruct (run_keeps_the_candidates_versions (HL := reference_ok)
              (pypi pypi_releases "2.0.0") (ask "pip" (Some "^1.0"))
              pypi_releases (JStr "2.0.0") (pypi_reports _ _ _))
    as (l & Hl & Hperm & _).
  exists l. split; [exact Hl | exact Hperm].
Defined.

Lemma no_candidates_no_error_witness :
  get_compatible_versions (pypi [] "1.0") (ask "pip" (Some ">=garbage"))
  = inr (resolved (ask "pip" (Some ">=garbage")) [] None).
Proof.
  apply (no_candidates_no_error (HL := reference_ok)
           (pypi [] "1.0") (ask "pip" (Some ">=garbage")) [] (JStr "1.0")
           (pypi_reports _ _ _) ">=garbage"); reflexivity.
Defined.

Lemma unparsable_operand_fails_request_witness :
  get_compatible_versions (pypi pypi_releases "2.0.0")
                          (ask "pip" (Some ">=garbage"))
  = inr (failed (ask "pip" (Some ">=garbage")) (InvalidVersion "garbage")).
Proof.
  apply (unparsable_operand_fails_request (HL := reference_ok)
           (pypi pypi_releases "2.0.0") (ask "pip" (Some ">=garbage"))
           pypi_releases (JStr "2.0.0") (pypi_reports _ _ _)
           ">=" "garbage" version_ge "1.0.0" ["1.2.0"; "1.2.3"; "2.0.0"]).
  - left. reflexivity.
  - intros [H|H]; discriminate H.
  - reflexivity.
  - reflexivity.
  - reflexivity.
  - eexists. reflexivity.
Defined.

Lemma constrained_result_ignores_latest_witness :
  get_compatible_versions (pypi pypi_releases "1.0.0")
                          (ask "pip" (Some "<2"))
  = get_compatible_versions (pypi pypi_releases "2.0.0")
                            (ask "pip" (Some "<2")).
Proof.
  apply (constrained_result_ignores_latest (HL := reference_ok)
           (pypi pypi_releases "2.0.0") (ask "pip" (Some "<2"))
           pypi_releases (JStr "2.0.0") (pypi_reports _ _ _) "<2"
           (pypi pypi_releases "1.0.0") (JStr "1.0.0")).
  - reflexivity.
  - reflexivity.
  - apply pypi_reports.
Defined.

Lemma equal_versions_keep_their_order_witness :
  get_compatible_versions (pypi ["1.0"; "2.0"; "1.0.0"] "2.0")
                          (ask "pip" (Some "<=1.0"))
  = inr (resolved (ask "pip" (Some "<=1.0")) ["1.0"; "1.0.0"] (Some "1.0"))
  /\ sublist ["1.0"; "1.0.0"] ["1.0"; "2.0"; "1.0.0"]
  /\ forall k,
       List.filter (same_version k) ["1.0"; "1.0.0"]
       = List.filter (same_version k) ["1.0"; "1.0.0"].
Proof.
  split; [vm_compute; reflexivity|].
  apply (equal_versions_keep_their_order (HL := reference_ok)
           (pypi ["1.0"; "2.0"; "1.0.0"] "2.0") (ask "pip" (Some "<=1.0"))
           ["1.0"; "2.0"; "1.0.0"] (JStr "2.0") "<=1.0" ["1.0"; "1.0.0"]
           (resolved (ask "pip" (Some "<=1.0")) ["1.0"; "1.0.0"] (Some "1.0"))
           (pypi_reports _ _ _)).
  - reflexivity.
  - reflexivity.
  - vm_compute. reflexivity.
  - vm_compute. reflexivity.
  - reflexivity.
Defined.

Lemma compatible_prefix_ends_at_last_dot_witness :
  compatible_prefix "1.4.2" = "1.4."
  /\ compatible_prefix "2" = "."
  /\ (forall v, PyStr.startswith v (compatible_prefix "2")
                = PyStr.startswith v ".").
Proof.
  exact (compatible_prefix_ends_at_last_dot "1.4" "2" eq_refl).
Defined.

Lemma package_info_of_pypi_document_witness :
  get_package_info
    (serving (pypi_project ["1.0"; "2.0"] "2.0" []))
    {| PackageQuery.package_name := "demo";
       PackageQuery.package_manager := "Pip";
       PackageQuery.version := None |}
  = inr {| PackageResult.package_name := "demo";
           PackageResult.package_manager := "pip";
           PackageResult.versions := ["1.0"; "2.0"];
           PackageResult.latest_version := "2.0";
           PackageResult.description := None;
           PackageResult.error := None |}.
Proof.
  exact (package_info_of_pypi_document (HL := reference_ok)
           (serving (pypi_project ["1.0"; "2.0"] "2.0" []))
           {| PackageQuery.package_name := "demo";
              PackageQuery.package_manager := "Pip";
              PackageQuery.version := None |}
           (pypi_project ["1.0"; "2.0"] "2.0" [])
           [("1.0", JArr []); ("2.0", JArr [])]
           [("version", JStr "2.0"); ("summary", JNull);
            ("requires_dist", JArr [])]
           "2.0" JNull None
           eq_refl eq_refl eq_refl eq_refl eq_refl eq_refl eq_refl).
Defined.

Lemma package_info_of_npm_document_witness :
  get_package_info
    (serving (npm_package ["1.0.0"; "1.1.0"] "1.1.0" []))
    {| PackageQuery.package_name := "demo";
       PackageQuery.package_manager := "npm";
       PackageQuery.version := None |}
  = inr {| PackageResult.package_name := "demo";
           PackageResult.package_manager := "npm";
           PackageResult.versions := ["1.0.0"; "1.1.0"];
           PackageResult.latest_version := "1.1.0";
           PackageResult.description := Some "a package";
           PackageResult.error := None |}.
Proof.
  exact (package_info_of_npm_document (HL := reference_ok)
           (serving (npm_package ["1.0.0"; "1.1.0"] "1.1.0" []))
           {| PackageQuery.package_name := "demo";
              PackageQuery.package_manager := "npm";
              PackageQuery.version := None |}
           (npm_package ["1.0.0"; "1.1.0"] "1.1.0" [])
           [("1.0.0", JObj [("dependencies", JObj [])]);
            ("1.1.0", JObj [("dependencies", JObj [])])]
           [("latest", JStr "1.1.0")]
           "1.1.0" (JStr "a package") (Some "a package")
           eq_refl eq_refl eq_refl eq_refl eq_refl eq_refl eq_refl).
Defined.

Lemma document_without_releases_is_an_error_witness :
  get_compatible_versions (serving [("info", JNull)]) (ask "PIP" None)
  = inr (version_failure "demo" "PIP" "'releases'").
Proof.
  apply (proj2 (document_without_releases_is_an_error (HL := reference_ok)
                  (serving [("info", JNull)]) "demo" "PIP"
                  [("info", JNull)] eq_refl eq_refl eq_refl)).
Defined.


Lemma requirements_table_witness :
  exists table,
    parse_requires (map JStr ["requests>=2.0"; "idna"; "requests <3"]) []
    = inr table
    /\ dict_lookup "requests" table = Some (JStr "<3").
Proof.
  destruct (requirements_table ["requests>=2.0"; "idna"; "requests <3"])
    as (table & Hparse & _ & _ & _ & Hlast).
  exists table. split; [exact Hparse|].
  apply (Hlast ["requests>=2.0"; "idna"] "requests <3" [] "requests");
    [reflexivity | reflexivity | intros d []].
Defined.

Lemma dependencies_of_pypi_document_witness :
  let http_get :=
    serving (pypi_project ["1.0"; "2.0"] "2.0" ["requests>=2.0"; "idna"]) in
  let query version :=
    {| DependencyQuery.package_name := "demo";
       DependencyQuery.package_manager := "pip";
       DependencyQuery.version := version;
       DependencyQuery.depth := Some 1%Z |} in
  get_dependencies http_get (query (Some "3.0"))
  = inr {| DependencyResult.package_name := "demo";
           DependencyResult.package_manager := "pip";
           DependencyResult.dependencies := [];
           DependencyResult.error := None |}
  /\ get_dependencies http_get (query (Some "1.0"))
     = inr {| DependencyResult.package_name := "demo";
              DependencyResult.package_manager := "pip";
              DependencyResult.dependencies :=
                [("requests", JStr ">=2.0"); ("idna", JStr "")];
              DependencyResult.error := None |}.
Proof.
  intros http_get query. split.
  - apply (proj1 (dependencies_of_pypi_document (HL := reference_ok)
                    http_get (query (Some "3.0"))
                    (pypi_project ["1.0"; "2.0"] "2.0"
                                  ["requests>=2.0"; "idna"])
                    [("1.0", JArr []); ("2.0", JArr [])]
                    [("version", JStr "2.0"); ("summary", JNull);
                     ("requires_dist",
                      JArr (map JStr ["requests>=2.0"; "idna"]))]
                    "2.0" eq_refl eq_refl eq_refl eq_refl eq_refl)).
    reflexivity.
  - apply (proj1 (proj2 (dependencies_of_pypi_document (HL := reference_ok)
                    http_get (query (Some "1.0"))
                    (pypi_project ["1.0"; "2.0"] "2.0"
                                  ["requests>=2.0"; "idna"])
                    [("1.0", JArr []); ("2.0", JArr [])]
                    [("version", JStr "2.0"); ("summary", JNull);
                     ("requires_dist",
                      JArr (map JStr ["requests>=2.0"; "idna"]))]
                    "2.0" eq_refl eq_refl eq_refl eq_refl eq_refl)
                    ltac:(by eexists))
                 ["requests>=2.0"; "idna"]).
    reflexivity.
Defined.

Lemma dependencies_of_npm_document_witness :
  let http_get :=
    serving (npm_package ["1.0.0"; "1.1.0"] "1.1.0"
                         [("left-pad", JStr "^1.3.0")]) in
  let query :=
    {| DependencyQuery.package_name := "demo";
       DependencyQuery.package_manager := "npm";
       DependencyQuery.version := None;
       DependencyQuery.depth := None |} in
  get_dependencies http_get query
  = inr {| DependencyResult.package_name := "demo";
           DependencyResult.package_manager := "npm";
           DependencyResult.dependencies := [("left-pad", JStr "^1.3.0")];
           DependencyResult.error := None |}.
Proof.
  intros http_get query.
  apply (proj1 (proj2 (dependencies_of_npm_document (HL := reference_ok)
                    http_get query
                    (npm_package ["1.0.0"; "1.1.0"] "1.1.0"
                                 [("left-pad", JStr "^1.3.0")])
                    [("1.0.0", JObj [("dependencies",
                                      JObj [("left-pad", JStr "^1.3.0")])]);
                     ("1.1.0", JObj [("dependencies",
                                      JObj [("left-pad", JStr "^1.3.0")])])]
                    [("latest", JStr "1.1.0")]
                    "1.1.0" eq_refl eq_refl eq_refl eq_refl eq_refl)
                 [("dependencies", JObj [("left-pad", JStr "^1.3.0")])]
                 eq_refl)
               [("left-pad", JStr "^1.3.0")]).
  reflexivity.
Defined.

Lemma result_names_the_request_witness :
  exists r,
    get_compatible_versions unreachable (ask "NPM" None) = inr r
    /\ VersionResult.package_name r = "demo"
    /\ VersionResult.package_manager r = "NPM".
Proof.
  destruct (proj2 (proj2 (result_names_the_request (HL := reference_ok)
                            unreachable)) (ask "NPM" None))
    as (r & Hr & Hname & Hmanager).
  exists r. split; [exact Hr|]. split; [exact Hname | exact Hmanager].
Defined.
